(** * EcoRide server: identity and session lifecycle

    A shallow embedding of the account controllers of the EcoRide backend
    ([controllers/auth.js], [routes/auth.js], [controllers/admin.js]) and
    the properties of its natural-language specification.

    Conventions of the embedding.
    - Request fields are JSON strings or absent: a field is an
      [option string], [None] standing for JavaScript's [undefined].
    - The string methods of the runtime that the controllers call,
      [trim], [toUpperCase] and [length], are collaborators: the
      controllers are embedded over any implementation of them.
    - The credential store is the list of its documents in insertion
      order; [findOne] returns the first match.  The validators and unique
      indexes of the [User] schema (models/User.js, not part of the sources
      at hand) are not modelled: [save] always succeeds.
    - Handlers of the auth controller throw; the boundary translator
      (middleware/error-handler.js) is outside the embedding, so a thrown
      error is an outcome of its own.  Handlers of the admin controller
      catch locally and always respond.
    - Console logging is not modelled. *)

From Stdlib Require Import String Ascii List Bool Arith Lia DecimalString Sorted.
Import ListNotations.
Local Open Scope list_scope.
Local Open Scope string_scope.

(* ===================================================================== *)
(** ** JavaScript values and string primitives *)

Module Js.

(** [!!v] for a value that is a string or [undefined]. *)
Definition truthy (v : option string) : bool :=
  match v with
  | Some s => negb (s =? "")
  | None => false
  end.

(** The value itself when it is truthy: what the code holds after a
    guard of the form [if (!v) throw ...]. *)
Definition provided (v : option string) : option string :=
  match v with
  | Some s => if s =? "" then None else Some s
  | None => None
  end.

(** [v !== undefined] *)
Definition defined {A} (v : option A) : bool :=
  match v with Some _ => true | None => false end.

(** [list.includes(x)] *)
Definition includes (l : list string) (x : string) : bool :=
  existsb (String.eqb x) l.

(** [v || d] *)
Definition or_else (v : option string) (d : string) : string :=
  match provided v with Some s => s | None => d end.

End Js.

(* ===================================================================== *)
(** ** JSON payloads *)

Module Json.

#[warning="-register-all"]
Inductive json : Type :=
| JNull
| JBool (b : bool)
| JNum (n : nat)
| JStr (s : string)
| JArr (items : list json)
| JObj (fields : list (string * json)).

Definition keys (j : json) : list string :=
  match j with
  | JObj fs => map fst fs
  | _ => []
  end.

Definition has_key (k : string) (j : json) : bool :=
  Js.includes (keys j) k.

Fixpoint assoc (k : string) (fs : list (string * json)) : option json :=
  match fs with
  | [] => None
  | (k', v) :: rest => if k' =? k then Some v else assoc k rest
  end.

Definition get (k : string) (j : json) : option json :=
  match j with
  | JObj fs => assoc k fs
  | _ => None
  end.

(** The object without one of its keys. *)
Definition omit (k : string) (j : json) : json :=
  match j with
  | JObj fs => JObj (filter (fun kv => negb (fst kv =? k)) fs)
  | _ => j
  end.

(** A key that is written only when its value is defined. *)
Definition opt_field (k : string) (v : option string) : list (string * json) :=
  match v with
  | Some s => [(k, JStr s)]
  | None => []
  end.

End Json.
Import Json.

(* ===================================================================== *)
(** ** HTTP outcomes *)

Module StatusCodes.
Definition OK := 200.
Definition CREATED := 201.
Definition BAD_REQUEST := 400.
Definition UNAUTHORIZED := 401.
Definition FORBIDDEN := 403.
Definition NOT_FOUND := 404.
Definition INTERNAL_SERVER_ERROR := 500.
End StatusCodes.

(** The error classes of errors/index.js, and [OtherError] for any other
    exception (a failure of the store or of a library). *)
Inductive HttpError : Type :=
| BadRequestError (message : string)
| UnauthenticatedError (message : string)
| NotFoundError (message : string)
| OtherError (message : string).

Definition error_message (e : HttpError) : string :=
  match e with
  | BadRequestError m | UnauthenticatedError m | NotFoundError m | OtherError m => m
  end.

(** [res.status(code).json(body)] *)
Record Response : Type := mkResponse { code : nat; payload : json }.

(* ===================================================================== *)
(** ** Accounts and the credential store *)

Record User : Type := mkUser {
  _id : nat;
  email : string;
  password : string;
  role : string;
  firstName : option string;
  middleName : option string;
  lastName : option string;
  phone : option string;
  schoolId : option string;
  licenseId : option string;
  sex : option string;
  approved : bool;
  status : string;
  disapprovalReason : option string;
  createdAt : nat
}.

Definition set_email (v : string) (u : User) : User :=
  mkUser (_id u) v (password u) (role u) (firstName u) (middleName u) (lastName u)
    (phone u) (schoolId u) (licenseId u) (sex u) (approved u) (status u)
    (disapprovalReason u) (createdAt u).
Definition set_password (v : string) (u : User) : User :=
  mkUser (_id u) (email u) v (role u) (firstName u) (middleName u) (lastName u)
    (phone u) (schoolId u) (licenseId u) (sex u) (approved u) (status u)
    (disapprovalReason u) (createdAt u).
Definition set_role (v : string) (u : User) : User :=
  mkUser (_id u) (email u) (password u) v (firstName u) (middleName u) (lastName u)
    (phone u) (schoolId u) (licenseId u) (sex u) (approved u) (status u)
    (disapprovalReason u) (createdAt u).
Definition set_firstName (v : option string) (u : User) : User :=
  mkUser (_id u) (email u) (password u) (role u) v (middleName u) (lastName u)
    (phone u) (schoolId u) (licenseId u) (sex u) (approved u) (status u)
    (disapprovalReason u) (createdAt u).
Definition set_middleName (v : option string) (u : User) : User :=
  mkUser (_id u) (email u) (password u) (role u) (firstName u) v (lastName u)
    (phone u) (schoolId u) (licenseId u) (sex u) (approved u) (status u)
    (disapprovalReason u) (createdAt u).
Definition set_lastName (v : option string) (u : User) : User :=
  mkUser (_id u) (email u) (password u) (role u) (firstName u) (middleName u) v
    (phone u) (schoolId u) (licenseId u) (sex u) (approved u) (status u)
    (disapprovalReason u) (createdAt u).
Definition set_phone (v : option string) (u : User) : User :=
  mkUser (_id u) (email u) (password u) (role u) (firstName u) (middleName u) (lastName u)
    v (schoolId u) (licenseId u) (sex u) (approved u) (status u)
    (disapprovalReason u) (createdAt u).
Definition set_schoolId (v : option string) (u : User) : User :=
  mkUser (_id u) (email u) (password u) (role u) (firstName u) (middleName u) (lastName u)
    (phone u) v (licenseId u) (sex u) (approved u) (status u)
    (disapprovalReason u) (createdAt u).
Definition set_licenseId (v : option string) (u : User) : User :=
  mkUser (_id u) (email u) (password u) (role u) (firstName u) (middleName u) (lastName u)
    (phone u) (schoolId u) v (sex u) (approved u) (status u)
    (disapprovalReason u) (createdAt u).
Definition set_sex (v : option string) (u : User) : User :=
  mkUser (_id u) (email u) (password u) (role u) (firstName u) (middleName u) (lastName u)
    (phone u) (schoolId u) (licenseId u) v (approved u) (status u)
    (disapprovalReason u) (createdAt u).
Definition set_approved (v : bool) (u : User) : User :=
  mkUser (_id u) (email u) (password u) (role u) (firstName u) (middleName u) (lastName u)
    (phone u) (schoolId u) (licenseId u) (sex u) v (status u)
    (disapprovalReason u) (createdAt u).
Definition set_status (v : string) (u : User) : User :=
  mkUser (_id u) (email u) (password u) (role u) (firstName u) (middleName u) (lastName u)
    (phone u) (schoolId u) (licenseId u) (sex u) (approved u) v
    (disapprovalReason u) (createdAt u).
Definition set_disapprovalReason (v : option string) (u : User) : User :=
  mkUser (_id u) (email u) (password u) (role u) (firstName u) (middleName u) (lastName u)
    (phone u) (schoolId u) (licenseId u) (sex u) (approved u) (status u)
    v (createdAt u).

(** [if (c) u.f = v]: an assignment under a guard. *)
Definition assign_if {A} (c : bool) (set : A -> User -> User) (v : A) (u : User) : User :=
  if c then set v u else u.

(** The JSON form of a document with every path loaded.  The [User]
    schema is not part of the sources at hand; this is the default
    serialisation of a document, every loaded path that is set, with no
    transform. *)
Definition toJSON (u : User) : json :=
  JObj ([("_id", JNum (_id u));
         ("email", JStr (email u));
         ("password", JStr (password u));
         ("role", JStr (role u))]
        ++ opt_field "firstName" (firstName u)
        ++ opt_field "middleName" (middleName u)
        ++ opt_field "lastName" (lastName u)
        ++ opt_field "phone" (phone u)
        ++ opt_field "schoolId" (schoolId u)
        ++ opt_field "licenseId" (licenseId u)
        ++ opt_field "sex" (sex u)
        ++ [("approved", JBool (approved u));
            ("status", JStr (status u))]
        ++ opt_field "disapprovalReason" (disapprovalReason u)
        ++ [("createdAt", JNum (createdAt u))]).

(** [query.select('-password')]: the document without its password path. *)
Definition select_no_password (u : User) : json := omit "password" (toJSON u).

Definition Store : Type := list User.

Module Model.

(** [User.findOne(filter)] *)
Definition findOne (filter : User -> bool) (st : Store) : option User :=
  find filter st.

(** [User.findById(id)] *)
Definition findById (id : nat) (st : Store) : option User :=
  find (fun u => (_id u =? id)%nat) st.

(** The identifier given to [new User(...)]: one that no document has. *)
Definition fresh_id (st : Store) : nat := S (list_max (map _id st)).

(** [doc.save()] for a document read from the store. *)
Fixpoint save (doc : User) (st : Store) : Store :=
  match st with
  | [] => []
  | u :: rest => if (_id u =? _id doc)%nat then doc :: save doc rest else u :: save doc rest
  end.

(** [doc.save()] for a new document. *)
Definition insert (doc : User) (st : Store) : Store := (st ++ [doc])%list.

(** [User.findByIdAndDelete(id)] *)
Definition findByIdAndDelete (id : nat) (st : Store) : Store :=
  filter (fun u => negb (_id u =? id)%nat) st.

End Model.


(* ===================================================================== *)
(** ** Requests *)

(** [req.body]: the fields the handlers destructure from it. *)
Module Req.
Record body : Type := mkBody {
  email : option string;
  password : option string;
  role : option string;
  firstName : option string;
  middleName : option string;
  lastName : option string;
  phone : option string;
  schoolId : option string;
  licenseId : option string;
  sex : option string;
  approved : option bool;
  refresh_token : option string;
  reason : option string
}.

Definition empty : body :=
  mkBody None None None None None None None None None None None None None.
End Req.

(** [req.query] of the listing endpoint. *)
Module Query.
Record t : Type := mkQuery {
  role : option string;
  approved : option string;
  search : option string
}.
End Query.

(* ===================================================================== *)
(** ** Collaborators

    The methods of the [User] model, the libraries and the string methods
    of the runtime that the controllers call.  None of them is part of the
    sources at hand; the controllers are embedded over any implementation
    of them. *)

Class Services : Type := {
  (** the hashing done by the model when a new document is saved *)
  hashPassword : string -> string;
  (** [user.comparePassword(candidate)]; [None] when the call throws *)
  comparePassword : User -> option string -> option bool;
  (** [user.createAccessToken()] *)
  createAccessToken : User -> string;
  (** [user.createRefreshToken()] *)
  createRefreshToken : User -> string;
  (** [jwt.verify(token, REFRESH_TOKEN_SECRET)]: [None] when it throws,
      otherwise the [id] of the payload, which may be undefined *)
  jwt_verify : string -> option (option nat);
  (** a [$regex] with option [i]: [None] when the pattern is not a
      regular expression, otherwise its test on a string *)
  regex_i : string -> option (string -> bool);
  (** [s.trim()] *)
  trim : string -> string;
  (** [s.toUpperCase()] *)
  toUpperCase : string -> string;
  (** [s.length] *)
  js_length : string -> nat
}.

(* ===================================================================== *)
(** ** Handlers: a computation over the store that may throw *)

Definition M (A : Type) : Type := Store -> (HttpError + A) * Store.

Definition ret {A} (a : A) : M A := fun st => (inr a, st).

Definition throw {A} (e : HttpError) : M A := fun st => (inl e, st).

Definition bind {A B} (m : M A) (k : A -> M B) : M B :=
  fun st =>
    match m st with
    | (inl e, st') => (inl e, st')
    | (inr a, st') => k a st'
    end.

(** [try { m } catch (error) { h(error) }] *)
Definition try_catch {A} (m : M A) (h : HttpError -> M A) : M A :=
  fun st =>
    match m st with
    | (inl e, st') => h e st'
    | (inr a, st') => (inr a, st')
    end.

Notation "x <- m ;; k" := (bind m (fun x => k))
  (at level 61, m at next level, right associativity).
Notation "m ;;; k" := (bind m (fun _ => k))
  (at level 61, right associativity).

(** [if (!v) throw e], binding the truthy value. *)
Definition require (v : option string) (e : HttpError) : M string :=
  match Js.provided v with
  | Some s => ret s
  | None => throw e
  end.

(** [if (c) throw e] *)
Definition throw_if (c : bool) (e : HttpError) : M unit :=
  if c then throw e else ret tt.

Definition findOne (filter : User -> bool) : M (option User) :=
  fun st => (inr (Model.findOne filter st), st).

Definition findById (id : nat) : M (option User) :=
  fun st => (inr (Model.findById id st), st).

Definition save (doc : User) : M unit :=
  fun st => (inr tt, Model.save doc st).

Definition insert (doc : User) : M unit :=
  fun st => (inr tt, Model.insert doc st).

Definition findByIdAndDelete (id : nat) : M unit :=
  fun st => (inr tt, Model.findByIdAndDelete id st).

Definition fresh_id : M nat :=
  fun st => (inr (Model.fresh_id st), st).

(** [res.status(c).json(body)] as the result of the handler. *)
Definition respond (c : nat) (fields : list (string * json)) : M Response :=
  ret (mkResponse c (JObj fields)).

(** A document that may be [null], under [select('-password')]. *)
Definition select_opt (d : option User) : json :=
  match d with
  | Some u => select_no_password u
  | None => JNull
  end.

(** The response of a handler that answered. *)
Definition responded (r : (HttpError + Response) * Store) : option Response :=
  match fst r with inl _ => None | inr x => Some x end.

(** Equality of a stored optional field with a given string. *)
Definition field_is (f : option string) (v : string) : bool :=
  match f with
  | Some s => s =? v
  | None => false
  end.

(* ===================================================================== *)
(** ** controllers/auth.js *)

Module Auth.
Section WithServices.
Context {services : Services}.

Definition compare (user : User) (candidate : option string) : M bool :=
  match comparePassword user candidate with
  | Some b => ret b
  | None => throw (OtherError "comparePassword")
  end.

Definition disapproved_body : list (string * json) :=
  [("message", JStr "Your account has been disapproved. Please contact support for assistance.");
   ("status", JStr "disapproved");
   ("isApproved", JBool false)].

Definition pending_body : list (string * json) :=
  [("message", JStr "Your account is pending approval. Please wait for an administrator to approve your account.");
   ("status", JStr "pending");
   ("isApproved", JBool false)].

Definition logged_in_body (user : User) : list (string * json) :=
  [("message", JStr "User logged in successfully");
   ("user", toJSON user);
   ("access_token", JStr (createAccessToken user));
   ("refresh_token", JStr (createRefreshToken user))].

(** [login]: email and password login. *)
Definition login (b : Req.body) : M Response :=
  em <- require (Req.email b) (BadRequestError "Please provide email and password") ;;
  pw <- require (Req.password b) (BadRequestError "Please provide email and password") ;;
  r <- require (Req.role b)
         (BadRequestError "Valid role is required (customer, rider, or admin)") ;;
  throw_if (negb (Js.includes ["customer"; "rider"; "admin"] r))
    (BadRequestError "Valid role is required (customer, rider, or admin)") ;;;
  user <- findOne (fun u => (email u =? em) && (role u =? r)) ;;
  match user with
  | None => throw (UnauthenticatedError "Invalid credentials")
  | Some user =>
      isPasswordCorrect <- compare user (Some pw) ;;
      throw_if (negb isPasswordCorrect) (UnauthenticatedError "Invalid credentials") ;;;
      if negb (r =? "admin") && (status user =? "disapproved") then
        respond StatusCodes.FORBIDDEN disapproved_body
      else if negb (r =? "admin") && (status user =? "pending") then
        respond StatusCodes.FORBIDDEN pending_body
      else
        respond StatusCodes.OK (logged_in_body user)
  end.

(** [register]: a new account; [now] is the time of creation. *)
Definition register (now : nat) (b : Req.body) : M Response :=
  em <- require (Req.email b) (BadRequestError "Please provide email and password") ;;
  pw <- require (Req.password b) (BadRequestError "Please provide email and password") ;;
  r <- require (Req.role b) (BadRequestError "Valid role is required (customer or rider)") ;;
  throw_if (negb (Js.includes ["customer"; "rider"] r))
    (BadRequestError "Valid role is required (customer or rider)") ;;;
  existingUser <- findOne (fun u => email u =? em) ;;
  throw_if (Js.defined existingUser) (BadRequestError "Email already in use") ;;;
  formattedLicenseId <-
    match Req.licenseId b with
    | Some l =>
        if (r =? "rider") && Js.truthy (Some l) then
          let formatted := toUpperCase (trim l) in
          throw_if (js_length formatted <? 4)%nat
            (BadRequestError "License ID must be at least 4 characters") ;;;
          ret (Some formatted)
        else ret (Some l)
    | None => ret None
    end ;;
  id <- fresh_id ;;
  let user :=
    mkUser id em (hashPassword pw) r
      (Req.firstName b) (Req.middleName b) (Req.lastName b) (Req.phone b)
      (Req.schoolId b) formattedLicenseId (Req.sex b)
      false "pending" None now in
  insert user ;;;
  respond StatusCodes.CREATED
    [("message", JStr "User registered successfully. Your account is pending approval.");
     ("user", toJSON user);
     ("access_token", JStr (createAccessToken user));
     ("refresh_token", JStr (createRefreshToken user));
     ("isApproved", JBool false);
     ("status", JStr "pending")].

(** [auth]: the legacy phone login; [random] is the password drawn from
    [Math.random] for a first contact. *)
Definition auth (now : nat) (random : string) (b : Req.body) : M Response :=
  ph <- require (Req.phone b) (BadRequestError "Phone number is required") ;;
  r <- require (Req.role b) (BadRequestError "Valid role is required (customer or rider)") ;;
  throw_if (negb (Js.includes ["customer"; "rider"] r))
    (BadRequestError "Valid role is required (customer or rider)") ;;;
  user <- findOne (fun u => field_is (phone u) ph) ;;
  match user with
  | Some user =>
      throw_if (negb (role user =? r))
        (BadRequestError "Phone number and role do not match") ;;;
      if status user =? "disapproved" then
        respond StatusCodes.FORBIDDEN disapproved_body
      else if status user =? "pending" then
        respond StatusCodes.FORBIDDEN pending_body
      else
        respond StatusCodes.OK (logged_in_body user)
  | None =>
      id <- fresh_id ;;
      let user :=
        mkUser id (ph ++ "@temp.ecoride.com") (hashPassword random) r
          None None None (Some ph) None None None
          false "pending" None now in
      insert user ;;;
      respond StatusCodes.FORBIDDEN
        [("message", JStr "Account pending approval");
         ("status", JStr "pending");
         ("isApproved", JBool false);
         ("user", JObj ([("_id", JNum (_id user))]
                        ++ opt_field "phone" (phone user)
                        ++ [("role", JStr (role user))]))]
  end.

(** [refreshToken] *)
Definition refreshToken (b : Req.body) : M Response :=
  refresh_token <- require (Req.refresh_token b)
                     (BadRequestError "Refresh token is required") ;;
  try_catch
    (payload_id <-
       match jwt_verify refresh_token with
       | Some id => ret id
       | None => throw (OtherError "jwt.verify")
       end ;;
     user <-
       match payload_id with
       | Some id => findById id
       | None => ret None
       end ;;
     match user with
     | None => throw (UnauthenticatedError "Invalid refresh token")
     | Some user =>
         respond StatusCodes.OK
           [("access_token", JStr (createAccessToken user));
            ("refresh_token", JStr (createRefreshToken user))]
     end)
    (fun _ => throw (UnauthenticatedError "Invalid refresh token")).

(** [getUserProfile]; [uid] is [req.user.id], set by the
    authentication middleware. *)
Definition getUserProfile (uid : nat) : M Response :=
  user <- findById uid ;;
  match user with
  | None => throw (UnauthenticatedError "User not found")
  | Some user => respond StatusCodes.OK [("user", select_no_password user)]
  end.

(** [updateUserProfile] *)
Definition updateUserProfile (uid : nat) (b : Req.body) : M Response :=
  user <- findById uid ;;
  match user with
  | None => throw (UnauthenticatedError "User not found")
  | Some user =>
      let user := assign_if (Js.truthy (Req.firstName b)) set_firstName (Req.firstName b) user in
      let user := assign_if (Js.defined (Req.middleName b)) set_middleName (Req.middleName b) user in
      let user := assign_if (Js.truthy (Req.lastName b)) set_lastName (Req.lastName b) user in
      let user := assign_if (Js.truthy (Req.phone b)) set_phone (Req.phone b) user in
      let user := assign_if (Js.defined (Req.schoolId b)) set_schoolId (Req.schoolId b) user in
      user <-
        match Req.licenseId b with
        | Some l =>
            if (role user =? "rider") && Js.truthy (Some l) then
              let formattedLicenseId := toUpperCase (trim l) in
              throw_if (js_length formattedLicenseId <? 4)%nat
                (BadRequestError "License ID must be at least 4 characters") ;;;
              ret (set_licenseId (Some formattedLicenseId) user)
            else ret (set_licenseId (Some l) user)
        | None => ret user
        end ;;
      let user := assign_if (Js.truthy (Req.sex b)) set_sex (Req.sex b) user in
      user <-
        match Js.provided (Req.email b) with
        | Some em =>
            existingUser <- findOne (fun u => (email u =? em) && negb (_id u =? uid)%nat) ;;
            throw_if (Js.defined existingUser) (BadRequestError "Email already in use") ;;;
            ret (set_email em user)
        | None => ret user
        end ;;
      save user ;;;
      updatedUser <- findById uid ;;
      respond StatusCodes.OK
        [("message", JStr "Profile updated successfully");
         ("user", select_opt updatedUser)]
  end.

End WithServices.
End Auth.

(* ===================================================================== *)
(** ** routes/auth.js: the admin login *)

Module AuthRoutes.
Section WithServices.
Context {services : Services}.

Definition admin_login (b : Req.body) : M Response :=
  try_catch
    (admin <- findOne (fun u =>
                match Req.email b with
                | Some em => (email u =? em) && (role u =? "admin")
                | None => false
                end) ;;
     match admin with
     | None =>
         respond StatusCodes.UNAUTHORIZED [("message", JStr "Invalid credentials")]
     | Some admin =>
         isPasswordCorrect <- Auth.compare admin (Req.password b) ;;
         if negb isPasswordCorrect then
           respond StatusCodes.UNAUTHORIZED [("message", JStr "Invalid credentials")]
         else
           respond StatusCodes.OK
             [("message", JStr "Admin logged in successfully");
              ("user", toJSON admin);
              ("access_token", JStr (createAccessToken admin));
              ("refresh_token", JStr (createRefreshToken admin))]
     end)
    (fun error =>
       respond StatusCodes.INTERNAL_SERVER_ERROR
         [("message", JStr "Error during admin login");
          ("error", JStr (error_message error))]).

End WithServices.
End AuthRoutes.

(* ===================================================================== *)
(** ** controllers/admin.js *)

Module Admin.

(** A condition of a query on one path: a value to equal, or [$ne]. *)
Inductive condition : Type :=
| Equals (v : string)
| NotEqual (v : string).

(** The paths a listing query may constrain.  As in a JavaScript object,
    a later assignment to a key replaces an earlier one. *)
Record queryObject : Type := mkQueryObject {
  q_role : option condition;
  q_approved : option bool;
  q_or : option (list ((User -> option string) * string))
}.

Definition empty_query : queryObject := mkQueryObject None None None.

Definition assign_role (c : condition) (q : queryObject) : queryObject :=
  mkQueryObject (Some c) (q_approved q) (q_or q).

Definition assign_approved (v : bool) (q : queryObject) : queryObject :=
  mkQueryObject (q_role q) (Some v) (q_or q).

Definition assign_or (alts : list ((User -> option string) * string))
    (q : queryObject) : queryObject :=
  mkQueryObject (q_role q) (q_approved q) (Some alts).

Definition holds (c : condition) (v : string) : bool :=
  match c with
  | Equals x => v =? x
  | NotEqual x => negb (v =? x)
  end.

(** Insertion into a list in descending order of creation time. *)
Fixpoint insert_desc (u : User) (l : list User) : list User :=
  match l with
  | [] => [u]
  | v :: rest =>
      if (createdAt v <? createdAt u)%nat then u :: l else v :: insert_desc u rest
  end.

(** [sort({ createdAt: -1 })] *)
Definition sort_newest_first (l : list User) : list User :=
  fold_right insert_desc [] l.

(** [No user found with id ${id}] *)
Definition not_found (id : nat) : HttpError :=
  NotFoundError ("No user found with id " ++ NilZero.string_of_uint (Nat.to_uint id)).

Section WithServices.
Context {services : Services}.

(** The test of an [$or] of regular expressions, when each compiles. *)
Fixpoint compile_or (alts : list ((User -> option string) * string))
    : option (User -> bool) :=
  match alts with
  | [] => Some (fun _ => false)
  | (path, pattern) :: rest =>
      match regex_i pattern, compile_or rest with
      | Some test, Some others =>
          Some (fun u =>
                  match path u with
                  | Some s => test s
                  | None => false
                  end || others u)
      | _, _ => None
      end
  end.

(** The documents a query selects: all its conditions hold. *)
Definition selects (q : queryObject) (alternatives : User -> bool) (u : User) : bool :=
  match q_role q with Some c => holds c (role u) | None => true end
  && match q_approved q with Some v => Bool.eqb (approved u) v | None => true end
  && alternatives u.

(** [User.find(queryObject)] *)
Definition find (q : queryObject) : M (list User) :=
  fun st =>
    match q_or q with
    | None => (inr (filter (selects q (fun _ => true)) st), st)
    | Some alts =>
        match compile_or alts with
        | Some alternatives => (inr (filter (selects q alternatives) st), st)
        | None => (inl (OtherError "Regular expression is invalid"), st)
        end
    end.

(** The query that [getAllUsers] builds from [req.query]. *)
Definition build_query (rq : Query.t) : queryObject :=
  let queryObject := empty_query in
  let queryObject :=
    match Js.provided (Query.role rq) with
    | Some r => assign_role (Equals r) queryObject
    | None => queryObject
    end in
  let queryObject :=
    if field_is (Query.approved rq) "true" then assign_approved true queryObject
    else if field_is (Query.approved rq) "false" then assign_approved false queryObject
    else queryObject in
  let queryObject :=
    match Js.provided (Query.search rq) with
    | Some search =>
        assign_or [(firstName, search);
                   (lastName, search);
                   (fun u => Some (email u), search);
                   (phone, search)] queryObject
    | None => queryObject
    end in
  assign_role (NotEqual "admin") queryObject.

Definition getAllUsers (rq : Query.t) : M Response :=
  try_catch
    (users <- find (build_query rq) ;;
     let users := sort_newest_first users in
     respond StatusCodes.OK
       [("count", JNum (List.length users));
        ("users", JArr (map select_no_password users))])
    (fun error =>
       respond StatusCodes.INTERNAL_SERVER_ERROR
         [("message", JStr "Error fetching users");
          ("error", JStr (error_message error))]).

(** The [catch] of the handlers that look one account up. *)
Definition on_error (what : string) (bad_request : bool) (error : HttpError) : M Response :=
  match error with
  | NotFoundError m => respond StatusCodes.NOT_FOUND [("message", JStr m)]
  | BadRequestError m =>
      if bad_request then respond StatusCodes.BAD_REQUEST [("message", JStr m)]
      else respond StatusCodes.INTERNAL_SERVER_ERROR
             [("message", JStr what); ("error", JStr m)]
  | _ =>
      respond StatusCodes.INTERNAL_SERVER_ERROR
        [("message", JStr what); ("error", JStr (error_message error))]
  end.

Definition getUserById (id : nat) : M Response :=
  try_catch
    (user <- findById id ;;
     match user with
     | None => throw (not_found id)
     | Some user => respond StatusCodes.OK [("user", select_no_password user)]
     end)
    (on_error "Error fetching user" false).

Definition approveUser (id : nat) : M Response :=
  try_catch
    (user <- findById id ;;
     match user with
     | None => throw (not_found id)
     | Some user =>
         let user := set_status "approved" user in
         save user ;;;
         updatedUser <- findById id ;;
         respond StatusCodes.OK
           [("message", JStr "User approved successfully");
            ("user", select_opt updatedUser)]
     end)
    (on_error "Error approving user" false).

Definition disapproveUser (id : nat) (b : Req.body) : M Response :=
  try_catch
    (user <- findById id ;;
     match user with
     | None => throw (not_found id)
     | Some user =>
         let user := set_status "disapproved" user in
         let user :=
           set_disapprovalReason
             (Some (Js.or_else (Req.reason b) "No reason provided")) user in
         save user ;;;
         updatedUser <- findById id ;;
         respond StatusCodes.OK
           [("message", JStr "User disapproved successfully");
            ("user", select_opt updatedUser)]
     end)
    (on_error "Error disapproving user" false).

Definition updateUser (id : nat) (b : Req.body) : M Response :=
  try_catch
    (user <- findById id ;;
     match user with
     | None => throw (not_found id)
     | Some user =>
         let user := assign_if (Js.defined (Req.firstName b)) set_firstName (Req.firstName b) user in
         let user := assign_if (Js.defined (Req.middleName b)) set_middleName (Req.middleName b) user in
         let user := assign_if (Js.defined (Req.lastName b)) set_lastName (Req.lastName b) user in
         let user := assign_if (Js.defined (Req.phone b)) set_phone (Req.phone b) user in
         let user := assign_if (Js.defined (Req.schoolId b)) set_schoolId (Req.schoolId b) user in
         let user := assign_if (Js.defined (Req.licenseId b)) set_licenseId (Req.licenseId b) user in
         let user := assign_if (Js.defined (Req.sex b)) set_sex (Req.sex b) user in
         let user :=
           match Req.approved b with
           | Some v => set_approved v user
           | None => user
           end in
         user <-
           match Req.email b with
           | Some em =>
               if negb (em =? email user) then
                 existingUser <- findOne (fun u => (email u =? em) && negb (_id u =? id)%nat) ;;
                 throw_if (Js.defined existingUser) (BadRequestError "Email already in use") ;;;
                 ret (set_email em user)
               else ret user
           | None => ret user
           end ;;
         user <-
           match Req.role b with
           | Some r =>
               if negb (r =? role user) then
                 throw_if (negb (Js.includes ["customer"; "rider"] r))
                   (BadRequestError "Invalid role. Must be customer or rider") ;;;
                 ret (set_role r user)
               else ret user
           | None => ret user
           end ;;
         save user ;;;
         updatedUser <- findById id ;;
         respond StatusCodes.OK
           [("message", JStr "User updated successfully");
            ("user", select_opt updatedUser)]
     end)
    (on_error "Error updating user" true).

Definition deleteUser (id : nat) : M Response :=
  try_catch
    (user <- findById id ;;
     match user with
     | None => throw (not_found id)
     | Some _ =>
         findByIdAndDelete id ;;;
         respond StatusCodes.OK
           [("message", JStr "User deleted successfully");
            ("userId", JNum id)]
     end)
    (on_error "Error deleting user" false).

End WithServices.
End Admin.

(* ===================================================================== *)
(** ** A concrete instance: collaborators and a small store *)

Module Demo.

Definition contains (needle hay : string) : bool :=
  match String.index 0 needle hay with
  | Some _ => true
  | None => false
  end.

(** Stand-ins for the string methods, right on ASCII text only, which
    is all the text of this instance: white space is the ASCII one and
    letters are [a-z]. *)
Definition ascii_is_space (c : ascii) : bool :=
  let n := nat_of_ascii c in
  ((n =? 32) || ((9 <=? n) && (n <=? 13)))%nat.

Definition ascii_upper_char (c : ascii) : ascii :=
  let n := nat_of_ascii c in
  if ((97 <=? n) && (n <=? 122))%nat then ascii_of_nat (n - 32) else c.

Fixpoint ascii_toUpperCase (s : string) : string :=
  match s with
  | EmptyString => EmptyString
  | String c r => String (ascii_upper_char c) (ascii_toUpperCase r)
  end.

Fixpoint ascii_trimStart (s : string) : string :=
  match s with
  | EmptyString => EmptyString
  | String c r => if ascii_is_space c then ascii_trimStart r else s
  end.

Fixpoint ascii_trimEnd (s : string) : string :=
  match s with
  | EmptyString => EmptyString
  | String c r =>
      match ascii_trimEnd r with
      | EmptyString => if ascii_is_space c then EmptyString else String c EmptyString
      | r' => String c r'
      end
  end.

Definition ascii_trim (s : string) : string := ascii_trimEnd (ascii_trimStart s).

(** Collaborators simple enough to evaluate: a hash that prefixes [#],
    tokens that name their kind and the account, three refresh tokens
    that verify, patterns read as plain text unless they are [(], and
    the ASCII stand-ins for the string methods. *)
#[global] Instance services : Services := {|
  hashPassword := fun p => "#" ++ p;
  comparePassword := fun u c =>
    match c with
    | Some p => Some (password u =? "#" ++ p)
    | None => None
    end;
  createAccessToken := fun u => "access:" ++ email u;
  createRefreshToken := fun u => "refresh:" ++ email u;
  jwt_verify := fun t =>
    if t =? "refresh:a@x.com" then Some (Some 1)
    else if t =? "refresh:gone@x.com" then Some (Some 99)
    else if t =? "refresh:anonymous" then Some None
    else None;
  regex_i := fun p =>
    if p =? "(" then None
    else Some (fun s => contains (ascii_toUpperCase p) (ascii_toUpperCase s));
  trim := ascii_trim;
  toUpperCase := ascii_toUpperCase;
  js_length := String.length
|}.

Definition alice : User :=
  mkUser 1 "a@x.com" "#p1" "rider" (Some "Alice") None (Some "Smith") (Some "0911")
    None (Some "AB12") (Some "female") false "pending" None 10.

Definition bob : User :=
  mkUser 2 "b@x.com" "#p2" "customer" (Some "Bob") None (Some "Jones") (Some "0922")
    (Some "S-77") None (Some "male") true "approved" None 20.

Definition root : User :=
  mkUser 3 "root@x.com" "#adm" "admin" (Some "Root") None (Some "Admin") None
    None None None false "pending" None 5.

Definition carol : User :=
  mkUser 4 "c@x.com" "#p4" "rider" (Some "Carol") None (Some "Reyes") (Some "0944")
    None (Some "ZZ99") (Some "female") true "disapproved" (Some "Expired license") 30.

Definition store : Store := [alice; bob; root; carol].

Definition credentials (em pw r : string) : Req.body :=
  Req.mkBody (Some em) (Some pw) (Some r) None None None None None None None None None None.

Definition phone_and_role (ph r : string) : Req.body :=
  Req.mkBody None None (Some r) None None None (Some ph) None None None None None None.

Definition token (t : option string) : Req.body :=
  Req.mkBody None None None None None None None None None None None t None.

Definition registration (em pw r : string) (l : option string) : Req.body :=
  Req.mkBody (Some em) (Some pw) (Some r) None None None None None l None None None None.

Definition license (l : option string) : Req.body :=
  Req.mkBody None None None None None None None None l None None None None.

Definition profile (fn mn ln ph sid lic sx : option string) : Req.body :=
  Req.mkBody None None None fn mn ln ph sid lic sx None None None.

Definition admin_update (em r : option string) (lic : option string)
    (appr : option bool) : Req.body :=
  Req.mkBody em None r None None None None None lic None appr None None.

Definition disapproval (why : option string) : Req.body :=
  Req.mkBody None None None None None None None None None None None None why.

End Demo.

(** The accounts of a listing response: the items of its [users] array,
    none when the handler did not answer with one. *)
Definition returned_accounts (r : (HttpError + Response) * Store) : list json :=
  match responded r with
  | Some resp =>
      match get "users" (payload resp) with
      | Some (JArr items) => items
      | _ => []
      end
  | None => []
  end.

(** The [user] object of a response, when it has one. *)
Definition returned_user (r : (HttpError + Response) * Store) : option json :=
  match responded r with
  | Some resp => get "user" (payload resp)
  | None => None
  end.

(** The document [updateUserProfile] has in hand after its guarded
    assignments of [firstName], [middleName], [lastName], [phone] and
    [schoolId]. *)
Definition first_assignments (b : Req.body) (u : User) : User :=
  assign_if (Js.defined (Req.schoolId b)) set_schoolId (Req.schoolId b)
    (assign_if (Js.truthy (Req.phone b)) set_phone (Req.phone b)
       (assign_if (Js.truthy (Req.lastName b)) set_lastName (Req.lastName b)
          (assign_if (Js.defined (Req.middleName b)) set_middleName (Req.middleName b)
             (assign_if (Js.truthy (Req.firstName b)) set_firstName (Req.firstName b) u)))).

(** The document [updateUser] has in hand after its guarded assignments
    of the profile fields and of [approved]. *)
Definition admin_assignments (b : Req.body) (u : User) : User :=
  let user := assign_if (Js.defined (Req.firstName b)) set_firstName (Req.firstName b) u in
  let user := assign_if (Js.defined (Req.middleName b)) set_middleName (Req.middleName b) user in
  let user := assign_if (Js.defined (Req.lastName b)) set_lastName (Req.lastName b) user in
  let user := assign_if (Js.defined (Req.phone b)) set_phone (Req.phone b) user in
  let user := assign_if (Js.defined (Req.schoolId b)) set_schoolId (Req.schoolId b) user in
  let user := assign_if (Js.defined (Req.licenseId b)) set_licenseId (Req.licenseId b) user in
  let user := assign_if (Js.defined (Req.sex b)) set_sex (Req.sex b) user in
  match Req.approved b with
  | Some v => set_approved v user
  | None => user
  end.

(** The uniqueness that the store is meant to keep: one document per
    identifier and per email. *)
Definition unique_accounts (st : Store) : Prop :=
  NoDup (map _id st) /\ NoDup (map email st).

(** The accounts of a list are in descending order of creation time:
    each one is at least as recent as all that follow it. *)
Definition newest_first (l : list User) : Prop :=
  StronglySorted (fun x y => createdAt y <= createdAt x) l.

(** The test of a pattern on a field that may be undefined. *)
Definition hit (test : string -> bool) (f : option string) : bool :=
  match f with Some s => test s | None => false end.

(* ===================================================================== *)
(** * Properties *)

(** ** Running a handler *)

Lemma provided_some (v : option string) (s : string) :
  v = Some s -> s <> "" -> Js.provided v = Some s.
Proof.
  intros -> Hs. unfold Js.provided.
  destruct (String.eqb_spec s ""); [contradiction | reflexivity].
Qed.

Lemma provided_inv (v : option string) (s : string) :
  Js.provided v = Some s -> v = Some s /\ s <> "".
Proof.
  unfold Js.provided. destruct v as [x|]; [|discriminate].
  destruct (String.eqb_spec x ""); [discriminate|].
  intros [= <-]. auto.
Qed.

Lemma provided_none_truthy (v : option string) :
  Js.provided v = None <-> Js.truthy v = false.
Proof.
  unfold Js.provided, Js.truthy. destruct v as [x|]; [|tauto].
  destruct (x =? ""); simpl; split; congruence.
Qed.

Lemma truthy_provided (v : option string) :
  Js.truthy v = true -> Js.provided v = v.
Proof.
  unfold Js.provided, Js.truthy. destruct v as [x|]; [|discriminate].
  destruct (x =? ""); simpl; congruence.
Qed.

Lemma require_ok (v : option string) (s : string) (e : HttpError) (st : Store) :
  v = Some s -> s <> "" -> require v e st = (inr s, st).
Proof.
  intros Hv Hs. unfold require. rewrite (provided_some v s Hv Hs). reflexivity.
Qed.

Lemma includes_In (l : list string) (x : string) :
  Js.includes l x = true <-> In x l.
Proof.
  unfold Js.includes. rewrite existsb_exists. split.
  - intros [y [Hy Heq]]. apply String.eqb_eq in Heq. now subst.
  - intros H. exists x. split; [assumption | apply String.eqb_refl].
Qed.

(** A query by a decidable test finds nothing exactly when no document
    passes it. *)
Lemma findOne_none (p : User -> bool) (st : Store) :
  Model.findOne p st = None <-> (forall u, In u st -> p u = false).
Proof.
  unfold Model.findOne. split.
  - intros H u Hu. exact (find_none p st H u Hu).
  - induction st as [|v st IH]; intros H; [reflexivity|].
    simpl. rewrite (H v (or_introl eq_refl)). apply IH.
    intros u Hu. apply H. now right.
Qed.

Lemma findOne_some (p : User -> bool) (st : Store) (u : User) :
  Model.findOne p st = Some u -> In u st /\ p u = true.
Proof. apply find_some. Qed.

(** ** Login *)

Section Login.
Context {services : Services}.

(** The outcome of [login] once its input guards pass, by the result of
    the lookup of the (email, role) pair. *)
Lemma login_after_guards (b : Req.body) (em pw r : string) (st : Store) :
  Req.email b = Some em -> em <> "" ->
  Req.password b = Some pw -> pw <> "" ->
  Req.role b = Some r -> In r ["customer"; "rider"; "admin"] ->
  Auth.login b st =
    match Model.findOne (fun u => (email u =? em) && (role u =? r)) st with
    | None => (inl (UnauthenticatedError "Invalid credentials"), st)
    | Some user =>
        match comparePassword user (Some pw) with
        | None => (inl (OtherError "comparePassword"), st)
        | Some false => (inl (UnauthenticatedError "Invalid credentials"), st)
        | Some true =>
            if negb (r =? "admin") && (status user =? "disapproved") then
              (inr (mkResponse 403 (JObj Auth.disapproved_body)), st)
            else if negb (r =? "admin") && (status user =? "pending") then
              (inr (mkResponse 403 (JObj Auth.pending_body)), st)
            else (inr (mkResponse 200 (JObj (Auth.logged_in_body user))), st)
        end
    end.
Proof.
  intros Hem Hem' Hpw Hpw' Hr Hr'.
  assert (Hne : r <> "") by (intros ->; simpl in Hr'; intuition discriminate).
  unfold Auth.login, bind.
  rewrite (require_ok _ em _ st Hem Hem'), (require_ok _ pw _ st Hpw Hpw'),
    (require_ok _ r _ st Hr Hne).
  apply includes_In in Hr'. rewrite Hr'. cbn [negb throw_if ret].
  unfold findOne.
  destruct (Model.findOne _ st) as [user|]; [|reflexivity].
  unfold Auth.compare.
  destruct (comparePassword user (Some pw)) as [[|]|]; cbn; try reflexivity.
  destruct (negb (r =? "admin") && (status user =? "disapproved")); [reflexivity|].
  destruct (negb (r =? "admin") && (status user =? "pending")); reflexivity.
Qed.

End Login.

(** C1.  On [login], for an input that passes the guards on its fields
    (email and password provided, role one of customer, rider, admin): a
    store in which no account has the (email, role) pair and a store in
    which the account found fails the password comparison both end in the
    thrown [UnauthenticatedError] with the message "Invalid credentials",
    the store untouched; the two outcomes are equal. *)
Theorem login_invalid_credentials_same_outcome
    {services : Services} (b : Req.body) (em pw r : string)
    (st_absent st_wrong : Store) (user : User) :
  Req.email b = Some em -> em <> "" ->
  Req.password b = Some pw -> pw <> "" ->
  Req.role b = Some r -> In r ["customer"; "rider"; "admin"] ->
  (forall u, In u st_absent -> ~ (email u = em /\ role u = r)) ->
  Model.findOne (fun u => (email u =? em) && (role u =? r)) st_wrong = Some user ->
  comparePassword user (Some pw) = Some false ->
  Auth.login b st_absent
    = (inl (UnauthenticatedError "Invalid credentials"), st_absent)
  /\ Auth.login b st_wrong
    = (inl (UnauthenticatedError "Invalid credentials"), st_wrong)
  /\ fst (Auth.login b st_absent) = fst (Auth.login b st_wrong).
Proof.
  intros Hem Hem' Hpw Hpw' Hr Hr' Habsent Hfound Hwrong.
  assert (H1 : Auth.login b st_absent
               = (inl (UnauthenticatedError "Invalid credentials"), st_absent)).
  { rewrite (login_after_guards b em pw r st_absent) by assumption.
    replace (Model.findOne _ st_absent) with (@None User); [reflexivity|].
    symmetry. apply findOne_none. intros u Hu.
    destruct (String.eqb_spec (email u) em) as [He|]; [|reflexivity].
    destruct (String.eqb_spec (role u) r) as [Hro|]; [|reflexivity].
    exfalso. exact (Habsent u Hu (conj He Hro)). }
  assert (H2 : Auth.login b st_wrong
               = (inl (UnauthenticatedError "Invalid credentials"), st_wrong)).
  { rewrite (login_after_guards b em pw r st_wrong) by assumption.
    rewrite Hfound, Hwrong. reflexivity. }
  repeat split; try assumption. now rewrite H1, H2.
Qed.

Lemma login_invalid_credentials_same_outcome_witness :
  Auth.login (Demo.credentials "a@x.com" "guess" "rider") [Demo.bob]
    = (inl (UnauthenticatedError "Invalid credentials"), [Demo.bob])
  /\ Auth.login (Demo.credentials "a@x.com" "guess" "rider") Demo.store
    = (inl (UnauthenticatedError "Invalid credentials"), Demo.store)
  /\ fst (Auth.login (Demo.credentials "a@x.com" "guess" "rider") [Demo.bob])
     = fst (Auth.login (Demo.credentials "a@x.com" "guess" "rider") Demo.store).
Proof.
  apply (login_invalid_credentials_same_outcome
           (Demo.credentials "a@x.com" "guess" "rider")
           "a@x.com" "guess" "rider" [Demo.bob] Demo.store Demo.alice).
  - reflexivity.
  - discriminate.
  - reflexivity.
  - discriminate.
  - reflexivity.
  - simpl. tauto.
  - intros u [<-|[]] [H _]. discriminate H.
  - reflexivity.
  - reflexivity.
Defined.

(** C2.  On [login], once the account is found and its password
    compares equal: for a role other than admin, a status of
    "disapproved" or "pending" gives a 403 response that carries that
    status and [isApproved: false] and neither token nor account; for the
    role admin the status is not looked at, and the 200 response carries
    the account and both tokens. *)
Theorem login_approval_gate
    {services : Services} (b : Req.body) (em pw r : string)
    (st : Store) (user : User) :
  Req.email b = Some em -> em <> "" ->
  Req.password b = Some pw -> pw <> "" ->
  Req.role b = Some r -> In r ["customer"; "rider"; "admin"] ->
  Model.findOne (fun u => (email u =? em) && (role u =? r)) st = Some user ->
  comparePassword user (Some pw) = Some true ->
  (r <> "admin" ->
   status user = "disapproved" \/ status user = "pending" ->
   exists resp,
     Auth.login b st = (inr resp, st)
     /\ code resp = StatusCodes.FORBIDDEN
     /\ get "status" (payload resp) = Some (JStr (status user))
     /\ get "isApproved" (payload resp) = Some (JBool false)
     /\ has_key "access_token" (payload resp) = false
     /\ has_key "refresh_token" (payload resp) = false
     /\ has_key "user" (payload resp) = false)
  /\ (r = "admin" ->
      Auth.login b st =
        (inr (mkResponse StatusCodes.OK
                (JObj [("message", JStr "User logged in successfully");
                       ("user", toJSON user);
                       ("access_token", JStr (createAccessToken user));
                       ("refresh_token", JStr (createRefreshToken user))])),
         st)).
Proof.
  intros Hem Hem' Hpw Hpw' Hr Hr' Hfound Hok.
  rewrite (login_after_guards b em pw r st) by assumption.
  rewrite Hfound, Hok. split.
  - intros Hna Hst. apply String.eqb_neq in Hna. rewrite Hna. cbn [negb andb].
    destruct Hst as [Hst|Hst]; rewrite Hst; cbn [String.eqb].
    + eexists. split; [reflexivity|]. cbn. repeat split; reflexivity.
    + eexists. split; [reflexivity|]. cbn. repeat split; reflexivity.
  - intros ->. reflexivity.
Qed.

Lemma login_approval_gate_witness :
  (exists resp,
     Auth.login (Demo.credentials "c@x.com" "p4" "rider") Demo.store
       = (inr resp, Demo.store)
     /\ code resp = StatusCodes.FORBIDDEN
     /\ get "status" (payload resp) = Some (JStr "disapproved")
     /\ get "isApproved" (payload resp) = Some (JBool false)
     /\ has_key "access_token" (payload resp) = false
     /\ has_key "refresh_token" (payload resp) = false
     /\ has_key "user" (payload resp) = false)
  /\ get "access_token"
       (match fst (Auth.login (Demo.credentials "root@x.com" "adm" "admin") Demo.store) with
        | inr resp => payload resp
        | inl _ => JNull
        end) = Some (JStr "access:root@x.com").
Proof.
  split.
  - apply (login_approval_gate (Demo.credentials "c@x.com" "p4" "rider")
             "c@x.com" "p4" "rider" Demo.store Demo.carol).
    + reflexivity.
    + discriminate.
    + reflexivity.
    + discriminate.
    + reflexivity.
    + simpl. tauto.
    + reflexivity.
    + reflexivity.
    + discriminate.
    + left. reflexivity.
  - rewrite (proj2 (login_approval_gate (Demo.credentials "root@x.com" "adm" "admin")
             "root@x.com" "adm" "admin" Demo.store Demo.root
             eq_refl ltac:(discriminate) eq_refl ltac:(discriminate) eq_refl
             ltac:(simpl; tauto) eq_refl eq_refl) eq_refl).
    reflexivity.
Defined.

(** ** Token refresh *)

Section Refresh.
Context {services : Services}.

Lemma refreshToken_missing (b : Req.body) (st : Store) :
  Js.truthy (Req.refresh_token b) = false ->
  Auth.refreshToken b st = (inl (BadRequestError "Refresh token is required"), st).
Proof.
  intros H. apply provided_none_truthy in H.
  unfold Auth.refreshToken, bind, require. rewrite H. reflexivity.
Qed.

(** With a token at hand, the handler is decided by the verification of
    the token and the lookup of the account it names. *)
Lemma refreshToken_present (b : Req.body) (tok : string) (st : Store) :
  Req.refresh_token b = Some tok -> tok <> "" ->
  Auth.refreshToken b st =
    match jwt_verify tok with
    | Some (Some id) =>
        match Model.findById id st with
        | Some user =>
            (inr (mkResponse StatusCodes.OK
                    (JObj [("access_token", JStr (createAccessToken user));
                           ("refresh_token", JStr (createRefreshToken user))])),
             st)
        | None => (inl (UnauthenticatedError "Invalid refresh token"), st)
        end
    | _ => (inl (UnauthenticatedError "Invalid refresh token"), st)
    end.
Proof.
  intros Htok Hne.
  unfold Auth.refreshToken, bind at 1.
  rewrite (require_ok _ tok _ st Htok Hne).
  unfold try_catch, bind.
  destruct (jwt_verify tok) as [[id|]|]; cbn; try reflexivity.
  unfold findById. destruct (Model.findById id st); reflexivity.
Qed.

End Refresh.

(** C6.  [refreshToken] throws a [BadRequestError] exactly when the
    [refresh_token] field is missing (absent or empty: the guard is
    [!refresh_token]).  For a token at hand, a failed verification, a
    payload without an account id and an id that no account has all end in
    the thrown [UnauthenticatedError] "Invalid refresh token", and no
    other error is thrown; a token that verifies and names an account is
    answered 200 with the access and refresh tokens created for that
    account.  The store is never changed. *)
Theorem refreshToken_outcomes {services : Services} (b : Req.body) (st : Store) :
  ((exists m, fst (Auth.refreshToken b st) = inl (BadRequestError m))
   <-> Js.truthy (Req.refresh_token b) = false)
  /\ (forall tok,
        Req.refresh_token b = Some tok -> tok <> "" ->
        jwt_verify tok = None
        \/ jwt_verify tok = Some None
        \/ (exists id, jwt_verify tok = Some (Some id) /\ Model.findById id st = None) ->
        Auth.refreshToken b st
          = (inl (UnauthenticatedError "Invalid refresh token"), st))
  /\ (forall tok e,
        Req.refresh_token b = Some tok -> tok <> "" ->
        fst (Auth.refreshToken b st) = inl e ->
        e = UnauthenticatedError "Invalid refresh token")
  /\ (forall tok id user,
        Req.refresh_token b = Some tok -> tok <> "" ->
        jwt_verify tok = Some (Some id) -> Model.findById id st = Some user ->
        Auth.refreshToken b st
          = (inr (mkResponse StatusCodes.OK
                    (JObj [("access_token", JStr (createAccessToken user));
                           ("refresh_token", JStr (createRefreshToken user))])),
             st))
  /\ snd (Auth.refreshToken b st) = st.
Proof.
  repeat split.
  - intros [m Hm].
    destruct (Js.truthy (Req.refresh_token b)) eqn:Ht; [|reflexivity].
    exfalso. pose proof (truthy_provided _ Ht) as Hp.
    destruct (Req.refresh_token b) as [tok|] eqn:Htok; [|discriminate].
    apply provided_inv in Hp. destruct Hp as [_ Hne].
    rewrite (refreshToken_present b tok st Htok Hne) in Hm.
    destruct (jwt_verify tok) as [[id|]|]; try discriminate.
    destruct (Model.findById id st); discriminate.
  - intros H. rewrite (refreshToken_missing b st H). eexists. reflexivity.
  - intros tok Htok Hne Hfail.
    rewrite (refreshToken_present b tok st Htok Hne).
    destruct Hfail as [-> | [-> | [id [-> ->]]]]; reflexivity.
  - intros tok e Htok Hne He.
    rewrite (refreshToken_present b tok st Htok Hne) in He.
    destruct (jwt_verify tok) as [[id|]|]; try (now inversion He).
    destruct (Model.findById id st); now inversion He.
  - intros tok id user Htok Hne Hv Hu.
    rewrite (refreshToken_present b tok st Htok Hne), Hv, Hu. reflexivity.
  - destruct (Js.truthy (Req.refresh_token b)) eqn:Ht.
    + pose proof (truthy_provided _ Ht) as Hp.
      destruct (Req.refresh_token b) as [tok|] eqn:Htok; [|discriminate].
      apply provided_inv in Hp. destruct Hp as [_ Hne].
      rewrite (refreshToken_present b tok st Htok Hne).
      destruct (jwt_verify tok) as [[id|]|]; try reflexivity.
      destruct (Model.findById id st); reflexivity.
    + now rewrite (refreshToken_missing b st Ht).
Qed.

Lemma refreshToken_outcomes_witness :
  (exists m, fst (Auth.refreshToken (Demo.token None) Demo.store)
             = inl (BadRequestError m))
  /\ Auth.refreshToken (Demo.token (Some "forged")) Demo.store
     = (inl (UnauthenticatedError "Invalid refresh token"), Demo.store)
  /\ Auth.refreshToken (Demo.token (Some "refresh:gone@x.com")) Demo.store
     = (inl (UnauthenticatedError "Invalid refresh token"), Demo.store)
  /\ Auth.refreshToken (Demo.token (Some "refresh:a@x.com")) Demo.store
     = (inr (mkResponse StatusCodes.OK
               (JObj [("access_token", JStr (createAccessToken Demo.alice));
                      ("refresh_token", JStr (createRefreshToken Demo.alice))])),
        Demo.store).
Proof.
  split; [|split; [|split]].
  - apply (proj2 (proj1 (refreshToken_outcomes (Demo.token None) Demo.store))).
    reflexivity.
  - apply (proj1 (proj2 (refreshToken_outcomes (Demo.token (Some "forged")) Demo.store))
             "forged").
    + reflexivity.
    + discriminate.
    + left. reflexivity.
  - apply (proj1 (proj2 (refreshToken_outcomes
                           (Demo.token (Some "refresh:gone@x.com")) Demo.store))
             "refresh:gone@x.com").
    + reflexivity.
    + discriminate.
    + right. right. exists 99. split; reflexivity.
  - apply (proj1 (proj2 (proj2 (proj2 (refreshToken_outcomes
                           (Demo.token (Some "refresh:a@x.com")) Demo.store))))
             "refresh:a@x.com" 1 Demo.alice).
    + reflexivity.
    + discriminate.
    + reflexivity.
    + reflexivity.
Defined.

(** ** Legacy phone login *)

Lemma fresh_id_is_new (st : Store) : ~ In (Model.fresh_id st) (map _id st).
Proof.
  unfold Model.fresh_id. intros Hin.
  assert (H : Forall (fun k => k <= list_max (map _id st)) (map _id st))
    by (apply list_max_le; lia).
  rewrite Forall_forall in H. specialize (H _ Hin). lia.
Qed.

Lemma field_is_true (f : option string) (v : string) :
  field_is f v = true <-> f = Some v.
Proof.
  unfold field_is. destruct f as [s|].
  - rewrite String.eqb_eq. split; congruence.
  - split; discriminate.
Qed.

(** C9.  On the legacy [auth], for a phone that no account has (phone
    provided, role customer or rider): one account is added to the store,
    with a new id, the email [<phone>@temp.ecoride.com], the hash of the
    random password, status "pending" and [approved] false; the response
    is 403 with status "pending", [isApproved: false] and a [user] object
    of exactly the keys [_id], [phone], [role] of that account; it has no
    token. *)
Theorem auth_first_contact
    {services : Services} (now : nat) (random : string) (b : Req.body)
    (ph r : string) (st : Store) :
  Req.phone b = Some ph -> ph <> "" ->
  Req.role b = Some r -> In r ["customer"; "rider"] ->
  (forall u, In u st -> phone u <> Some ph) ->
  exists user resp,
    Auth.auth now random b st = (inr resp, (st ++ [user])%list)
    /\ ~ In (_id user) (map _id st)
    /\ email user = ph ++ "@temp.ecoride.com"
    /\ password user = hashPassword random
    /\ phone user = Some ph
    /\ role user = r
    /\ status user = "pending"
    /\ approved user = false
    /\ code resp = StatusCodes.FORBIDDEN
    /\ payload resp =
         JObj [("message", JStr "Account pending approval");
               ("status", JStr "pending");
               ("isApproved", JBool false);
               ("user", JObj [("_id", JNum (_id user));
                              ("phone", JStr ph);
                              ("role", JStr r)])]
    /\ keys (payload resp) = ["message"; "status"; "isApproved"; "user"]
    /\ option_map keys (get "user" (payload resp)) = Some ["_id"; "phone"; "role"].
Proof.
  intros Hph Hph' Hr Hr' Hnew.
  assert (Hne : r <> "") by (intros ->; simpl in Hr'; intuition discriminate).
  exists (mkUser (Model.fresh_id st) (ph ++ "@temp.ecoride.com") (hashPassword random) r
            None None None (Some ph) None None None false "pending" None now).
  eexists. split.
  - unfold Auth.auth, bind.
    rewrite (require_ok _ ph _ st Hph Hph'), (require_ok _ r _ st Hr Hne).
    apply includes_In in Hr'. rewrite Hr'. cbn [negb throw_if ret].
    unfold findOne.
    replace (Model.findOne _ st) with (@None User).
    + cbn. reflexivity.
    + symmetry. apply findOne_none. intros u Hu.
      destruct (field_is (phone u) ph) eqn:E; [|reflexivity].
      apply field_is_true in E. exfalso. exact (Hnew u Hu E).
  - cbn. split; [apply fresh_id_is_new|]. repeat split; reflexivity.
Qed.

Lemma auth_first_contact_witness :
  exists user resp,
    Auth.auth 40 "k3x9q2m1" (Demo.phone_and_role "0999" "rider") Demo.store
      = (inr resp, (Demo.store ++ [user])%list)
    /\ ~ In (_id user) (map _id Demo.store)
    /\ email user = "0999" ++ "@temp.ecoride.com"
    /\ password user = hashPassword "k3x9q2m1"
    /\ phone user = Some "0999"
    /\ role user = "rider"
    /\ status user = "pending"
    /\ approved user = false
    /\ code resp = StatusCodes.FORBIDDEN
    /\ payload resp =
         JObj [("message", JStr "Account pending approval");
               ("status", JStr "pending");
               ("isApproved", JBool false);
               ("user", JObj [("_id", JNum (_id user));
                              ("phone", JStr "0999");
                              ("role", JStr "rider")])]
    /\ keys (payload resp) = ["message"; "status"; "isApproved"; "user"]
    /\ option_map keys (get "user" (payload resp)) = Some ["_id"; "phone"; "role"].
Proof.
  apply (auth_first_contact 40 "k3x9q2m1" (Demo.phone_and_role "0999" "rider")
           "0999" "rider" Demo.store).
  - reflexivity.
  - discriminate.
  - reflexivity.
  - simpl. tauto.
  - intros u [<-|[<-|[<-|[<-|[]]]]]; discriminate.
Defined.

(** ** Administrative listing *)

Lemma insert_desc_In (u x : User) (l : list User) :
  In x (Admin.insert_desc u l) <-> x = u \/ In x l.
Proof.
  induction l as [|v l IH]; simpl.
  - intuition.
  - destruct (createdAt v <? createdAt u)%nat; simpl; [intuition|].
    rewrite IH. intuition.
Qed.

Lemma sort_newest_first_In (x : User) (l : list User) :
  In x (Admin.sort_newest_first l) <-> In x l.
Proof.
  induction l as [|v l IH]; simpl; [tauto|].
  rewrite insert_desc_In, IH. intuition.
Qed.

Lemma sort_newest_first_length (l : list User) :
  List.length (Admin.sort_newest_first l) = List.length l.
Proof.
  assert (H : forall u m, List.length (Admin.insert_desc u m) = S (List.length m)).
  { intros u m. induction m as [|v m IH]; simpl; [reflexivity|].
    destruct (createdAt v <? createdAt u)%nat; simpl; [reflexivity|now rewrite IH]. }
  induction l as [|v l IH]; simpl; [reflexivity|]. now rewrite H, IH.
Qed.

Lemma select_no_password_role (u : User) :
  get "role" (select_no_password u) = Some (JStr (role u)).
Proof. reflexivity. Qed.

Lemma toJSON_has_password (u : User) : has_key "password" (toJSON u) = true.
Proof. reflexivity. Qed.

Lemma opt_field_keys (k : string) (v : option string) (x : string) :
  In x (map fst (opt_field k v)) -> x = k.
Proof. destruct v; simpl; intuition. Qed.

Lemma select_no_password_has_no_password (u : User) :
  has_key "password" (select_no_password u) = false.
Proof.
  unfold has_key, select_no_password, toJSON, omit, keys.
  destruct (Js.includes _ "password") eqn:E; [|reflexivity].
  apply includes_In in E. apply in_map_iff in E.
  destruct E as [[k v] [Hk Hin]]. simpl in Hk. subst k.
  apply filter_In in Hin. destruct Hin as [_ Hf].
  cbn [fst] in Hf. rewrite String.eqb_refl in Hf. discriminate.
Qed.

Section Listing.
Context {services : Services}.

(** Whatever the request, the query excludes the admin role and nothing
    else is asked of the role. *)
Lemma build_query_role (rq : Query.t) :
  Admin.q_role (Admin.build_query rq) = Some (Admin.NotEqual "admin").
Proof. reflexivity. Qed.

Lemma build_query_approved (rq : Query.t) :
  Admin.q_approved (Admin.build_query rq) =
    if field_is (Query.approved rq) "true" then Some true
    else if field_is (Query.approved rq) "false" then Some false
    else None.
Proof.
  unfold Admin.build_query.
  destruct (Js.provided (Query.role rq)), (Js.provided (Query.search rq)),
    (field_is (Query.approved rq) "true"), (field_is (Query.approved rq) "false");
    reflexivity.
Qed.

(** With [search] at hand and no other filter, an account is selected
    exactly when it is not an admin and the pattern matches one of its
    first name, last name, email and phone. *)
Lemma build_query_search (search : string) (test : string -> bool) (u : User) :
  search <> "" -> regex_i search = Some test ->
  exists alternatives,
    Admin.compile_or
      [(firstName, search); (lastName, search);
       (fun u => Some (email u), search); (phone, search)] = Some alternatives
    /\ Admin.q_or (Admin.build_query (Query.mkQuery None None (Some search)))
       = Some [(firstName, search); (lastName, search);
               (fun u => Some (email u), search); (phone, search)]
    /\ Admin.selects (Admin.build_query (Query.mkQuery None None (Some search)))
         alternatives u
       = negb (role u =? "admin")
         && (match firstName u with Some s => test s | None => false end
             || (match lastName u with Some s => test s | None => false end
                 || (test (email u)
                     || (match phone u with Some s => test s | None => false end
                         || false)))).
Proof.
  intros Hne Htest. cbn [Admin.compile_or]. rewrite Htest.
  eexists. split; [reflexivity|].
  unfold Admin.build_query. cbn [Query.role Query.approved Query.search].
  rewrite (provided_some (Some search) search eq_refl Hne).
  split; [reflexivity|].
  unfold Admin.selects. cbn. now rewrite andb_true_r.
Qed.

(** The role of the request does not reach the query. *)
Lemma build_query_ignores_role (r : option string) (a s : option string) :
  Admin.build_query (Query.mkQuery r a s) = Admin.build_query (Query.mkQuery None a s).
Proof.
  unfold Admin.build_query. cbn [Query.role Query.approved Query.search].
  destruct (Js.provided r), (Js.provided s), (field_is a "true"), (field_is a "false");
    reflexivity.
Qed.

(** The listing is a 500 response without accounts, or the accounts the
    query selects, newest first, without their password. *)
Lemma getAllUsers_response (rq : Query.t) (st : Store) :
  (exists m,
     Admin.getAllUsers rq st =
       (inr (mkResponse StatusCodes.INTERNAL_SERVER_ERROR
               (JObj [("message", JStr "Error fetching users"); ("error", JStr m)])),
        st))
  \/ (exists alternatives,
        let users :=
          Admin.sort_newest_first
            (filter (Admin.selects (Admin.build_query rq) alternatives) st) in
        Admin.getAllUsers rq st =
          (inr (mkResponse StatusCodes.OK
                  (JObj [("count", JNum (List.length users));
                         ("users", JArr (map select_no_password users))])),
           st)).
Proof.
  unfold Admin.getAllUsers, try_catch, bind, Admin.find.
  destruct (Admin.q_or (Admin.build_query rq)) as [alts|].
  - destruct (Admin.compile_or alts) as [alternatives|].
    + right. exists alternatives. reflexivity.
    + left. eexists. reflexivity.
  - right. exists (fun _ => true). reflexivity.
Qed.

Lemma returned_accounts_spec (rq : Query.t) (st : Store) (account : json) :
  In account (returned_accounts (Admin.getAllUsers rq st)) ->
  exists alternatives u,
    In u st
    /\ Admin.selects (Admin.build_query rq) alternatives u = true
    /\ account = select_no_password u.
Proof.
  destruct (getAllUsers_response rq st) as [[m H]|[alternatives H]];
    cbv zeta in H; rewrite H; unfold returned_accounts; cbn.
  - contradiction.
  - intros Hin. apply in_map_iff in Hin. destruct Hin as [u [<- Hu]].
    apply (proj1 (sort_newest_first_In _ _)) in Hu. apply filter_In in Hu.
    exists alternatives, u. tauto.
Qed.

End Listing.

(** C8.  Whatever the [role], [approved] and [search] filters of the
    request, no account of the listing has the role admin: each account
    returned is an account of the store whose role is not admin, given
    without its password. *)
Theorem getAllUsers_excludes_admins
    {services : Services} (rq : Query.t) (st : Store) (account : json) :
  In account (returned_accounts (Admin.getAllUsers rq st)) ->
  get "role" account <> Some (JStr "admin")
  /\ exists u, In u st /\ role u <> "admin" /\ account = select_no_password u.
Proof.
  intros Hin. apply returned_accounts_spec in Hin.
  destruct Hin as [alternatives [u [Hu [Hsel ->]]]].
  unfold Admin.selects in Hsel. rewrite build_query_role in Hsel.
  apply andb_prop in Hsel. destruct Hsel as [Hsel _].
  apply andb_prop in Hsel. destruct Hsel as [Hrole _].
  simpl in Hrole. apply negb_true_iff in Hrole. apply String.eqb_neq in Hrole.
  split.
  - rewrite select_no_password_role. congruence.
  - exists u. auto.
Qed.

Lemma getAllUsers_excludes_admins_witness :
  get "role" (select_no_password Demo.bob) <> Some (JStr "admin")
  /\ exists u, In u Demo.store /\ role u <> "admin"
               /\ select_no_password Demo.bob = select_no_password u.
Proof.
  apply (getAllUsers_excludes_admins
           (Query.mkQuery (Some "admin") (Some "true") (Some "o")) Demo.store).
  vm_compute. right. left. reflexivity.
Defined.

(** C4 (the code departs from it).  The listing asked for the role
    customer returns the riders of the store as well: the role of the
    request is overwritten by the exclusion of admins before the query
    runs. *)
Theorem getAllUsers_role_filter_lost :
  In (select_no_password Demo.alice)
     (returned_accounts
        (Admin.getAllUsers (Query.mkQuery (Some "customer") None None) Demo.store))
  /\ get "role" (select_no_password Demo.alice) = Some (JStr "rider")
  /\ Admin.getAllUsers (Query.mkQuery (Some "customer") None None) Demo.store
     = Admin.getAllUsers (Query.mkQuery None None None) Demo.store.
Proof.
  split; [|split].
  - vm_compute. right. right. left. reflexivity.
  - reflexivity.
  - reflexivity.
Qed.

(** ** The store under [save] *)

Lemma findById_some (id : nat) (st : Store) (u : User) :
  Model.findById id st = Some u -> In u st /\ _id u = id.
Proof.
  intros H. apply find_some in H. destruct H as [Hin Hid].
  apply Nat.eqb_eq in Hid. auto.
Qed.

Lemma save_as_map (doc : User) (st : Store) :
  Model.save doc st = map (fun v => if (_id v =? _id doc)%nat then doc else v) st.
Proof.
  induction st as [|v st IH]; simpl; [reflexivity|].
  destruct (_id v =? _id doc)%nat; now rewrite IH.
Qed.

Lemma save_ids (doc : User) (st : Store) :
  map _id (Model.save doc st) = map _id st.
Proof.
  induction st as [|v st IH]; simpl; [reflexivity|].
  destruct (Nat.eqb_spec (_id v) (_id doc)) as [E|]; simpl; rewrite IH; congruence.
Qed.

Lemma findById_save (id : nat) (doc u : User) (st : Store) :
  _id doc = id ->
  Model.findById id st = Some u ->
  Model.findById id (Model.save doc st) = Some doc.
Proof.
  intros <-.
  unfold Model.findById. induction st as [|v st IH]; simpl; [discriminate|].
  destruct (Nat.eqb_spec (_id v) (_id doc)) as [E|E]; simpl.
  - intros _. now rewrite Nat.eqb_refl.
  - destruct (Nat.eqb_spec (_id v) (_id doc)); [contradiction|]. exact IH.
Qed.

(** Identifiers are unique: two documents of the store with one id are
    one document. *)
Lemma unique_id (st : Store) (u v : User) :
  NoDup (map _id st) -> In u st -> In v st -> _id u = _id v -> u = v.
Proof.
  induction st as [|w st IH]; simpl; [contradiction|].
  intros Hnd Hu Hv E. inversion Hnd as [|? ? Hnot Hnd']; subst.
  destruct Hu as [<-|Hu], Hv as [<-|Hv]; auto.
  - exfalso. apply Hnot. rewrite E. now apply in_map.
  - exfalso. apply Hnot. rewrite <- E. now apply in_map.
Qed.

(** The uniqueness of identifiers is kept by [save] and by the insertion
    of a document under a fresh id. *)
Lemma save_unique_ids (doc : User) (st : Store) :
  NoDup (map _id st) -> NoDup (map _id (Model.save doc st)).
Proof. now rewrite save_ids. Qed.

Lemma insert_unique_ids (doc : User) (st : Store) :
  NoDup (map _id st) -> _id doc = Model.fresh_id st ->
  NoDup (map _id (Model.insert doc st)).
Proof.
  intros Hnd Hid. unfold Model.insert. rewrite map_app. simpl.
  apply NoDup_app_remove_l with (l := []). simpl.
  apply NoDup_Add with (a := _id doc) (l := map _id st).
  - rewrite <- (app_nil_r (map _id st)) at 1. apply Add_app.
  - split; [exact Hnd|]. rewrite Hid. apply fresh_id_is_new.
Qed.

(** Saving a changed copy of the document found under an id changes
    that document and no other. *)
Lemma save_changes_one (change : User -> User) (id : nat) (st : Store) (u : User) :
  NoDup (map _id st) ->
  (forall v, _id (change v) = _id v) ->
  Model.findById id st = Some u ->
  Model.save (change u) st
    = map (fun v => if (_id v =? id)%nat then change v else v) st.
Proof.
  intros Hnd Hid Hfind. apply findById_some in Hfind. destruct Hfind as [Hin Hu].
  rewrite save_as_map. apply map_ext_in. intros v Hv.
  rewrite Hid, Hu.
  destruct (Nat.eqb_spec (_id v) id) as [E|]; [|reflexivity].
  now rewrite (unique_id st v u Hnd Hv Hin) by congruence.
Qed.

Section Moderation.
Context {services : Services}.

Lemma approveUser_found (id : nat) (st : Store) (u : User) :
  Model.findById id st = Some u ->
  Admin.approveUser id st =
    (inr (mkResponse StatusCodes.OK
            (JObj [("message", JStr "User approved successfully");
                   ("user", select_no_password (set_status "approved" u))])),
     Model.save (set_status "approved" u) st).
Proof.
  intros Hfind. pose proof (findById_some _ _ _ Hfind) as [_ Hid].
  unfold Admin.approveUser, try_catch, bind, findById, save, respond, ret.
  rewrite Hfind. cbv beta iota zeta.
  rewrite (findById_save id (set_status "approved" u) u st Hid Hfind). reflexivity.
Qed.

Lemma disapproveUser_found (id : nat) (b : Req.body) (st : Store) (u : User) :
  Model.findById id st = Some u ->
  let doc :=
    set_disapprovalReason (Some (Js.or_else (Req.reason b) "No reason provided"))
      (set_status "disapproved" u) in
  Admin.disapproveUser id b st =
    (inr (mkResponse StatusCodes.OK
            (JObj [("message", JStr "User disapproved successfully");
                   ("user", select_no_password doc)])),
     Model.save doc st).
Proof.
  intros Hfind doc. pose proof (findById_some _ _ _ Hfind) as [_ Hid].
  unfold Admin.disapproveUser, try_catch, bind, findById, save, respond, ret.
  rewrite Hfind. cbv beta iota zeta. fold doc.
  rewrite (findById_save id doc u st Hid Hfind). reflexivity.
Qed.

End Moderation.

(** C10.  For an account of the store, [approveUser] changes the store
    in one place only: the status of that account becomes "approved";
    every other field of it, the legacy [approved] flag and the
    [disapprovalReason] among them, and every other account stay as they
    were.  Hence an account that is disapproved and then approved again
    keeps the reason of its disapproval and its [approved] flag. *)
Theorem approveUser_changes_status_only
    {services : Services} (id : nat) (st : Store) (u : User) :
  NoDup (map _id st) ->
  Model.findById id st = Some u ->
  snd (Admin.approveUser id st)
    = map (fun v => if (_id v =? id)%nat then set_status "approved" v else v) st
  /\ (exists u',
        Model.findById id (snd (Admin.approveUser id st)) = Some u'
        /\ status u' = "approved"
        /\ approved u' = approved u
        /\ disapprovalReason u' = disapprovalReason u
        /\ (_id u', email u', password u', role u', createdAt u')
           = (_id u, email u, password u, role u, createdAt u)
        /\ (firstName u', middleName u', lastName u', phone u',
            schoolId u', licenseId u', sex u')
           = (firstName u, middleName u, lastName u, phone u,
              schoolId u, licenseId u, sex u))
  /\ (forall b,
        exists u'',
          Model.findById id
            (snd (Admin.approveUser id (snd (Admin.disapproveUser id b st))))
            = Some u''
          /\ status u'' = "approved"
          /\ disapprovalReason u''
             = Some (Js.or_else (Req.reason b) "No reason provided")
          /\ approved u'' = approved u).
Proof.
  intros Hnd Hfind. pose proof (findById_some _ _ _ Hfind) as [_ Hid].
  rewrite (approveUser_found id st u Hfind). cbn [snd]. split; [|split].
  - apply save_changes_one; auto.
  - exists (set_status "approved" u). split.
    + apply (findById_save id (set_status "approved" u) u st Hid Hfind).
    + repeat split; reflexivity.
  - intros b. rewrite (disapproveUser_found id b st u Hfind). cbn [snd].
    set (doc := set_disapprovalReason _ (set_status "disapproved" u)).
    assert (Hdoc : Model.findById id (Model.save doc st) = Some doc).
    { apply (findById_save id doc u st Hid Hfind). }
    rewrite (approveUser_found id _ doc Hdoc). cbn [snd].
    exists (set_status "approved" doc). split.
    + apply (findById_save id (set_status "approved" doc) doc _ Hid Hdoc).
    + repeat split; reflexivity.
Qed.

Lemma approveUser_changes_status_only_witness :
  snd (Admin.approveUser 4 Demo.store)
    = map (fun v => if (_id v =? 4)%nat then set_status "approved" v else v) Demo.store
  /\ (exists u',
        Model.findById 4 (snd (Admin.approveUser 4 Demo.store)) = Some u'
        /\ status u' = "approved"
        /\ approved u' = approved Demo.carol
        /\ disapprovalReason u' = disapprovalReason Demo.carol
        /\ (_id u', email u', password u', role u', createdAt u')
           = (_id Demo.carol, email Demo.carol, password Demo.carol,
              role Demo.carol, createdAt Demo.carol)
        /\ (firstName u', middleName u', lastName u', phone u',
            schoolId u', licenseId u', sex u')
           = (firstName Demo.carol, middleName Demo.carol, lastName Demo.carol,
              phone Demo.carol, schoolId Demo.carol, licenseId Demo.carol,
              sex Demo.carol))
  /\ (forall b,
        exists u'',
          Model.findById 4
            (snd (Admin.approveUser 4 (snd (Admin.disapproveUser 4 b Demo.store))))
            = Some u''
          /\ status u'' = "approved"
          /\ disapprovalReason u''
             = Some (Js.or_else (Req.reason b) "No reason provided")
          /\ approved u'' = approved Demo.carol).
Proof.
  apply (approveUser_changes_status_only 4 Demo.store Demo.carol).
  - repeat constructor; simpl; intuition discriminate.
  - reflexivity.
Defined.

(** ** Profile update *)

Section Profile.
Context {services : Services}.

Lemma updateUserProfile_unknown (uid : nat) (b : Req.body) (st : Store) :
  Model.findById uid st = None ->
  Auth.updateUserProfile uid b st = (inl (UnauthenticatedError "User not found"), st).
Proof.
  intros H. unfold Auth.updateUserProfile, bind, findById. now rewrite H.
Qed.

(** The handler on an account that exists, step by step: the check of
    the license, then the check of the email, then the save. *)
Lemma updateUserProfile_found (uid : nat) (b : Req.body) (st : Store) (u : User) :
  Model.findById uid st = Some u ->
  Auth.updateUserProfile uid b st =
    let u1 := first_assignments b u in
    let answer doc :=
      (inr (mkResponse StatusCodes.OK
              (JObj [("message", JStr "Profile updated successfully");
                     ("user", select_no_password doc)])),
       Model.save doc st) in
    let after_license u2 :=
      let u3 := assign_if (Js.truthy (Req.sex b)) set_sex (Req.sex b) u2 in
      match Js.provided (Req.email b) with
      | Some em =>
          match Model.findOne
                  (fun v => (email v =? em) && negb (_id v =? uid)%nat) st with
          | Some _ => (inl (BadRequestError "Email already in use"), st)
          | None => answer (set_email em u3)
          end
      | None => answer u3
      end in
    match Req.licenseId b with
    | Some l =>
        if (role u =? "rider") && negb (l =? "") then
          if (js_length (toUpperCase (trim l)) <? 4)%nat then
            (inl (BadRequestError "License ID must be at least 4 characters"), st)
          else after_license (set_licenseId (Some (toUpperCase (trim l))) u1)
        else after_license (set_licenseId (Some l) u1)
    | None => after_license u1
    end.
Proof.
  intros Hfind. pose proof (findById_some _ _ _ Hfind) as [_ Hid].
  assert (Hrole : role (first_assignments b u) = role u).
  { unfold first_assignments, assign_if.
    destruct (Js.defined (Req.schoolId b)), (Js.truthy (Req.phone b)),
      (Js.truthy (Req.lastName b)), (Js.defined (Req.middleName b)),
      (Js.truthy (Req.firstName b)); reflexivity. }
  assert (Hid1 : forall c1 c2 v1 v2 x,
             _id (assign_if c1 set_sex v1 (assign_if c2 set_licenseId v2
                    (first_assignments b x))) = _id x).
  { intros c1 c2 v1 v2 x. unfold first_assignments, assign_if.
    destruct c1, c2, (Js.defined (Req.schoolId b)), (Js.truthy (Req.phone b)),
      (Js.truthy (Req.lastName b)), (Js.defined (Req.middleName b)),
      (Js.truthy (Req.firstName b)); reflexivity. }
  assert (Hsave : forall doc,
             _id doc = uid ->
             (bind (save doc) (fun _ =>
                bind (findById uid) (fun updatedUser =>
                  respond StatusCodes.OK
                    [("message", JStr "Profile updated successfully");
                     ("user", select_opt updatedUser)]))) st
             = (inr (mkResponse StatusCodes.OK
                       (JObj [("message", JStr "Profile updated successfully");
                              ("user", select_no_password doc)])),
                Model.save doc st)).
  { intros doc Hdoc. unfold bind, save, findById, respond, ret.
    rewrite (findById_save uid doc u st Hdoc Hfind). reflexivity. }
  assert (Hafter : forall u2,
             _id u2 = uid ->
             (bind
                match Js.provided (Req.email b) with
                | Some em =>
                    bind (findOne (fun v => (email v =? em) && negb (_id v =? uid)%nat))
                      (fun existingUser =>
                         bind (throw_if (Js.defined existingUser)
                                 (BadRequestError "Email already in use"))
                           (fun _ => ret (set_email em
                              (assign_if (Js.truthy (Req.sex b)) set_sex (Req.sex b) u2))))
                | None => ret (assign_if (Js.truthy (Req.sex b)) set_sex (Req.sex b) u2)
                end
                (fun user =>
                   bind (save user) (fun _ =>
                     bind (findById uid) (fun updatedUser =>
                       respond StatusCodes.OK
                         [("message", JStr "Profile updated successfully");
                          ("user", select_opt updatedUser)])))) st
             = match Js.provided (Req.email b) with
               | Some em =>
                   match Model.findOne
                           (fun v => (email v =? em) && negb (_id v =? uid)%nat) st with
                   | Some _ => (inl (BadRequestError "Email already in use"), st)
                   | None =>
                       (inr (mkResponse StatusCodes.OK
                               (JObj [("message", JStr "Profile updated successfully");
                                      ("user", select_no_password
                                         (set_email em (assign_if (Js.truthy (Req.sex b))
                                                          set_sex (Req.sex b) u2)))])),
                        Model.save (set_email em (assign_if (Js.truthy (Req.sex b))
                                                    set_sex (Req.sex b) u2)) st)
                   end
               | None =>
                   (inr (mkResponse StatusCodes.OK
                           (JObj [("message", JStr "Profile updated successfully");
                                  ("user", select_no_password
                                     (assign_if (Js.truthy (Req.sex b))
                                        set_sex (Req.sex b) u2))])),
                    Model.save (assign_if (Js.truthy (Req.sex b))
                                  set_sex (Req.sex b) u2) st)
               end).
  { intros u2 Hu2.
    assert (Hsex : _id (assign_if (Js.truthy (Req.sex b)) set_sex (Req.sex b) u2) = uid)
      by (unfold assign_if; destruct (Js.truthy (Req.sex b)); exact Hu2).
    destruct (Js.provided (Req.email b)) as [em|].
    - unfold bind at 1 2 3. unfold findOne at 1.
      destruct (Model.findOne _ st); cbn [Js.defined throw_if throw ret]; [reflexivity|].
      apply Hsave. exact Hsex.
    - unfold bind at 1. unfold ret at 1. apply Hsave. exact Hsex. }
  assert (Hid0 : _id (first_assignments b u) = uid).
  { rewrite <- Hid. exact (Hid1 false false None None u). }
  unfold Auth.updateUserProfile. unfold bind at 1. unfold findById at 1.
  rewrite Hfind. fold (first_assignments b u). cbv zeta.
  unfold bind at 1.
  destruct (Req.licenseId b) as [l|].
  - rewrite Hrole. unfold Js.truthy.
    destruct ((role u =? "rider") && negb (l =? "")).
    + unfold bind at 1. unfold throw_if.
      destruct (js_length (toUpperCase (trim l)) <? 4)%nat;
        cbn [throw ret]; [reflexivity|].
      apply Hafter. exact Hid0.
    + cbn [ret]. apply Hafter. exact Hid0.
  - cbn [ret]. apply Hafter. exact Hid0.
Qed.

End Profile.

(** The fields of the document that [updateUserProfile] saves: [lic] is
    the license it assigns, if any, and [em] the email, if any. *)
Lemma profile_doc_fields (b : Req.body) (u : User)
    (lic : option (option string)) (em : option string) :
  let u2 :=
    match lic with
    | Some v => set_licenseId v (first_assignments b u)
    | None => first_assignments b u
    end in
  let u3 := assign_if (Js.truthy (Req.sex b)) set_sex (Req.sex b) u2 in
  let doc := match em with Some e => set_email e u3 | None => u3 end in
  _id doc = _id u
  /\ firstName doc = (if Js.truthy (Req.firstName b) then Req.firstName b else firstName u)
  /\ lastName doc = (if Js.truthy (Req.lastName b) then Req.lastName b else lastName u)
  /\ phone doc = (if Js.truthy (Req.phone b) then Req.phone b else phone u)
  /\ sex doc = (if Js.truthy (Req.sex b) then Req.sex b else sex u)
  /\ middleName doc
     = (if Js.defined (Req.middleName b) then Req.middleName b else middleName u)
  /\ schoolId doc
     = (if Js.defined (Req.schoolId b) then Req.schoolId b else schoolId u)
  /\ licenseId doc = match lic with Some v => v | None => licenseId u end.
Proof.
  unfold first_assignments, assign_if.
  destruct lic, em, (Js.truthy (Req.firstName b)), (Js.truthy (Req.lastName b)),
    (Js.truthy (Req.phone b)), (Js.truthy (Req.sex b)),
    (Js.defined (Req.middleName b)), (Js.defined (Req.schoolId b));
    cbn; repeat split; reflexivity.
Qed.

(** When [updateUserProfile] answers, the document it saved. *)
Lemma updateUserProfile_saved
    {services : Services} (uid : nat) (b : Req.body) (st : Store) (u : User)
    (resp : Response) :
  Model.findById uid st = Some u ->
  fst (Auth.updateUserProfile uid b st) = inr resp ->
  exists u',
       snd (Auth.updateUserProfile uid b st) = Model.save u' st
       /\ Model.findById uid (snd (Auth.updateUserProfile uid b st)) = Some u'
       /\ firstName u'
          = (if Js.truthy (Req.firstName b) then Req.firstName b else firstName u)
       /\ lastName u'
          = (if Js.truthy (Req.lastName b) then Req.lastName b else lastName u)
       /\ phone u' = (if Js.truthy (Req.phone b) then Req.phone b else phone u)
       /\ sex u' = (if Js.truthy (Req.sex b) then Req.sex b else sex u)
       /\ middleName u'
          = (if Js.defined (Req.middleName b) then Req.middleName b else middleName u)
       /\ schoolId u'
          = (if Js.defined (Req.schoolId b) then Req.schoolId b else schoolId u)
       /\ licenseId u'
          = match Req.licenseId b with
            | Some l =>
                if (role u =? "rider") && negb (l =? "")
                then Some (toUpperCase (trim l))
                else Some l
            | None => licenseId u
            end.
Proof.
  intros Hfind. revert resp. pose proof (findById_some _ _ _ Hfind) as [_ Hid].
  rewrite (updateUserProfile_found uid b st u Hfind). cbv zeta.
  assert (Hdoc : forall lic em,
    let doc :=
      match em with
      | Some e =>
          set_email e (assign_if (Js.truthy (Req.sex b)) set_sex (Req.sex b)
            match lic with
            | Some v => set_licenseId v (first_assignments b u)
            | None => first_assignments b u
            end)
      | None =>
          assign_if (Js.truthy (Req.sex b)) set_sex (Req.sex b)
            match lic with
            | Some v => set_licenseId v (first_assignments b u)
            | None => first_assignments b u
            end
      end in
    exists u',
      Model.save doc st = Model.save u' st
      /\ Model.findById uid (Model.save doc st) = Some u'
      /\ firstName u'
         = (if Js.truthy (Req.firstName b) then Req.firstName b else firstName u)
      /\ lastName u'
         = (if Js.truthy (Req.lastName b) then Req.lastName b else lastName u)
      /\ phone u' = (if Js.truthy (Req.phone b) then Req.phone b else phone u)
      /\ sex u' = (if Js.truthy (Req.sex b) then Req.sex b else sex u)
      /\ middleName u'
         = (if Js.defined (Req.middleName b) then Req.middleName b else middleName u)
      /\ schoolId u'
         = (if Js.defined (Req.schoolId b) then Req.schoolId b else schoolId u)
      /\ licenseId u' = match lic with Some v => v | None => licenseId u end).
  { intros lic em doc.
    destruct (profile_doc_fields b u lic em) as [H0 H].
    exists doc. split; [reflexivity|]. split.
    - apply (findById_save uid doc u st); [|exact Hfind].
      subst doc. destruct em; rewrite <- Hid; exact H0.
    - subst doc. destruct em; exact H. }
  intros resp.
  destruct (Req.licenseId b) as [l|].
  - destruct ((role u =? "rider") && negb (l =? "")).
    + destruct (js_length (toUpperCase (trim l)) <? 4)%nat;
        [discriminate|].
      destruct (Js.provided (Req.email b)) as [em|].
      * destruct (Model.findOne _ st); [discriminate|]. intros _.
        exact (Hdoc (Some (Some (toUpperCase (trim l)))) (Some em)).
      * intros _. exact (Hdoc (Some (Some (toUpperCase (trim l)))) None).
    + destruct (Js.provided (Req.email b)) as [em|].
      * destruct (Model.findOne _ st); [discriminate|]. intros _.
        exact (Hdoc (Some (Some l)) (Some em)).
      * intros _. exact (Hdoc (Some (Some l)) None).
  - destruct (Js.provided (Req.email b)) as [em|].
    + destruct (Model.findOne _ st); [discriminate|]. intros _.
      exact (Hdoc None (Some em)).
    + intros _. exact (Hdoc None None).
Qed.

(** When [updateUserProfile] throws, nothing is saved. *)
Lemma updateUserProfile_throw_keeps_store
    {services : Services} (uid : nat) (b : Req.body) (st : Store) (e : HttpError) :
  fst (Auth.updateUserProfile uid b st) = inl e ->
  snd (Auth.updateUserProfile uid b st) = st.
Proof.
  destruct (Model.findById uid st) as [u|] eqn:Hfind;
    [|now rewrite (updateUserProfile_unknown uid b st Hfind)].
  rewrite (updateUserProfile_found uid b st u Hfind). cbv zeta.
  destruct (Req.licenseId b) as [l|];
    [destruct ((role u =? "rider") && negb (l =? ""));
     [destruct (js_length (toUpperCase (trim l)) <? 4)%nat;
      [reflexivity|]|]|];
    (destruct (Js.provided (Req.email b)) as [em|];
     [destruct (Model.findOne _ st); [reflexivity|discriminate]|discriminate]).
Qed.

(** C7, as the code has it.  In [updateUserProfile] on an existing
    account, when the handler answers: [firstName], [lastName], [phone]
    and [sex] take the supplied value only when it is truthy (an empty
    string is skipped); [middleName] and [schoolId] take it whenever the
    field is present, the empty string included; [licenseId] takes it
    whenever the field is present, upper-cased and trimmed when the
    account is a rider and the value is not empty; a field left out keeps
    its value.  When the account is a rider and the license id supplied
    is not empty and, trimmed and upper-cased, has fewer than 4
    characters, the handler throws the [BadRequestError] "License ID must
    be at least 4 characters".  Whenever the handler throws, the store is
    as it was.  With no [licenseId] and no [email] in the input it always
    answers, with 200. *)
Theorem updateUserProfile_field_rules
    {services : Services} (uid : nat) (b : Req.body) (st : Store) (u : User) :
  Model.findById uid st = Some u ->
  (forall resp,
     fst (Auth.updateUserProfile uid b st) = inr resp ->
     exists u',
       snd (Auth.updateUserProfile uid b st) = Model.save u' st
       /\ Model.findById uid (snd (Auth.updateUserProfile uid b st)) = Some u'
       /\ firstName u'
          = (if Js.truthy (Req.firstName b) then Req.firstName b else firstName u)
       /\ lastName u'
          = (if Js.truthy (Req.lastName b) then Req.lastName b else lastName u)
       /\ phone u' = (if Js.truthy (Req.phone b) then Req.phone b else phone u)
       /\ sex u' = (if Js.truthy (Req.sex b) then Req.sex b else sex u)
       /\ middleName u'
          = (if Js.defined (Req.middleName b) then Req.middleName b else middleName u)
       /\ schoolId u'
          = (if Js.defined (Req.schoolId b) then Req.schoolId b else schoolId u)
       /\ licenseId u'
          = match Req.licenseId b with
            | Some l =>
                if (role u =? "rider") && negb (l =? "")
                then Some (toUpperCase (trim l))
                else Some l
            | None => licenseId u
            end)
  /\ (forall l,
        Req.licenseId b = Some l -> role u = "rider" -> l <> "" ->
        js_length (toUpperCase (trim l)) < 4 ->
        Auth.updateUserProfile uid b st
          = (inl (BadRequestError "License ID must be at least 4 characters"), st))
  /\ (forall e,
        fst (Auth.updateUserProfile uid b st) = inl e ->
        snd (Auth.updateUserProfile uid b st) = st)
  /\ (Req.licenseId b = None -> Js.provided (Req.email b) = None ->
      exists resp,
        fst (Auth.updateUserProfile uid b st) = inr resp
        /\ code resp = StatusCodes.OK).
Proof.
  intros Hfind. split; [|split; [|split]].
  - intros resp Hresp. exact (updateUserProfile_saved uid b st u resp Hfind Hresp).
  - intros l Hlic Hrole Hl Hshort.
    rewrite (updateUserProfile_found uid b st u Hfind). cbv zeta.
    rewrite Hlic, Hrole. cbn [String.eqb Ascii.eqb Bool.eqb andb].
    destruct (String.eqb_spec l ""); [contradiction|]. cbn [negb].
    apply Nat.ltb_lt in Hshort. now rewrite Hshort.
  - intros e. apply updateUserProfile_throw_keeps_store.
  - intros Hlic Hem.
    rewrite (updateUserProfile_found uid b st u Hfind). cbv zeta.
    rewrite Hlic, Hem. eexists. split; reflexivity.
Qed.

Lemma updateUserProfile_field_rules_witness :
  (exists u',
     Model.findById 1
       (snd (Auth.updateUserProfile 1
               (Demo.profile (Some "") (Some "") None (Some "0955") None
                  (Some " xy77 ") (Some "male"))
               [Demo.alice])) = Some u'
     /\ firstName u' = Some "Alice"
     /\ middleName u' = Some ""
     /\ phone u' = Some "0955"
     /\ sex u' = Some "male"
     /\ licenseId u' = Some "XY77")
  /\ Auth.updateUserProfile 1
       (Demo.profile None None None None None (Some " xy ") None) [Demo.alice]
     = (inl (BadRequestError "License ID must be at least 4 characters"),
        [Demo.alice]).
Proof.
  split;
    [|apply (proj1 (proj2 (updateUserProfile_field_rules 1
                             (Demo.profile None None None None None (Some " xy ") None)
                             [Demo.alice] Demo.alice eq_refl)) " xy ");
      [reflexivity|reflexivity|discriminate|vm_compute; lia]].
  assert (Hrun : fst (Auth.updateUserProfile 1
                        (Demo.profile (Some "") (Some "") None (Some "0955") None
                           (Some " xy77 ") (Some "male"))
                        [Demo.alice])
                 = inr (mkResponse StatusCodes.OK
                          (JObj [("message", JStr "Profile updated successfully");
                                 ("user", select_no_password
                                    (mkUser 1 "a@x.com" "#p1" "rider" (Some "Alice")
                                       (Some "") (Some "Smith") (Some "0955") None
                                       (Some "XY77") (Some "male") false "pending"
                                       None 10))])))
    by (vm_compute; reflexivity).
  destruct (proj1 (updateUserProfile_field_rules 1
                     (Demo.profile (Some "") (Some "") None (Some "0955") None
                        (Some " xy77 ") (Some "male"))
                     [Demo.alice] Demo.alice eq_refl) _ Hrun)
    as [u' [_ [Hfind [Hfn [_ [Hph [Hsex [Hmn [_ Hlic]]]]]]]]].
  exists u'. split; [exact Hfind|].
  split; [exact Hfn|]. split; [exact Hmn|]. split; [exact Hph|].
  split; [exact Hsex|]. rewrite Hlic. vm_compute. reflexivity.
Defined.

(** C7 as it was stated fails for [sex]: an empty string supplied for
    [sex] is skipped, while the same input for [middleName] is stored.
    It fails for [licenseId] too when the account is a rider and the
    value is too short: the field is present and is not updated. *)
Lemma updateUserProfile_presence_counterexample :
  option_map code
    (responded (Auth.updateUserProfile 1
                  (Demo.profile None (Some "") None None None None (Some ""))
                  [Demo.alice])) = Some StatusCodes.OK
  /\ option_map sex
       (Model.findById 1
          (snd (Auth.updateUserProfile 1
                  (Demo.profile None (Some "") None None None None (Some ""))
                  [Demo.alice]))) = Some (Some "female")
  /\ option_map middleName
       (Model.findById 1
          (snd (Auth.updateUserProfile 1
                  (Demo.profile None (Some "") None None None None (Some ""))
                  [Demo.alice]))) = Some (Some "")
  /\ Auth.updateUserProfile 1
       (Demo.profile None None None None None (Some "xy") None) [Demo.alice]
     = (inl (BadRequestError "License ID must be at least 4 characters"), [Demo.alice])
  /\ licenseId Demo.alice = Some "AB12".
Proof. repeat split. Qed.

(** ** License ids *)

Section License.
Context {services : Services}.

(** Every failure of [register] is a [BadRequestError] and leaves the
    store as it was. *)
Lemma register_throws_bad_request (now : nat) (b : Req.body) (st : Store) (e : HttpError) :
  fst (Auth.register now b st) = inl e ->
  (exists m, e = BadRequestError m) /\ snd (Auth.register now b st) = st.
Proof.
  unfold Auth.register, bind, require, findOne, fresh_id, insert, respond.
  destruct (Js.provided (Req.email b)); cbn [ret throw];
    [|intros [= <-]; eauto].
  destruct (Js.provided (Req.password b)); cbn [ret throw];
    [|intros [= <-]; eauto].
  destruct (Js.provided (Req.role b)) as [r|]; cbn [ret throw];
    [|intros [= <-]; eauto].
  destruct (Js.includes ["customer"; "rider"] r); cbn [negb throw_if ret throw];
    [|intros [= <-]; eauto].
  destruct (Model.findOne _ st); cbn [Js.defined throw_if ret throw];
    [intros [= <-]; eauto|].
  destruct (Req.licenseId b) as [l|]; cbn [ret]; [|discriminate].
  destruct ((r =? "rider") && Js.truthy (Some l)); cbn [ret]; [|discriminate].
  unfold bind, throw_if.
  destruct (js_length (toUpperCase (trim l)) <? 4)%nat; cbn [ret throw].
  - intros [= <-]; eauto.
  - discriminate.
Qed.

(** A rider's registration with a license id at hand either stops at one
    of the guards or reaches the check of the license. *)
Lemma register_rider (now : nat) (b : Req.body) (st : Store) (em pw l : string) :
  Req.email b = Some em -> em <> "" ->
  Req.password b = Some pw -> pw <> "" ->
  Req.role b = Some "rider" ->
  (forall u, In u st -> email u <> em) ->
  Req.licenseId b = Some l -> l <> "" ->
  Auth.register now b st =
    if (js_length (toUpperCase (trim l)) <? 4)%nat then
      (inl (BadRequestError "License ID must be at least 4 characters"), st)
    else
      let user :=
        mkUser (Model.fresh_id st) em (hashPassword pw) "rider"
          (Req.firstName b) (Req.middleName b) (Req.lastName b) (Req.phone b)
          (Req.schoolId b) (Some (toUpperCase (trim l))) (Req.sex b)
          false "pending" None now in
      (inr (mkResponse StatusCodes.CREATED
              (JObj [("message",
                      JStr "User registered successfully. Your account is pending approval.");
                     ("user", toJSON user);
                     ("access_token", JStr (createAccessToken user));
                     ("refresh_token", JStr (createRefreshToken user));
                     ("isApproved", JBool false);
                     ("status", JStr "pending")])),
       (st ++ [user])%list).
Proof.
  intros Hem Hem' Hpw Hpw' Hr Hfree Hl Hl'.
  unfold Auth.register, bind.
  rewrite (require_ok _ em _ st Hem Hem'), (require_ok _ pw _ st Hpw Hpw'),
    (require_ok _ "rider" _ st Hr ltac:(discriminate)).
  cbn [Js.includes existsb String.eqb Ascii.eqb Bool.eqb orb negb throw_if ret].
  unfold findOne.
  replace (Model.findOne _ st) with (@None User).
  - cbn [Js.defined throw_if ret]. rewrite Hl.
    cbn [String.eqb Ascii.eqb Bool.eqb andb]. unfold Js.truthy.
    destruct (String.eqb_spec l ""); [contradiction|]. cbn [negb].
    unfold bind, throw_if.
    destruct (js_length (toUpperCase (trim l)) <? 4)%nat; reflexivity.
  - symmetry. apply findOne_none. intros u Hu.
    apply String.eqb_neq. exact (Hfree u Hu).
Qed.

End License.

(** C3, as the code has it.  For a license id that is supplied and is not
    the empty string, for the role rider: on registration and on the
    profile update the value is trimmed and upper-cased; when the result
    has fewer than 4 characters the operation throws a [BadRequestError]
    and the store is as it was; otherwise, when the operation answers,
    the account stored holds the trimmed, upper-cased value, and it does
    answer when its other guards pass. *)
Theorem licenseId_rule_register_profile {services : Services} (l : string) :
  l <> "" ->
  (forall now b st,
     Req.role b = Some "rider" -> Req.licenseId b = Some l ->
     (js_length (toUpperCase (trim l)) < 4 ->
      exists m, Auth.register now b st = (inl (BadRequestError m), st))
     /\ (4 <= js_length (toUpperCase (trim l)) ->
         forall em pw,
           Req.email b = Some em -> em <> "" ->
           Req.password b = Some pw -> pw <> "" ->
           (forall u, In u st -> email u <> em) ->
           exists user resp,
             Auth.register now b st = (inr resp, (st ++ [user])%list)
             /\ code resp = StatusCodes.CREATED
             /\ email user = em
             /\ role user = "rider"
             /\ licenseId user = Some (toUpperCase (trim l))))
  /\ (forall uid b st u,
        Model.findById uid st = Some u -> role u = "rider" ->
        Req.licenseId b = Some l ->
        (js_length (toUpperCase (trim l)) < 4 ->
         Auth.updateUserProfile uid b st
           = (inl (BadRequestError "License ID must be at least 4 characters"), st))
        /\ (4 <= js_length (toUpperCase (trim l)) ->
            (forall resp,
               fst (Auth.updateUserProfile uid b st) = inr resp ->
               exists u',
                 Model.findById uid (snd (Auth.updateUserProfile uid b st)) = Some u'
                 /\ licenseId u' = Some (toUpperCase (trim l)))
            /\ (Js.provided (Req.email b) = None ->
                exists resp,
                  fst (Auth.updateUserProfile uid b st) = inr resp
                  /\ code resp = StatusCodes.OK))).
Proof.
  intros Hl. split.
  - intros now b st Hr Hlic. split.
    + intros Hshort.
      destruct (Auth.register now b st) as [[e|resp] st'] eqn:E.
      * destruct (register_throws_bad_request now b st e) as [[m ->] Hst];
          [now rewrite E|].
        rewrite E in Hst. cbn in Hst. subst st'. eauto.
      * exfalso. revert E.
        unfold Auth.register, bind, require, findOne.
        destruct (Js.provided (Req.email b)); cbn [ret throw]; [|discriminate].
        destruct (Js.provided (Req.password b)); cbn [ret throw]; [|discriminate].
        rewrite Hr. cbn [Js.provided String.eqb Ascii.eqb Bool.eqb ret].
        cbn [Js.includes existsb String.eqb Ascii.eqb Bool.eqb orb negb throw_if ret].
        destruct (Model.findOne _ st); cbn [Js.defined throw_if ret throw];
          [discriminate|].
        rewrite Hlic. cbn [andb]. unfold Js.truthy.
        destruct (String.eqb_spec l ""); [contradiction|]. cbn [negb].
        unfold bind, throw_if.
        apply Nat.ltb_lt in Hshort. rewrite Hshort. discriminate.
    + intros Hlong em pw Hem Hem' Hpw Hpw' Hfree.
      rewrite (register_rider now b st em pw l) by assumption.
      destruct (Nat.ltb_spec (js_length (toUpperCase (trim l))) 4); [lia|].
      cbv zeta. eexists. eexists. split; [reflexivity|]. cbn. auto.
  - intros uid b st u Hfind Hrole Hlic.
    assert (Hgate : (role u =? "rider") && negb (l =? "") = true).
    { rewrite Hrole. cbn [String.eqb Ascii.eqb Bool.eqb andb].
      destruct (String.eqb_spec l ""); [contradiction|reflexivity]. }
    split; [|split].
    + intros Hshort. rewrite (updateUserProfile_found uid b st u Hfind). cbv zeta.
      rewrite Hlic, Hgate. apply Nat.ltb_lt in Hshort. now rewrite Hshort.
    + intros resp Hresp.
      destruct (updateUserProfile_saved uid b st u resp Hfind Hresp)
        as [u' [_ [Hu' [_ [_ [_ [_ [_ [_ Hlicense]]]]]]]]].
      exists u'. split; [exact Hu'|]. now rewrite Hlicense, Hlic, Hgate.
    + intros Hem. rewrite (updateUserProfile_found uid b st u Hfind). cbv zeta.
      rewrite Hlic, Hgate, Hem.
      destruct (Nat.ltb_spec (js_length (toUpperCase (trim l))) 4); [lia|].
      eexists. split; reflexivity.
Qed.

Lemma licenseId_rule_register_profile_witness :
  (exists user resp,
     Auth.register 40 (Demo.registration "n@x.com" "pw" "rider" (Some " ab12 ")) Demo.store
       = (inr resp, (Demo.store ++ [user])%list)
     /\ code resp = StatusCodes.CREATED
     /\ email user = "n@x.com"
     /\ role user = "rider"
     /\ licenseId user = Some (toUpperCase (trim " ab12 ")))
  /\ (exists m,
        Auth.register 40 (Demo.registration "n@x.com" "pw" "rider" (Some " ab ")) Demo.store
          = (inl (BadRequestError m), Demo.store))
  /\ Auth.updateUserProfile 1 (Demo.license (Some " ab ")) Demo.store
     = (inl (BadRequestError "License ID must be at least 4 characters"), Demo.store)
  /\ (exists resp,
        fst (Auth.updateUserProfile 1 (Demo.license (Some " ab12 ")) Demo.store) = inr resp
        /\ code resp = StatusCodes.OK).
Proof.
  split; [|split; [|split]].
  - apply (proj2 (proj1 (licenseId_rule_register_profile " ab12 " ltac:(discriminate))
                    40 (Demo.registration "n@x.com" "pw" "rider" (Some " ab12 "))
                    Demo.store eq_refl eq_refl)
             ltac:(vm_compute; lia) "n@x.com" "pw").
    + reflexivity.
    + discriminate.
    + reflexivity.
    + discriminate.
    + intros u [<-|[<-|[<-|[<-|[]]]]]; discriminate.
  - apply (proj1 (proj1 (licenseId_rule_register_profile " ab " ltac:(discriminate))
                    40 (Demo.registration "n@x.com" "pw" "rider" (Some " ab "))
                    Demo.store eq_refl eq_refl)).
    vm_compute. lia.
  - apply (proj1 (proj2 (licenseId_rule_register_profile " ab " ltac:(discriminate))
                    1 (Demo.license (Some " ab ")) Demo.store Demo.alice
                    eq_refl eq_refl eq_refl)).
    vm_compute. lia.
  - apply (proj2 (proj2 (proj2 (licenseId_rule_register_profile " ab12 "
                                  ltac:(discriminate))
                           1 (Demo.license (Some " ab12 ")) Demo.store Demo.alice
                           eq_refl eq_refl eq_refl)
                    ltac:(vm_compute; lia))).
    reflexivity.
Defined.

(** C3 as it was stated fails twice.  The administrative [updateUser]
    stores the license id of a rider as it was sent, here with its spaces,
    in lower case and two characters long, and answers 200.  A
    registration with the empty string for the license id is accepted and
    the empty string stored. *)
Lemma licenseId_rule_counterexample :
  role Demo.alice = "rider"
  /\ option_map code
       (responded (Admin.updateUser 1 (Demo.license (Some " ab ")) [Demo.alice]))
     = Some StatusCodes.OK
  /\ option_map licenseId
       (Model.findById 1
          (snd (Admin.updateUser 1 (Demo.license (Some " ab ")) [Demo.alice])))
     = Some (Some " ab ")
  /\ option_map code
       (responded (Auth.register 40
                     (Demo.registration "n@x.com" "pw" "rider" (Some "")) Demo.store))
     = Some StatusCodes.CREATED
  /\ option_map (fun u => (role u, licenseId u))
       (Model.findOne (fun u => email u =? "n@x.com")
          (snd (Auth.register 40
                  (Demo.registration "n@x.com" "pw" "rider" (Some "")) Demo.store)))
     = Some ("rider", Some "").
Proof. repeat split. Qed.

(** ** Password hashes in responses *)

Section Passwords.
Context {services : Services}.

Lemma getUserProfile_hides_password (uid : nat) (st : Store) (j : json) :
  returned_user (Auth.getUserProfile uid st) = Some j ->
  has_key "password" j = false.
Proof.
  unfold Auth.getUserProfile, bind, findById, returned_user, responded.
  destruct (Model.findById uid st) as [u|]; cbn; [|discriminate].
  intros [= <-]. apply select_no_password_has_no_password.
Qed.

Lemma updateUserProfile_hides_password (uid : nat) (b : Req.body) (st : Store) (j : json) :
  returned_user (Auth.updateUserProfile uid b st) = Some j ->
  has_key "password" j = false.
Proof.
  destruct (Model.findById uid st) as [u|] eqn:Hfind;
    [|rewrite (updateUserProfile_unknown uid b st Hfind); discriminate].
  rewrite (updateUserProfile_found uid b st u Hfind). cbv zeta.
  unfold returned_user, responded.
  destruct (Req.licenseId b) as [l|];
    [destruct ((role u =? "rider") && negb (l =? ""));
     [destruct (js_length (toUpperCase (trim l)) <? 4)%nat;
      [discriminate|]|]|];
    (destruct (Js.provided (Req.email b)) as [em|];
     [destruct (Model.findOne _ st); [discriminate|]|]);
    cbn; intros [= <-]; apply select_no_password_has_no_password.
Qed.

Lemma getAllUsers_hides_password (rq : Query.t) (st : Store) (account : json) :
  In account (returned_accounts (Admin.getAllUsers rq st)) ->
  has_key "password" account = false.
Proof.
  intros Hin. apply returned_accounts_spec in Hin.
  destruct Hin as [_ [u [_ [_ ->]]]]. apply select_no_password_has_no_password.
Qed.

(** When [login] answers 200, the account it returns has its password
    path. *)
Lemma login_returns_document (b : Req.body) (st : Store) (resp : Response) :
  fst (Auth.login b st) = inr resp -> code resp = StatusCodes.OK ->
  exists user, In user st /\ get "user" (payload resp) = Some (toJSON user).
Proof.
  unfold Auth.login, bind, require, findOne, Auth.compare.
  destruct (Js.provided (Req.email b)) as [em|]; cbn [ret throw]; [|discriminate].
  destruct (Js.provided (Req.password b)) as [pw|]; cbn [ret throw]; [|discriminate].
  destruct (Js.provided (Req.role b)) as [r|]; cbn [ret throw]; [|discriminate].
  destruct (Js.includes _ r); cbn [negb throw_if ret throw]; [|discriminate].
  destruct (Model.findOne _ st) as [user|] eqn:Hfind; cbn [throw]; [|discriminate].
  destruct (comparePassword user (Some pw)) as [[|]|];
    cbn [negb throw_if ret throw]; try discriminate.
  apply findOne_some in Hfind. destruct Hfind as [Hin _].
  destruct (negb (r =? "admin") && (status user =? "disapproved"));
    [cbn; intros [= <-]; discriminate|].
  destruct (negb (r =? "admin") && (status user =? "pending"));
    [cbn; intros [= <-]; discriminate|].
  cbn. intros [= <-] _. exists user. auto.
Qed.

End Passwords.

(** C5 (the code departs from it).  The account in the 200 response of
    [login], in the 201 response of [register] and in the 200 response of
    the admin login carries the stored password hash under the key
    [password]: these handlers return the document as it was found or
    saved, where the profile and administrative handlers apply
    [select('-password')]. *)
Theorem responses_carry_password_hash :
  option_map (get "password")
    (returned_user (Auth.login (Demo.credentials "b@x.com" "p2" "customer") Demo.store))
  = Some (Some (JStr (password Demo.bob)))
  /\ option_map (get "password")
       (returned_user (Auth.register 40
                         (Demo.registration "n@x.com" "pw" "customer" None) Demo.store))
     = Some (Some (JStr (hashPassword "pw")))
  /\ option_map (get "password")
       (returned_user (AuthRoutes.admin_login
                         (Demo.credentials "root@x.com" "adm" "admin") Demo.store))
     = Some (Some (JStr (password Demo.root)))
  /\ option_map (has_key "password")
       (returned_user (Auth.getUserProfile 2 Demo.store))
     = Some false.
Proof. repeat split. Qed.

(* ===================================================================== *)
(** * Further properties of the controllers *)

(** ** Outcomes of the public handlers *)

(** X1.  Every outcome of [login].  It never changes the store.  It
    throws only the two [BadRequestError]s of its guards, the
    [UnauthenticatedError] "Invalid credentials", or the failure of the
    password comparison itself.  It answers only 403 or 200, and a
    response that carries an access token is a 200 for an account of the
    store that has the email and the role of the request, whose password
    compared equal, and that is an admin or is neither disapproved nor
    pending. *)
Theorem login_outcomes {services : Services} (b : Req.body) (st : Store) :
  snd (Auth.login b st) = st
  /\ match fst (Auth.login b st) with
     | inl e =>
         e = BadRequestError "Please provide email and password"
         \/ e = BadRequestError "Valid role is required (customer, rider, or admin)"
         \/ e = UnauthenticatedError "Invalid credentials"
         \/ e = OtherError "comparePassword"
     | inr resp =>
         exists em pw r user,
           Req.email b = Some em /\ Req.password b = Some pw /\ Req.role b = Some r
           /\ In r ["customer"; "rider"; "admin"]
           /\ In user st /\ email user = em /\ role user = r
           /\ comparePassword user (Some pw) = Some true
           /\ ((code resp = StatusCodes.FORBIDDEN
                /\ has_key "access_token" (payload resp) = false
                /\ has_key "refresh_token" (payload resp) = false
                /\ r <> "admin"
                /\ (status user = "disapproved" \/ status user = "pending"))
               \/ (resp = mkResponse StatusCodes.OK (JObj (Auth.logged_in_body user))
                   /\ (r = "admin"
                       \/ (status user <> "disapproved" /\ status user <> "pending"))))
     end.
Proof.
  unfold Auth.login, bind, require, findOne, Auth.compare.
  destruct (Js.provided (Req.email b)) as [em|] eqn:Hem; cbn [ret throw fst snd];
    [|split; [reflexivity|auto]].
  destruct (Js.provided (Req.password b)) as [pw|] eqn:Hpw; cbn [ret throw fst snd];
    [|split; [reflexivity|auto]].
  destruct (Js.provided (Req.role b)) as [r|] eqn:Hr; cbn [ret throw fst snd];
    [|split; [reflexivity|auto]].
  destruct (Js.includes _ r) eqn:Hin; cbn [negb throw_if ret throw fst snd];
    [|split; [reflexivity|auto]].
  destruct (Model.findOne _ st) as [user|] eqn:Hfind; cbn [throw fst snd];
    [|split; [reflexivity|auto]].
  destruct (comparePassword user (Some pw)) as [[|]|] eqn:Hcmp;
    cbn [negb throw_if ret throw fst snd]; try (split; [reflexivity|auto 6]).
  apply provided_inv in Hem, Hpw, Hr. destruct Hem as [Hem _], Hpw as [Hpw _], Hr as [Hr _].
  apply includes_In in Hin.
  apply findOne_some in Hfind. destruct Hfind as [Huser Hmatch].
  apply andb_prop in Hmatch. destruct Hmatch as [He Hro].
  apply String.eqb_eq in He, Hro.
  destruct (String.eqb_spec r "admin") as [Hadm|Hadm]; cbn [negb andb].
  - split; [reflexivity|]. exists em, pw, r, user.
    repeat (split; [assumption|]). right. split; [reflexivity|]. now left.
  - destruct (String.eqb_spec (status user) "disapproved") as [Hd|Hd].
    + split; [reflexivity|]. exists em, pw, r, user.
      repeat (split; [assumption|]). left. cbn. repeat split; auto.
    + destruct (String.eqb_spec (status user) "pending") as [Hp|Hp].
      * split; [reflexivity|]. exists em, pw, r, user.
        repeat (split; [assumption|]). left. cbn. repeat split; auto.
      * split; [reflexivity|]. exists em, pw, r, user.
        repeat (split; [assumption|]). right. split; [reflexivity|]. now right.
Qed.

(** When [register] answers: the account it made and its response. *)
Lemma register_answered
    {services : Services} (now : nat) (b : Req.body) (st : Store) (resp : Response) :
  fst (Auth.register now b st) = inr resp ->
  exists em pw r user,
    Req.email b = Some em /\ em <> ""
    /\ Req.password b = Some pw /\ pw <> "" /\ Req.role b = Some r
    /\ (r = "customer" \/ r = "rider")
    /\ (forall u, In u st -> email u <> em)
    /\ snd (Auth.register now b st) = (st ++ [user])%list
    /\ ~ In (_id user) (map _id st)
    /\ email user = em /\ password user = hashPassword pw /\ role user = r
    /\ status user = "pending" /\ approved user = false
    /\ disapprovalReason user = None /\ createdAt user = now
    /\ code resp = StatusCodes.CREATED
    /\ get "user" (payload resp) = Some (toJSON user)
    /\ get "access_token" (payload resp) = Some (JStr (createAccessToken user))
    /\ get "refresh_token" (payload resp) = Some (JStr (createRefreshToken user))
    /\ get "isApproved" (payload resp) = Some (JBool false)
    /\ get "status" (payload resp) = Some (JStr "pending").
Proof.
  intros E. revert E.
  unfold Auth.register, bind, require, findOne, fresh_id, insert, respond.
  destruct (Js.provided (Req.email b)) as [em|] eqn:Hem; cbn [ret throw fst snd];
    [|discriminate].
  destruct (Js.provided (Req.password b)) as [pw|] eqn:Hpw; cbn [ret throw fst snd];
    [|discriminate].
  destruct (Js.provided (Req.role b)) as [r|] eqn:Hr; cbn [ret throw fst snd];
    [|discriminate].
  destruct (Js.includes ["customer"; "rider"] r) eqn:Hin;
    cbn [negb throw_if ret throw fst snd]; [|discriminate].
  destruct (Model.findOne _ st) eqn:Hfind; cbn [Js.defined throw_if ret throw fst snd];
    [discriminate|].
  apply provided_inv in Hem, Hpw, Hr.
  destruct Hem as [Hem Hem'], Hpw as [Hpw Hpw'], Hr as [Hr _].
  apply includes_In in Hin.
  assert (Hrole : r = "customer" \/ r = "rider") by (simpl in Hin; intuition).
  assert (Hfree : forall u, In u st -> email u <> em).
  { intros u Hu. apply String.eqb_neq.
    exact (proj1 (findOne_none _ st) Hfind u Hu). }
  assert (Hdone : forall lic resp0,
            @inr HttpError Response (mkResponse StatusCodes.CREATED
              (JObj [("message",
                      JStr "User registered successfully. Your account is pending approval.");
                     ("user", toJSON (mkUser (Model.fresh_id st) em (hashPassword pw) r
                        (Req.firstName b) (Req.middleName b) (Req.lastName b)
                        (Req.phone b) (Req.schoolId b) lic (Req.sex b)
                        false "pending" None now));
                     ("access_token", JStr (createAccessToken
                        (mkUser (Model.fresh_id st) em (hashPassword pw) r
                        (Req.firstName b) (Req.middleName b) (Req.lastName b)
                        (Req.phone b) (Req.schoolId b) lic (Req.sex b)
                        false "pending" None now)));
                     ("refresh_token", JStr (createRefreshToken
                        (mkUser (Model.fresh_id st) em (hashPassword pw) r
                        (Req.firstName b) (Req.middleName b) (Req.lastName b)
                        (Req.phone b) (Req.schoolId b) lic (Req.sex b)
                        false "pending" None now)));
                     ("isApproved", JBool false);
                     ("status", JStr "pending")])) = inr resp0 ->
            exists em0 pw0 r0 user,
              Req.email b = Some em0 /\ em0 <> ""
              /\ Req.password b = Some pw0 /\ pw0 <> "" /\ Req.role b = Some r0
              /\ (r0 = "customer" \/ r0 = "rider")
              /\ (forall u, In u st -> email u <> em0)
              /\ Model.insert (mkUser (Model.fresh_id st) em (hashPassword pw) r
                        (Req.firstName b) (Req.middleName b) (Req.lastName b)
                        (Req.phone b) (Req.schoolId b) lic (Req.sex b)
                        false "pending" None now) st = (st ++ [user])%list
              /\ ~ In (_id user) (map _id st)
              /\ email user = em0 /\ password user = hashPassword pw0 /\ role user = r0
              /\ status user = "pending" /\ approved user = false
              /\ disapprovalReason user = None /\ createdAt user = now
              /\ code resp0 = StatusCodes.CREATED
              /\ get "user" (payload resp0) = Some (toJSON user)
              /\ get "access_token" (payload resp0) = Some (JStr (createAccessToken user))
              /\ get "refresh_token" (payload resp0) = Some (JStr (createRefreshToken user))
              /\ get "isApproved" (payload resp0) = Some (JBool false)
              /\ get "status" (payload resp0) = Some (JStr "pending")).
  { intros lic resp0 [= <-]. exists em, pw, r. eexists.
    repeat (split; [eassumption|]). split; [reflexivity|].
    split; [apply fresh_id_is_new|]. cbn. repeat split; reflexivity. }
  destruct (Req.licenseId b) as [l|]; cbn [ret].
  + destruct ((r =? "rider") && Js.truthy (Some l)); cbn [ret].
    * unfold bind, throw_if.
      destruct (js_length (toUpperCase (trim l)) <? 4)%nat;
        cbn [ret throw fst snd]; [discriminate|]. apply Hdone.
    * apply Hdone.
  + apply Hdone.
Qed.

(** X2.  Every outcome of [register].  A failure is a [BadRequestError]
    and leaves the store as it was.  A success is a 201 that adds exactly
    one account at the end of the store: under an id no account had, with
    the email of the request, which no account had, the hash of its
    password, its role, which is customer or rider, status "pending" and
    [approved] false; the response flags the account as not approved and
    carries both tokens. *)
Theorem register_outcomes {services : Services} (now : nat) (b : Req.body) (st : Store) :
  match fst (Auth.register now b st) with
  | inl e => (exists m, e = BadRequestError m) /\ snd (Auth.register now b st) = st
  | inr resp =>
      exists em pw r user,
        Req.email b = Some em /\ em <> ""
        /\ Req.password b = Some pw /\ pw <> "" /\ Req.role b = Some r
        /\ (r = "customer" \/ r = "rider")
        /\ (forall u, In u st -> email u <> em)
        /\ snd (Auth.register now b st) = (st ++ [user])%list
        /\ ~ In (_id user) (map _id st)
        /\ email user = em /\ password user = hashPassword pw /\ role user = r
        /\ status user = "pending" /\ approved user = false
        /\ disapprovalReason user = None /\ createdAt user = now
        /\ code resp = StatusCodes.CREATED
        /\ get "user" (payload resp) = Some (toJSON user)
        /\ get "access_token" (payload resp) = Some (JStr (createAccessToken user))
        /\ get "refresh_token" (payload resp) = Some (JStr (createRefreshToken user))
        /\ get "isApproved" (payload resp) = Some (JBool false)
        /\ get "status" (payload resp) = Some (JStr "pending")
  end.
Proof.
  destruct (fst (Auth.register now b st)) as [e|resp] eqn:E.
  - exact (register_throws_bad_request now b st e E).
  - now apply register_answered.
Qed.

(** X3.  Every outcome of the admin login.  It always answers (it
    throws nothing) and never changes the store.  It answers 401
    "Invalid credentials", 500 when the password comparison itself
    fails, or 200; a 200 is for an account of the store that has the
    email of the request and the role admin and whose password compared
    equal, whatever its status, and carries its two tokens. *)
Theorem admin_login_outcomes {services : Services} (b : Req.body) (st : Store) :
  snd (AuthRoutes.admin_login b st) = st
  /\ exists resp,
       fst (AuthRoutes.admin_login b st) = inr resp
       /\ (resp = mkResponse StatusCodes.UNAUTHORIZED
                    (JObj [("message", JStr "Invalid credentials")])
           \/ (code resp = StatusCodes.INTERNAL_SERVER_ERROR
               /\ has_key "access_token" (payload resp) = false
               /\ exists admin,
                    In admin st /\ comparePassword admin (Req.password b) = None)
           \/ (exists admin,
                 In admin st /\ Req.email b = Some (email admin)
                 /\ role admin = "admin"
                 /\ comparePassword admin (Req.password b) = Some true
                 /\ resp = mkResponse StatusCodes.OK
                             (JObj [("message", JStr "Admin logged in successfully");
                                    ("user", toJSON admin);
                                    ("access_token", JStr (createAccessToken admin));
                                    ("refresh_token", JStr (createRefreshToken admin))]))).
Proof.
  unfold AuthRoutes.admin_login, try_catch, bind, findOne, Auth.compare.
  destruct (Model.findOne _ st) as [admin|] eqn:Hfind; cbn [respond ret fst snd].
  - apply findOne_some in Hfind. destruct Hfind as [Hin Hmatch].
    destruct (Req.email b) as [em|]; [|discriminate].
    apply andb_prop in Hmatch. destruct Hmatch as [He Hr].
    apply String.eqb_eq in He, Hr.
    destruct (comparePassword admin (Req.password b)) as [[|]|] eqn:Hcmp;
      cbn [negb respond ret throw fst snd].
    + split; [reflexivity|]. eexists. split; [reflexivity|]. right. right.
      exists admin. subst em. auto.
    + split; [reflexivity|]. eexists. split; [reflexivity|]. now left.
    + split; [reflexivity|]. eexists. split; [reflexivity|]. right. left.
      cbn. repeat split. exists admin. auto.
  - split; [reflexivity|]. eexists. split; [reflexivity|]. now left.
Qed.

(** ** The legacy phone login, continued *)

Section LegacyAuth.
Context {services : Services}.

(** The legacy [auth] on a phone that an account has. *)
Lemma auth_known_phone (now : nat) (random : string) (b : Req.body)
    (ph r : string) (st : Store) (user : User) :
  Req.phone b = Some ph -> ph <> "" ->
  Req.role b = Some r -> In r ["customer"; "rider"] ->
  Model.findOne (fun u => field_is (phone u) ph) st = Some user ->
  Auth.auth now random b st =
    if negb (role user =? r) then
      (inl (BadRequestError "Phone number and role do not match"), st)
    else if status user =? "disapproved" then
      (inr (mkResponse StatusCodes.FORBIDDEN (JObj Auth.disapproved_body)), st)
    else if status user =? "pending" then
      (inr (mkResponse StatusCodes.FORBIDDEN (JObj Auth.pending_body)), st)
    else (inr (mkResponse StatusCodes.OK (JObj (Auth.logged_in_body user))), st).
Proof.
  intros Hph Hph' Hr Hr' Hfind.
  assert (Hne : r <> "") by (intros ->; simpl in Hr'; intuition discriminate).
  unfold Auth.auth, bind.
  rewrite (require_ok _ ph _ st Hph Hph'), (require_ok _ r _ st Hr Hne).
  apply includes_In in Hr'. rewrite Hr'. cbn [negb throw_if ret].
  unfold findOne. rewrite Hfind.
  destruct (negb (role user =? r)); cbn [throw_if throw ret]; [reflexivity|].
  destruct (status user =? "disapproved"); [reflexivity|].
  destruct (status user =? "pending"); reflexivity.
Qed.

(** The legacy [auth] on a phone that no account has. *)
Lemma auth_unknown_phone (now : nat) (random : string) (b : Req.body)
    (ph r : string) (st : Store) :
  Req.phone b = Some ph -> ph <> "" ->
  Req.role b = Some r -> In r ["customer"; "rider"] ->
  Model.findOne (fun u => field_is (phone u) ph) st = None ->
  let user :=
    mkUser (Model.fresh_id st) (ph ++ "@temp.ecoride.com") (hashPassword random) r
      None None None (Some ph) None None None false "pending" None now in
  Auth.auth now random b st =
    (inr (mkResponse StatusCodes.FORBIDDEN
            (JObj [("message", JStr "Account pending approval");
                   ("status", JStr "pending");
                   ("isApproved", JBool false);
                   ("user", JObj [("_id", JNum (_id user));
                                  ("phone", JStr ph);
                                  ("role", JStr r)])])),
     (st ++ [user])%list).
Proof.
  intros Hph Hph' Hr Hr' Hfind.
  assert (Hne : r <> "") by (intros ->; simpl in Hr'; intuition discriminate).
  unfold Auth.auth, bind.
  rewrite (require_ok _ ph _ st Hph Hph'), (require_ok _ r _ st Hr Hne).
  apply includes_In in Hr'. rewrite Hr'. cbn [negb throw_if ret].
  unfold findOne. rewrite Hfind. reflexivity.
Qed.

Lemma find_app_none {A} (p : A -> bool) (l1 l2 : list A) :
  find p l1 = None -> find p (l1 ++ l2) = find p l2.
Proof.
  induction l1 as [|x l1 IH]; simpl; [reflexivity|].
  destruct (p x); [discriminate|exact IH].
Qed.

Lemma no_phone_findOne (ph : string) (st : Store) :
  (forall u, In u st -> phone u <> Some ph) ->
  Model.findOne (fun u => field_is (phone u) ph) st = None.
Proof.
  intros Hnew. apply findOne_none. intros u Hu.
  destruct (field_is (phone u) ph) eqn:E; [|reflexivity].
  apply field_is_true in E. exfalso. exact (Hnew u Hu E).
Qed.

End LegacyAuth.

(** X4.  On the legacy [auth], a response that carries an access token
    leaves the store as it was and is a 200 for an account of the store
    that has the phone of the request, whose role is the role of the
    request, customer or rider, and whose status is neither disapproved
    nor pending.  No admin account gets a token this way. *)
Theorem auth_tokens_only_when_entitled
    {services : Services} (now : nat) (random : string) (b : Req.body)
    (st : Store) (resp : Response) :
  fst (Auth.auth now random b st) = inr resp ->
  has_key "access_token" (payload resp) = true ->
  snd (Auth.auth now random b st) = st
  /\ exists ph user,
       Req.phone b = Some ph /\ In user st /\ phone user = Some ph
       /\ Req.role b = Some (role user)
       /\ (role user = "customer" \/ role user = "rider")
       /\ status user <> "disapproved" /\ status user <> "pending"
       /\ resp = mkResponse StatusCodes.OK (JObj (Auth.logged_in_body user)).
Proof.
  unfold Auth.auth, bind, require, findOne, fresh_id, insert, respond.
  destruct (Js.provided (Req.phone b)) as [ph|] eqn:Hph; cbn [ret throw fst snd];
    [|discriminate].
  destruct (Js.provided (Req.role b)) as [r|] eqn:Hr; cbn [ret throw fst snd];
    [|discriminate].
  destruct (Js.includes ["customer"; "rider"] r) eqn:Hin;
    cbn [negb throw_if ret throw fst snd]; [|discriminate].
  apply provided_inv in Hph, Hr. destruct Hph as [Hph _], Hr as [Hr _].
  apply includes_In in Hin.
  destruct (Model.findOne _ st) as [user|] eqn:Hfind.
  - apply findOne_some in Hfind. destruct Hfind as [Huser Hphone].
    apply field_is_true in Hphone.
    destruct (String.eqb_spec (role user) r) as [Hrole|];
      cbn [negb throw_if ret throw fst snd]; [|discriminate].
    destruct (String.eqb_spec (status user) "disapproved");
      [cbn; intros [= <-]; discriminate|].
    destruct (String.eqb_spec (status user) "pending");
      [cbn; intros [= <-]; discriminate|].
    cbn. intros [= <-] _. split; [reflexivity|]. exists ph, user.
    subst r. repeat (split; [assumption|]).
    split; [simpl in Hin; intuition|]. auto.
  - cbn. intros [= <-]. discriminate.
Qed.

Lemma auth_tokens_only_when_entitled_witness :
  snd (Auth.auth 50 "r4nd0m" (Demo.phone_and_role "0922" "customer") Demo.store)
    = Demo.store
  /\ exists ph user,
       Req.phone (Demo.phone_and_role "0922" "customer") = Some ph
       /\ In user Demo.store /\ phone user = Some ph
       /\ Req.role (Demo.phone_and_role "0922" "customer") = Some (role user)
       /\ (role user = "customer" \/ role user = "rider")
       /\ status user <> "disapproved" /\ status user <> "pending"
       /\ mkResponse StatusCodes.OK (JObj (Auth.logged_in_body Demo.bob))
          = mkResponse StatusCodes.OK (JObj (Auth.logged_in_body user)).
Proof.
  apply (auth_tokens_only_when_entitled 50 "r4nd0m"
           (Demo.phone_and_role "0922" "customer") Demo.store
           (mkResponse StatusCodes.OK (JObj (Auth.logged_in_body Demo.bob)))).
  - reflexivity.
  - reflexivity.
Defined.

(** X5.  A first contact on the legacy [auth] followed by a second call
    with the same phone and role: the second call finds the account that
    the first one made, answers 403 "pending" without a token and adds no
    second account. *)
Theorem auth_second_contact
    {services : Services} (now now' : nat) (random random' : string) (b : Req.body)
    (ph r : string) (st : Store) :
  Req.phone b = Some ph -> ph <> "" ->
  Req.role b = Some r -> In r ["customer"; "rider"] ->
  (forall u, In u st -> phone u <> Some ph) ->
  Auth.auth now' random' b (snd (Auth.auth now random b st))
    = (inr (mkResponse StatusCodes.FORBIDDEN (JObj Auth.pending_body)),
       snd (Auth.auth now random b st))
  /\ List.length (snd (Auth.auth now random b st)) = S (List.length st).
Proof.
  intros Hph Hph' Hr Hr' Hnew.
  pose proof (no_phone_findOne ph st Hnew) as Hnone.
  rewrite (auth_unknown_phone now random b ph r st Hph Hph' Hr Hr' Hnone).
  cbn [snd]. split.
  - rewrite (auth_known_phone now' random' b ph r _
               (mkUser (Model.fresh_id st) (ph ++ "@temp.ecoride.com")
                  (hashPassword random) r None None None (Some ph) None None None
                  false "pending" None now) Hph Hph' Hr Hr').
    + cbn [role status]. now rewrite String.eqb_refl.
    + unfold Model.findOne. rewrite (find_app_none _ st _ Hnone).
      simpl. now rewrite String.eqb_refl.
  - rewrite length_app. simpl. lia.
Qed.

Lemma auth_second_contact_witness :
  Auth.auth 60 "zz" (Demo.phone_and_role "0999" "rider")
    (snd (Auth.auth 50 "r4nd0m" (Demo.phone_and_role "0999" "rider") Demo.store))
    = (inr (mkResponse StatusCodes.FORBIDDEN (JObj Auth.pending_body)),
       snd (Auth.auth 50 "r4nd0m" (Demo.phone_and_role "0999" "rider") Demo.store))
  /\ List.length (snd (Auth.auth 50 "r4nd0m" (Demo.phone_and_role "0999" "rider")
                         Demo.store))
     = S (List.length Demo.store).
Proof.
  apply (auth_second_contact 50 60 "r4nd0m" "zz"
           (Demo.phone_and_role "0999" "rider") "0999" "rider" Demo.store).
  - reflexivity.
  - discriminate.
  - reflexivity.
  - simpl. tauto.
  - intros u [<-|[<-|[<-|[<-|[]]]]]; discriminate.
Defined.

(** ** Registration, approval and login together *)

Lemma findOne_last (p : User -> bool) (st : Store) (x : User) :
  (forall u, In u st -> p u = false) -> p x = true ->
  Model.findOne p (st ++ [x])%list = Some x.
Proof.
  intros Hst Hx. unfold Model.findOne.
  rewrite (find_app_none p st [x] (proj2 (findOne_none p st) Hst)).
  simpl. now rewrite Hx.
Qed.

Lemma save_absent (doc : User) (st : Store) :
  ~ In (_id doc) (map _id st) -> Model.save doc st = st.
Proof.
  induction st as [|v st IH]; simpl; [reflexivity|]. intros Hnot.
  destruct (Nat.eqb_spec (_id v) (_id doc)) as [E|_]; [tauto|].
  rewrite IH; tauto.
Qed.

Lemma save_last (doc x : User) (st : Store) :
  ~ In (_id doc) (map _id st) -> _id x = _id doc ->
  Model.save doc (st ++ [x])%list = (st ++ [doc])%list.
Proof.
  intros Hnot Hid. rewrite save_as_map, map_app, <- save_as_map.
  rewrite (save_absent doc st Hnot). simpl. now rewrite Hid, Nat.eqb_refl.
Qed.

Lemma findById_last (x : User) (st : Store) :
  ~ In (_id x) (map _id st) -> Model.findById (_id x) (st ++ [x])%list = Some x.
Proof.
  intros Hnot. apply (findOne_last (fun u => (_id u =? _id x)%nat)).
  - intros u Hu. apply Nat.eqb_neq. intros E. apply Hnot. rewrite <- E.
    now apply in_map.
  - apply Nat.eqb_refl.
Qed.

(** X6.  A registration that succeeds, then a login with the same
    email, password and role, then the approval of the new account, then
    the same login again.  When the password verifier accepts the password
    against its own hash, the first login is answered 403 "pending"
    without a token, and the login after the approval is answered 200 with
    the account, now approved, and its tokens. *)
Theorem register_login_approve_login
    {services : Services} (now : nat) (b : Req.body) (st : Store) (resp : Response) :
  fst (Auth.register now b st) = inr resp ->
  (forall u pw,
     Req.password b = Some pw -> password u = hashPassword pw ->
     comparePassword u (Some pw) = Some true) ->
  exists user,
    snd (Auth.register now b st) = (st ++ [user])%list
    /\ Auth.login b (st ++ [user])%list
       = (inr (mkResponse StatusCodes.FORBIDDEN (JObj Auth.pending_body)),
          (st ++ [user])%list)
    /\ snd (Admin.approveUser (_id user) (st ++ [user])%list)
       = (st ++ [set_status "approved" user])%list
    /\ Auth.login b (st ++ [set_status "approved" user])%list
       = (inr (mkResponse StatusCodes.OK
                 (JObj (Auth.logged_in_body (set_status "approved" user)))),
          (st ++ [set_status "approved" user])%list).
Proof.
  intros Hreg Hverify.
  destruct (register_answered now b st resp Hreg)
    as [em [pw [r [user [Hem [Hem' [Hpw [Hpw' [Hr [Hrole [Hfree [Hst
         [Hfresh [Heu [Hpu [Hru [Hsu _]]]]]]]]]]]]]]]]].
  exists user. split; [exact Hst|].
  assert (Hin : In r ["customer"; "rider"; "admin"])
    by (simpl; destruct Hrole; auto).
  assert (Hna : (r =? "admin") = false)
    by (destruct Hrole; subst r; reflexivity).
  assert (Hnone : forall u, In u st -> (email u =? em) && (role u =? r) = false).
  { intros u Hu. apply (Hfree u) in Hu. apply String.eqb_neq in Hu. now rewrite Hu. }
  split; [|split].
  - rewrite (login_after_guards b em pw r _ Hem Hem' Hpw Hpw' Hr Hin).
    rewrite (findOne_last _ st user Hnone)
      by (now rewrite Heu, Hru, !String.eqb_refl).
    rewrite (Hverify user pw Hpw Hpu), Hna, Hsu. reflexivity.
  - rewrite (approveUser_found (_id user) _ user (findById_last user st Hfresh)).
    cbn [snd]. now apply save_last.
  - rewrite (login_after_guards b em pw r _ Hem Hem' Hpw Hpw' Hr Hin).
    rewrite (findOne_last _ st (set_status "approved" user) Hnone)
      by (cbn [email role set_status]; now rewrite Heu, Hru, !String.eqb_refl).
    rewrite (Hverify (set_status "approved" user) pw Hpw Hpu), Hna. reflexivity.
Qed.

Lemma register_login_approve_login_witness :
  exists user,
    snd (Auth.register 40 (Demo.credentials "n@x.com" "pw" "rider") Demo.store)
      = (Demo.store ++ [user])%list
    /\ Auth.login (Demo.credentials "n@x.com" "pw" "rider") (Demo.store ++ [user])%list
       = (inr (mkResponse StatusCodes.FORBIDDEN (JObj Auth.pending_body)),
          (Demo.store ++ [user])%list)
    /\ snd (Admin.approveUser (_id user) (Demo.store ++ [user])%list)
       = (Demo.store ++ [set_status "approved" user])%list
    /\ Auth.login (Demo.credentials "n@x.com" "pw" "rider")
         (Demo.store ++ [set_status "approved" user])%list
       = (inr (mkResponse StatusCodes.OK
                 (JObj (Auth.logged_in_body (set_status "approved" user)))),
          (Demo.store ++ [set_status "approved" user])%list).
Proof.
  eapply (register_login_approve_login 40
            (Demo.credentials "n@x.com" "pw" "rider") Demo.store).
  - reflexivity.
  - intros u pw [= <-] Hu. cbn. rewrite Hu. reflexivity.
Defined.

(** ** Administrative handlers on one account *)

Section ById.
Context {services : Services}.

Lemma deleteUser_found (id : nat) (st : Store) (u : User) :
  Model.findById id st = Some u ->
  Admin.deleteUser id st =
    (inr (mkResponse StatusCodes.OK
            (JObj [("message", JStr "User deleted successfully");
                   ("userId", JNum id)])),
     Model.findByIdAndDelete id st).
Proof.
  intros H. unfold Admin.deleteUser, try_catch, bind, findById. now rewrite H.
Qed.

Lemma findById_deleted (id : nat) (st : Store) :
  Model.findById id (Model.findByIdAndDelete id st) = None.
Proof.
  apply (findOne_none (fun u => (_id u =? id)%nat)). intros u Hu.
  apply filter_In in Hu. destruct Hu as [_ Hu].
  now apply negb_true_iff in Hu.
Qed.

End ById.

(** X7.  For an id that no account has, each of [getUserById],
    [approveUser], [disapproveUser], [updateUser] and [deleteUser] answers
    404 with the message "No user found with id <id>" and leaves the
    store as it was. *)
Theorem unknown_id_is_not_found
    {services : Services} (id : nat) (b : Req.body) (st : Store) :
  Model.findById id st = None ->
  let answer :=
    (inr (mkResponse StatusCodes.NOT_FOUND
            (JObj [("message",
                    JStr ("No user found with id "
                          ++ NilZero.string_of_uint (Nat.to_uint id)))])),
     st) in
  Admin.getUserById id st = answer
  /\ Admin.approveUser id st = answer
  /\ Admin.disapproveUser id b st = answer
  /\ Admin.updateUser id b st = answer
  /\ Admin.deleteUser id st = answer.
Proof.
  intros H answer. subst answer.
  unfold Admin.getUserById, Admin.approveUser, Admin.disapproveUser,
    Admin.updateUser, Admin.deleteUser, try_catch, bind, findById.
  rewrite H. repeat split; reflexivity.
Qed.

Lemma unknown_id_is_not_found_witness :
  Admin.getUserById 40 Demo.store
    = (inr (mkResponse StatusCodes.NOT_FOUND
              (JObj [("message", JStr "No user found with id 40")])), Demo.store)
  /\ Admin.approveUser 40 Demo.store
    = (inr (mkResponse StatusCodes.NOT_FOUND
              (JObj [("message", JStr "No user found with id 40")])), Demo.store)
  /\ Admin.disapproveUser 40 (Demo.disapproval None) Demo.store
    = (inr (mkResponse StatusCodes.NOT_FOUND
              (JObj [("message", JStr "No user found with id 40")])), Demo.store)
  /\ Admin.updateUser 40 (Demo.disapproval None) Demo.store
    = (inr (mkResponse StatusCodes.NOT_FOUND
              (JObj [("message", JStr "No user found with id 40")])), Demo.store)
  /\ Admin.deleteUser 40 Demo.store
    = (inr (mkResponse StatusCodes.NOT_FOUND
              (JObj [("message", JStr "No user found with id 40")])), Demo.store).
Proof.
  exact (unknown_id_is_not_found 40 (Demo.disapproval None) Demo.store eq_refl).
Defined.

(** X8.  [deleteUser] on an account of the store answers 200 with the
    id and removes the account: afterwards no account has that id, every
    account with another id is still there, unchanged and in the same
    order, and a second [deleteUser] of the id answers 404. *)
Theorem deleteUser_removes_the_account
    {services : Services} (id : nat) (st : Store) (u : User) :
  Model.findById id st = Some u ->
  fst (Admin.deleteUser id st)
    = inr (mkResponse StatusCodes.OK
             (JObj [("message", JStr "User deleted successfully");
                    ("userId", JNum id)]))
  /\ snd (Admin.deleteUser id st) = filter (fun v => negb (_id v =? id)%nat) st
  /\ Model.findById id (snd (Admin.deleteUser id st)) = None
  /\ (forall v, _id v <> id -> (In v (snd (Admin.deleteUser id st)) <-> In v st))
  /\ option_map code (responded (Admin.deleteUser id (snd (Admin.deleteUser id st))))
     = Some StatusCodes.NOT_FOUND.
Proof.
  intros H. rewrite (deleteUser_found id st u H). cbn [fst snd].
  split; [reflexivity|]. split; [reflexivity|].
  split; [apply findById_deleted|]. split.
  - intros v Hv. unfold Model.findByIdAndDelete. rewrite filter_In.
    apply Nat.eqb_neq in Hv. rewrite Hv. cbn. tauto.
  - unfold Admin.deleteUser, try_catch, bind, findById.
    now rewrite findById_deleted.
Qed.

Lemma deleteUser_removes_the_account_witness :
  fst (Admin.deleteUser 2 Demo.store)
    = inr (mkResponse StatusCodes.OK
             (JObj [("message", JStr "User deleted successfully");
                    ("userId", JNum 2)]))
  /\ snd (Admin.deleteUser 2 Demo.store)
     = filter (fun v => negb (_id v =? 2)%nat) Demo.store
  /\ Model.findById 2 (snd (Admin.deleteUser 2 Demo.store)) = None
  /\ (forall v, _id v <> 2 ->
        (In v (snd (Admin.deleteUser 2 Demo.store)) <-> In v Demo.store))
  /\ option_map code
       (responded (Admin.deleteUser 2 (snd (Admin.deleteUser 2 Demo.store))))
     = Some StatusCodes.NOT_FOUND.
Proof.
  exact (deleteUser_removes_the_account 2 Demo.store Demo.bob eq_refl).
Defined.

(** X9.  After [deleteUser] of an account, a refresh token that
    verifies and names that account is refused with the
    [UnauthenticatedError] "Invalid refresh token", and the profile of that
    identity is refused with "User not found". *)
Theorem deleted_account_loses_its_session
    {services : Services} (id : nat) (st : Store) (u : User)
    (b : Req.body) (tok : string) :
  Model.findById id st = Some u ->
  Req.refresh_token b = Some tok -> tok <> "" ->
  jwt_verify tok = Some (Some id) ->
  fst (Auth.refreshToken b (snd (Admin.deleteUser id st)))
    = inl (UnauthenticatedError "Invalid refresh token")
  /\ fst (Auth.getUserProfile id (snd (Admin.deleteUser id st)))
     = inl (UnauthenticatedError "User not found").
Proof.
  intros H Htok Hne Hv. rewrite (deleteUser_found id st u H). cbn [snd]. split.
  - rewrite (refreshToken_present b tok _ Htok Hne), Hv, findById_deleted.
    reflexivity.
  - unfold Auth.getUserProfile, bind, findById. now rewrite findById_deleted.
Qed.

Lemma deleted_account_loses_its_session_witness :
  fst (Auth.refreshToken (Demo.token (Some "refresh:a@x.com"))
         (snd (Admin.deleteUser 1 Demo.store)))
    = inl (UnauthenticatedError "Invalid refresh token")
  /\ fst (Auth.getUserProfile 1 (snd (Admin.deleteUser 1 Demo.store)))
     = inl (UnauthenticatedError "User not found").
Proof.
  apply (deleted_account_loses_its_session 1 Demo.store Demo.alice
           (Demo.token (Some "refresh:a@x.com")) "refresh:a@x.com").
  - reflexivity.
  - reflexivity.
  - discriminate.
  - reflexivity.
Defined.

Lemma find_map_same_test (p : User -> bool) (g : User -> User) (st : Store) :
  (forall v, p (g v) = p v) ->
  find p (map g st) = option_map g (find p st).
Proof.
  intros Hg. induction st as [|v st IH]; simpl; [reflexivity|].
  rewrite Hg. destruct (p v); [reflexivity|exact IH].
Qed.

(** X10.  [disapproveUser] on an account of a store with unique ids
    changes that account only, and of it only the status, which becomes
    "disapproved", and the reason, which becomes the [reason] of the
    request, or "No reason provided" when the request has none or an empty
    one; the legacy [approved] flag keeps its value.  The response is a 200
    with the account as saved, without its password. *)
Theorem disapproveUser_records_reason
    {services : Services} (id : nat) (b : Req.body) (st : Store) (u : User) :
  NoDup (map _id st) ->
  Model.findById id st = Some u ->
  let why :=
    match Req.reason b with
    | Some r => if r =? "" then "No reason provided" else r
    | None => "No reason provided"
    end in
  snd (Admin.disapproveUser id b st)
    = map (fun v =>
             if (_id v =? id)%nat
             then set_disapprovalReason (Some why) (set_status "disapproved" v)
             else v) st
  /\ fst (Admin.disapproveUser id b st)
     = inr (mkResponse StatusCodes.OK
              (JObj [("message", JStr "User disapproved successfully");
                     ("user", select_no_password
                        (set_disapprovalReason (Some why)
                           (set_status "disapproved" u)))]))
  /\ approved (set_disapprovalReason (Some why) (set_status "disapproved" u))
     = approved u.
Proof.
  intros Hnd Hfind why.
  assert (Hwhy : Js.or_else (Req.reason b) "No reason provided" = why).
  { unfold Js.or_else, Js.provided, why.
    destruct (Req.reason b) as [r|]; [|reflexivity]. now destruct (r =? ""). }
  pose proof (disapproveUser_found id b st u Hfind) as Hrun. cbv zeta in Hrun.
  rewrite Hwhy in Hrun. rewrite Hrun. cbn [fst snd].
  split; [|split; reflexivity].
  apply (save_changes_one
           (fun v => set_disapprovalReason (Some why) (set_status "disapproved" v)));
    auto.
Qed.

Lemma disapproveUser_records_reason_witness :
  snd (Admin.disapproveUser 2 (Demo.disapproval (Some "")) Demo.store)
    = map (fun v =>
             if (_id v =? 2)%nat
             then set_disapprovalReason (Some "No reason provided")
                    (set_status "disapproved" v)
             else v) Demo.store
  /\ fst (Admin.disapproveUser 2 (Demo.disapproval (Some "")) Demo.store)
     = inr (mkResponse StatusCodes.OK
              (JObj [("message", JStr "User disapproved successfully");
                     ("user", select_no_password
                        (set_disapprovalReason (Some "No reason provided")
                           (set_status "disapproved" Demo.bob)))]))
  /\ approved (set_disapprovalReason (Some "No reason provided")
                 (set_status "disapproved" Demo.bob))
     = approved Demo.bob.
Proof.
  apply (disapproveUser_records_reason 2 (Demo.disapproval (Some "")) Demo.store Demo.bob).
  - repeat constructor; simpl; intuition discriminate.
  - reflexivity.
Defined.

(** X11.  After [disapproveUser] of an account, in a store with unique
    ids: a login of that account under a role other than admin, with a
    password that compares equal, is answered 403 "disapproved" without a
    token; yet a refresh token that verifies and names the account is
    still answered 200 with a new pair of tokens, as [refreshToken] does
    not look at the status. *)
Theorem disapproved_account_login_and_refresh
    {services : Services} (id : nat) (rb : Req.body) (st : Store) (u : User)
    (b : Req.body) (em pw r : string) (tb : Req.body) (tok : string) :
  NoDup (map _id st) ->
  Req.email b = Some em -> em <> "" ->
  Req.password b = Some pw -> pw <> "" ->
  Req.role b = Some r -> In r ["customer"; "rider"] ->
  Model.findOne (fun v => (email v =? em) && (role v =? r)) st = Some u ->
  _id u = id ->
  (forall v, password v = password u -> comparePassword v (Some pw) = Some true) ->
  Req.refresh_token tb = Some tok -> tok <> "" ->
  jwt_verify tok = Some (Some id) ->
  exists doc,
    Model.findById id (snd (Admin.disapproveUser id rb st)) = Some doc
    /\ status doc = "disapproved"
    /\ Auth.login b (snd (Admin.disapproveUser id rb st))
       = (inr (mkResponse StatusCodes.FORBIDDEN (JObj Auth.disapproved_body)),
          snd (Admin.disapproveUser id rb st))
    /\ Auth.refreshToken tb (snd (Admin.disapproveUser id rb st))
       = (inr (mkResponse StatusCodes.OK
                 (JObj [("access_token", JStr (createAccessToken doc));
                        ("refresh_token", JStr (createRefreshToken doc))])),
          snd (Admin.disapproveUser id rb st)).
Proof.
  intros Hnd Hem Hem' Hpw Hpw' Hr Hr' Hfound Hid Hverify Htok Htok' Hjwt.
  pose proof (findOne_some _ _ _ Hfound) as [Hin _].
  assert (Hfind : Model.findById id st = Some u).
  { destruct (Model.findById id st) as [w|] eqn:E.
    - apply findById_some in E. destruct E as [Hw Hwid].
      f_equal. apply (unique_id st w u Hnd Hw Hin). congruence.
    - exfalso. pose proof (proj1 (findOne_none _ st) E u Hin) as Hu.
      cbn in Hu. rewrite Hid, Nat.eqb_refl in Hu. discriminate. }
  pose proof (disapproveUser_found id rb st u Hfind) as Hrun. cbv zeta in Hrun.
  set (why := Js.or_else (Req.reason rb) "No reason provided") in *.
  set (change := fun v => set_disapprovalReason (Some why) (set_status "disapproved" v)).
  fold (change u) in Hrun. rewrite Hrun. cbn [snd].
  assert (Hdoc : Model.findById id (Model.save (change u) st) = Some (change u))
    by (apply (findById_save id (change u) u st); [exact Hid|exact Hfind]).
  exists (change u). split; [exact Hdoc|]. split; [reflexivity|]. split.
  - assert (Hin3 : In r ["customer"; "rider"; "admin"])
      by (simpl in *; intuition).
    rewrite (login_after_guards b em pw r _ Hem Hem' Hpw Hpw' Hr Hin3).
    rewrite (save_changes_one change id st u Hnd (fun v => eq_refl) Hfind).
    unfold Model.findOne.
    rewrite (find_map_same_test _ (fun v => if (_id v =? id)%nat then change v else v)).
    + unfold Model.findOne in Hfound. rewrite Hfound. cbn [option_map].
      rewrite Hid, Nat.eqb_refl. rewrite (Hverify (change u) eq_refl).
      assert (Hna : (r =? "admin") = false)
        by (simpl in Hr'; destruct Hr' as [<-|[<-|[]]]; reflexivity).
      rewrite Hna. reflexivity.
    + intros v. destruct (_id v =? id)%nat; reflexivity.
  - rewrite (refreshToken_present tb tok _ Htok Htok'), Hjwt, Hdoc. reflexivity.
Qed.

Lemma disapproved_account_login_and_refresh_witness :
  exists doc,
    Model.findById 1 (snd (Admin.disapproveUser 1 (Demo.disapproval (Some "Fraud"))
                             Demo.store)) = Some doc
    /\ status doc = "disapproved"
    /\ Auth.login (Demo.credentials "a@x.com" "p1" "rider")
         (snd (Admin.disapproveUser 1 (Demo.disapproval (Some "Fraud")) Demo.store))
       = (inr (mkResponse StatusCodes.FORBIDDEN (JObj Auth.disapproved_body)),
          snd (Admin.disapproveUser 1 (Demo.disapproval (Some "Fraud")) Demo.store))
    /\ Auth.refreshToken (Demo.token (Some "refresh:a@x.com"))
         (snd (Admin.disapproveUser 1 (Demo.disapproval (Some "Fraud")) Demo.store))
       = (inr (mkResponse StatusCodes.OK
                 (JObj [("access_token", JStr (createAccessToken doc));
                        ("refresh_token", JStr (createRefreshToken doc))])),
          snd (Admin.disapproveUser 1 (Demo.disapproval (Some "Fraud")) Demo.store)).
Proof.
  apply (disapproved_account_login_and_refresh 1 (Demo.disapproval (Some "Fraud"))
           Demo.store Demo.alice (Demo.credentials "a@x.com" "p1" "rider")
           "a@x.com" "p1" "rider"
           (Demo.token (Some "refresh:a@x.com")) "refresh:a@x.com").
  - repeat constructor; simpl; intuition discriminate.
  - reflexivity.
  - discriminate.
  - reflexivity.
  - discriminate.
  - reflexivity.
  - simpl. tauto.
  - reflexivity.
  - reflexivity.
  - intros v Hv. cbn. rewrite Hv. reflexivity.
  - reflexivity.
  - discriminate.
  - reflexivity.
Defined.

(** ** The administrative update *)

Section AdminUpdate.
Context {services : Services}.

Lemma admin_assignments_keeps (b : Req.body) (u : User) :
  _id (admin_assignments b u) = _id u
  /\ email (admin_assignments b u) = email u
  /\ role (admin_assignments b u) = role u
  /\ password (admin_assignments b u) = password u
  /\ status (admin_assignments b u) = status u
  /\ disapprovalReason (admin_assignments b u) = disapprovalReason u
  /\ createdAt (admin_assignments b u) = createdAt u.
Proof.
  unfold admin_assignments, assign_if.
  destruct (Js.defined (Req.firstName b)), (Js.defined (Req.middleName b)),
    (Js.defined (Req.lastName b)), (Js.defined (Req.phone b)),
    (Js.defined (Req.schoolId b)), (Js.defined (Req.licenseId b)),
    (Js.defined (Req.sex b)), (Req.approved b); repeat split; reflexivity.
Qed.

(** The administrative [updateUser] on an account that exists, step by
    step: the check of the email, then the check of the role, then the
    save. *)
Lemma updateUser_found (id : nat) (b : Req.body) (st : Store) (u : User) :
  Model.findById id st = Some u ->
  Admin.updateUser id b st =
    let u1 := admin_assignments b u in
    let bad m :=
      (inr (mkResponse StatusCodes.BAD_REQUEST (JObj [("message", JStr m)])), st) in
    let finish doc :=
      (inr (mkResponse StatusCodes.OK
              (JObj [("message", JStr "User updated successfully");
                     ("user", select_no_password doc)])),
       Model.save doc st) in
    let after_email u2 :=
      match Req.role b with
      | Some r =>
          if negb (r =? role u) then
            if Js.includes ["customer"; "rider"] r then finish (set_role r u2)
            else bad "Invalid role. Must be customer or rider"
          else finish u2
      | None => finish u2
      end in
    match Req.email b with
    | Some em =>
        if negb (em =? email u) then
          match Model.findOne
                  (fun v => (email v =? em) && negb (_id v =? id)%nat) st with
          | Some _ => bad "Email already in use"
          | None => after_email (set_email em u1)
          end
        else after_email u1
    | None => after_email u1
    end.
Proof.
  intros Hfind. pose proof (findById_some _ _ _ Hfind) as [_ Hid].
  destruct (admin_assignments_keeps b u) as [Hi [He [Hr _]]].
  cbv zeta.
  assert (Hfinish : forall doc,
            _id doc = id ->
            try_catch
              (bind (save doc) (fun _ =>
                 bind (findById id) (fun updatedUser =>
                   respond StatusCodes.OK
                     [("message", JStr "User updated successfully");
                      ("user", select_opt updatedUser)])))
              (Admin.on_error "Error updating user" true) st
            = (inr (mkResponse StatusCodes.OK
                      (JObj [("message", JStr "User updated successfully");
                             ("user", select_no_password doc)])),
               Model.save doc st)).
  { intros doc Hdoc. unfold try_catch, bind, save, findById, respond, ret.
    rewrite (findById_save id doc u st Hdoc Hfind). reflexivity. }
  unfold Admin.updateUser.
  unfold try_catch at 1. unfold bind at 1. unfold findById at 1. rewrite Hfind.
  cbv zeta.
  match goal with
  | |- context [set_email _ ?t] => change t with (admin_assignments b u)
  end.
  rewrite He.
  assert (Hrole : forall u2,
            _id u2 = id -> role u2 = role u ->
            (let (s, st') :=
               bind
                 match Req.role b with
                 | Some r =>
                     if negb (r =? role u2) then
                       bind (throw_if (negb (Js.includes ["customer"; "rider"] r))
                               (BadRequestError "Invalid role. Must be customer or rider"))
                         (fun _ => ret (set_role r u2))
                     else ret u2
                 | None => ret u2
                 end
                 (fun user =>
                    bind (save user) (fun _ =>
                      bind (findById id) (fun updatedUser =>
                        respond StatusCodes.OK
                          [("message", JStr "User updated successfully");
                           ("user", select_opt updatedUser)]))) st in
             match s with
             | inl e => Admin.on_error "Error updating user" true e st'
             | inr a => (inr a, st')
             end)
            = match Req.role b with
              | Some r =>
                  if negb (r =? role u) then
                    if Js.includes ["customer"; "rider"] r then
                      (inr (mkResponse StatusCodes.OK
                              (JObj [("message", JStr "User updated successfully");
                                     ("user", select_no_password (set_role r u2))])),
                       Model.save (set_role r u2) st)
                    else
                      (inr (mkResponse StatusCodes.BAD_REQUEST
                              (JObj [("message",
                                      JStr "Invalid role. Must be customer or rider")])),
                       st)
                  else
                    (inr (mkResponse StatusCodes.OK
                            (JObj [("message", JStr "User updated successfully");
                                   ("user", select_no_password u2)])),
                     Model.save u2 st)
              | None =>
                  (inr (mkResponse StatusCodes.OK
                          (JObj [("message", JStr "User updated successfully");
                                 ("user", select_no_password u2)])),
                   Model.save u2 st)
              end).
  { intros u2 Hu2 Hr2. rewrite Hr2.
    pose proof (Hfinish u2 Hu2) as F2. unfold try_catch in F2.
    destruct (Req.role b) as [r|].
    - destruct (negb (r =? role u)).
      + pose proof (Hfinish (set_role r u2) Hu2) as F3. unfold try_catch in F3.
        unfold bind at 1 2. unfold throw_if.
        destruct (Js.includes ["customer"; "rider"] r); cbn [negb throw ret].
        * exact F3.
        * reflexivity.
      + unfold bind at 1. cbn [ret]. exact F2.
    - unfold bind at 1. cbn [ret]. exact F2. }
  destruct (Req.email b) as [em|].
  - destruct (negb (em =? email u)).
    + unfold bind at 1 2 3. unfold findOne at 1.
      destruct (Model.findOne _ st); cbn [Js.defined throw_if throw ret].
      * reflexivity.
      * apply (Hrole (set_email em (admin_assignments b u))); cbn; congruence.
    + unfold bind at 1. cbn [ret]. apply Hrole; congruence.
  - unfold bind at 1. cbn [ret]. apply Hrole; congruence.
Qed.
(** What [updateUser] does to an account that exists: it answers 400
    and saves nothing, or answers 200 and saves one document. *)
Lemma updateUser_saved (id : nat) (b : Req.body) (st : Store) (u : User) :
  Model.findById id st = Some u ->
  (exists m,
     Admin.updateUser id b st
       = (inr (mkResponse StatusCodes.BAD_REQUEST (JObj [("message", JStr m)])), st))
  \/ (exists doc,
        Admin.updateUser id b st
          = (inr (mkResponse StatusCodes.OK
                    (JObj [("message", JStr "User updated successfully");
                           ("user", select_no_password doc)])),
             Model.save doc st)
        /\ _id doc = id
        /\ (email doc = email u
            \/ (Req.email b = Some (email doc)
                /\ forall v, In v st -> _id v <> id -> email v <> email doc))
        /\ (role doc = role u
            \/ (Req.role b = Some (role doc)
                /\ (role doc = "customer" \/ role doc = "rider")))
        /\ (password doc, status doc, disapprovalReason doc, createdAt doc)
           = (password u, status u, disapprovalReason u, createdAt u)
        /\ (firstName doc, middleName doc, lastName doc, phone doc)
           = (firstName (admin_assignments b u), middleName (admin_assignments b u),
              lastName (admin_assignments b u), phone (admin_assignments b u))
        /\ (schoolId doc, licenseId doc, sex doc, approved doc)
           = (schoolId (admin_assignments b u), licenseId (admin_assignments b u),
              sex (admin_assignments b u), approved (admin_assignments b u))).
Proof.
  intros Hfind. pose proof (findById_some _ _ _ Hfind) as [_ Hid].
  destruct (admin_assignments_keeps b u) as [Hi [He [Hr [Hp [Hs [Hd Hc]]]]]].
  rewrite (updateUser_found id b st u Hfind). cbv zeta.
  assert (Hrole : forall u2,
    _id u2 = id ->
    (email u2 = email u
     \/ (Req.email b = Some (email u2)
         /\ forall v, In v st -> _id v <> id -> email v <> email u2)) ->
    role u2 = role u ->
    (password u2, status u2, disapprovalReason u2, createdAt u2)
      = (password u, status u, disapprovalReason u, createdAt u) ->
    (firstName u2, middleName u2, lastName u2, phone u2)
      = (firstName (admin_assignments b u), middleName (admin_assignments b u),
         lastName (admin_assignments b u), phone (admin_assignments b u)) ->
    (schoolId u2, licenseId u2, sex u2, approved u2)
      = (schoolId (admin_assignments b u), licenseId (admin_assignments b u),
         sex (admin_assignments b u), approved (admin_assignments b u)) ->
    forall r0 : (HttpError + Response) * Store,
      r0 = match Req.role b with
           | Some r =>
               if negb (r =? role u) then
                 if Js.includes ["customer"; "rider"] r then
                   (inr (mkResponse StatusCodes.OK
                           (JObj [("message", JStr "User updated successfully");
                                  ("user", select_no_password (set_role r u2))])),
                    Model.save (set_role r u2) st)
                 else
                   (inr (mkResponse StatusCodes.BAD_REQUEST
                           (JObj [("message",
                                   JStr "Invalid role. Must be customer or rider")])),
                    st)
               else
                 (inr (mkResponse StatusCodes.OK
                         (JObj [("message", JStr "User updated successfully");
                                ("user", select_no_password u2)])),
                  Model.save u2 st)
           | None =>
               (inr (mkResponse StatusCodes.OK
                       (JObj [("message", JStr "User updated successfully");
                              ("user", select_no_password u2)])),
                Model.save u2 st)
           end ->
      (exists m,
         r0 = (inr (mkResponse StatusCodes.BAD_REQUEST (JObj [("message", JStr m)])), st))
      \/ (exists doc,
            r0 = (inr (mkResponse StatusCodes.OK
                         (JObj [("message", JStr "User updated successfully");
                                ("user", select_no_password doc)])),
                  Model.save doc st)
            /\ _id doc = id
            /\ (email doc = email u
                \/ (Req.email b = Some (email doc)
                    /\ forall v, In v st -> _id v <> id -> email v <> email doc))
            /\ (role doc = role u
                \/ (Req.role b = Some (role doc)
                    /\ (role doc = "customer" \/ role doc = "rider")))
            /\ (password doc, status doc, disapprovalReason doc, createdAt doc)
               = (password u, status u, disapprovalReason u, createdAt u)
            /\ (firstName doc, middleName doc, lastName doc, phone doc)
               = (firstName (admin_assignments b u), middleName (admin_assignments b u),
                  lastName (admin_assignments b u), phone (admin_assignments b u))
            /\ (schoolId doc, licenseId doc, sex doc, approved doc)
               = (schoolId (admin_assignments b u), licenseId (admin_assignments b u),
                  sex (admin_assignments b u), approved (admin_assignments b u)))).
  { intros u2 H1 H2 H3 H4 H5 H6 r0 ->.
    destruct (Req.role b) as [r|].
    - destruct (negb (r =? role u)).
      + destruct (Js.includes ["customer"; "rider"] r) eqn:Hinc.
        * right. exists (set_role r u2). split; [reflexivity|].
          repeat (split; [assumption|]). split; [|auto].
          right. split; [reflexivity|]. apply includes_In in Hinc.
          cbn [role set_role]. simpl in Hinc. intuition.
        * left. eexists. reflexivity.
      + right. exists u2. split; [reflexivity|]. auto 10.
    - right. exists u2. split; [reflexivity|]. auto 10. }
  assert (Hid1 : _id (admin_assignments b u) = id) by congruence.
  assert (H4 : (password (admin_assignments b u), status (admin_assignments b u),
                disapprovalReason (admin_assignments b u),
                createdAt (admin_assignments b u))
               = (password u, status u, disapprovalReason u, createdAt u))
    by congruence.
  destruct (Req.email b) as [em|] eqn:Hem.
  - destruct (negb (em =? email u)).
    + destruct (Model.findOne _ st) eqn:Hother.
      * left. eexists. reflexivity.
      * apply (Hrole (set_email em (admin_assignments b u))); auto.
        right. split; [reflexivity|]. cbn [email set_email].
        intros v Hv Hvid E.
        pose proof (proj1 (findOne_none _ st) Hother v Hv) as Hf. cbn in Hf.
        apply String.eqb_eq in E. rewrite E in Hf.
        apply Nat.eqb_neq in Hvid. rewrite Hvid in Hf. discriminate.
    + apply (Hrole (admin_assignments b u)); auto.
  - apply (Hrole (admin_assignments b u)); auto.
Qed.

End AdminUpdate.

Lemma admin_assignments_fields (b : Req.body) (u : User) :
  firstName (admin_assignments b u)
    = (if Js.defined (Req.firstName b) then Req.firstName b else firstName u)
  /\ middleName (admin_assignments b u)
     = (if Js.defined (Req.middleName b) then Req.middleName b else middleName u)
  /\ lastName (admin_assignments b u)
     = (if Js.defined (Req.lastName b) then Req.lastName b else lastName u)
  /\ phone (admin_assignments b u)
     = (if Js.defined (Req.phone b) then Req.phone b else phone u)
  /\ schoolId (admin_assignments b u)
     = (if Js.defined (Req.schoolId b) then Req.schoolId b else schoolId u)
  /\ licenseId (admin_assignments b u)
     = (if Js.defined (Req.licenseId b) then Req.licenseId b else licenseId u)
  /\ sex (admin_assignments b u)
     = (if Js.defined (Req.sex b) then Req.sex b else sex u)
  /\ approved (admin_assignments b u)
     = match Req.approved b with Some v => v | None => approved u end.
Proof.
  unfold admin_assignments, assign_if.
  destruct (Js.defined (Req.firstName b)), (Js.defined (Req.middleName b)),
    (Js.defined (Req.lastName b)), (Js.defined (Req.phone b)),
    (Js.defined (Req.schoolId b)), (Js.defined (Req.licenseId b)),
    (Js.defined (Req.sex b)), (Req.approved b); repeat split; reflexivity.
Qed.

(** X12.  When the administrative [updateUser] answers 200 for an
    account of the store, the account saved has, for each of [firstName],
    [middleName], [lastName], [phone], [schoolId] and [sex],
    the value of the request whenever the field is present, the empty
    string included, and its former value otherwise; the legacy
    [approved] flag is the one of the request when present. *)
Theorem updateUser_field_rules
    {services : Services} (id : nat) (b : Req.body) (st : Store) (u : User)
    (resp : Response) :
  Model.findById id st = Some u ->
  fst (Admin.updateUser id b st) = inr resp ->
  code resp = StatusCodes.OK ->
  exists u',
    Model.findById id (snd (Admin.updateUser id b st)) = Some u'
    /\ get "user" (payload resp) = Some (select_no_password u')
    /\ firstName u'
       = (if Js.defined (Req.firstName b) then Req.firstName b else firstName u)
    /\ middleName u'
       = (if Js.defined (Req.middleName b) then Req.middleName b else middleName u)
    /\ lastName u'
       = (if Js.defined (Req.lastName b) then Req.lastName b else lastName u)
    /\ phone u' = (if Js.defined (Req.phone b) then Req.phone b else phone u)
    /\ schoolId u'
       = (if Js.defined (Req.schoolId b) then Req.schoolId b else schoolId u)
    /\ sex u' = (if Js.defined (Req.sex b) then Req.sex b else sex u)
    /\ approved u' = match Req.approved b with Some v => v | None => approved u end.
Proof.
  intros Hfind Hresp Hcode.
  destruct (updateUser_saved id b st u Hfind)
    as [[m Hrun]|[doc [Hrun [Hid [_ [_ [_ [H1 H2]]]]]]]];
    rewrite Hrun in *; cbn [fst snd] in *.
  - injection Hresp as <-. discriminate Hcode.
  - injection Hresp as <-. exists doc.
    split; [exact (findById_save id doc u st Hid Hfind)|].
    split; [reflexivity|].
    destruct (admin_assignments_fields b u)
      as [F1 [F2 [F3 [F4 [F5 [F6 [F7 F8]]]]]]].
    injection H1 as -> -> -> ->. injection H2 as -> _ -> ->.
    repeat split; assumption.
Qed.

Lemma updateUser_field_rules_witness :
  exists u',
    Model.findById 1
      (snd (Admin.updateUser 1 (Demo.profile None (Some "") None None None None None)
              Demo.store)) = Some u'
    /\ middleName u' = Some ""
    /\ firstName u' = Some "Alice"
    /\ approved u' = false.
Proof.
  destruct (updateUser_field_rules 1
              (Demo.profile None (Some "") None None None None None) Demo.store Demo.alice
              (mkResponse StatusCodes.OK
                 (JObj [("message", JStr "User updated successfully");
                        ("user", select_no_password
                           (set_middleName (Some "") Demo.alice))]))
              eq_refl eq_refl eq_refl)
    as [u' [Hfind [_ [Hfn [Hmn [_ [_ [_ [_ Happ]]]]]]]]].
  exists u'. split; [exact Hfind|]. split; [exact Hmn|]. split; [exact Hfn|exact Happ].
Defined.

(** X13.  Whatever the request, after the administrative [updateUser]
    on an account of the store the account is still there under its id,
    with its password, status, disapproval reason and creation time, and
    its role is its former role, customer or rider: the update makes no
    account an admin that was not one.  When the answer is not a 200 the
    store is as it was. *)
Theorem updateUser_cannot_escalate
    {services : Services} (id : nat) (b : Req.body) (st : Store) (u : User) :
  Model.findById id st = Some u ->
  (exists u',
     Model.findById id (snd (Admin.updateUser id b st)) = Some u'
     /\ (role u' = role u \/ role u' = "customer" \/ role u' = "rider")
     /\ (role u <> "admin" -> role u' <> "admin")
     /\ (password u', status u', disapprovalReason u', createdAt u')
        = (password u, status u, disapprovalReason u, createdAt u))
  /\ (forall resp,
        fst (Admin.updateUser id b st) = inr resp ->
        code resp <> StatusCodes.OK ->
        snd (Admin.updateUser id b st) = st)
  /\ exists resp, fst (Admin.updateUser id b st) = inr resp.
Proof.
  intros Hfind.
  destruct (updateUser_saved id b st u Hfind)
    as [[m Hrun]|[doc [Hrun [Hid [_ [Hrole [Hkept _]]]]]]];
    rewrite Hrun; cbn [fst snd].
  - split; [|split; [reflexivity|eauto]].
    exists u. split; [exact Hfind|]. auto.
  - split; [|split; [|eauto]].
    + exists doc. split; [exact (findById_save id doc u st Hid Hfind)|].
      split; [|split; [|exact Hkept]].
      * destruct Hrole as [->|[_ [->| ->]]]; auto.
      * intros Hna. destruct Hrole as [->|[_ [->| ->]]];
          [exact Hna|discriminate|discriminate].
    + intros resp [= <-] Hcode. now contradiction Hcode.
Qed.

Lemma updateUser_cannot_escalate_witness :
  (exists u',
     Model.findById 2
       (snd (Admin.updateUser 2 (Demo.admin_update None (Some "admin") None None)
               Demo.store)) = Some u'
     /\ (role u' = role Demo.bob \/ role u' = "customer" \/ role u' = "rider")
     /\ (role Demo.bob <> "admin" -> role u' <> "admin")
     /\ (password u', status u', disapprovalReason u', createdAt u')
        = (password Demo.bob, status Demo.bob, disapprovalReason Demo.bob,
           createdAt Demo.bob))
  /\ (forall resp,
        fst (Admin.updateUser 2 (Demo.admin_update None (Some "admin") None None)
               Demo.store) = inr resp ->
        code resp <> StatusCodes.OK ->
        snd (Admin.updateUser 2 (Demo.admin_update None (Some "admin") None None)
               Demo.store) = Demo.store)
  /\ exists resp,
       fst (Admin.updateUser 2 (Demo.admin_update None (Some "admin") None None)
              Demo.store) = inr resp.
Proof.
  exact (updateUser_cannot_escalate 2
           (Demo.admin_update None (Some "admin") None None) Demo.store Demo.bob
           eq_refl).
Defined.

(** ** What the profile update cannot touch, and the uniqueness of accounts *)

Lemma profile_doc_protected (b : Req.body) (u : User)
    (lic : option (option string)) (em : option string) :
  let u2 :=
    match lic with
    | Some v => set_licenseId v (first_assignments b u)
    | None => first_assignments b u
    end in
  let u3 := assign_if (Js.truthy (Req.sex b)) set_sex (Req.sex b) u2 in
  let doc := match em with Some e => set_email e u3 | None => u3 end in
  _id doc = _id u
  /\ email doc = match em with Some e => e | None => email u end
  /\ (role doc, status doc, approved doc)
     = (role u, status u, approved u)
  /\ (password doc, disapprovalReason doc, createdAt doc)
     = (password u, disapprovalReason u, createdAt u).
Proof.
  unfold first_assignments, assign_if.
  destruct lic, em, (Js.truthy (Req.firstName b)), (Js.truthy (Req.lastName b)),
    (Js.truthy (Req.phone b)), (Js.truthy (Req.sex b)),
    (Js.defined (Req.middleName b)), (Js.defined (Req.schoolId b));
    cbn; repeat split; reflexivity.
Qed.

(** What [updateUserProfile] does to the store: nothing, or it saves one
    document over the account of the identity. *)
Lemma updateUserProfile_store
    {services : Services} (uid : nat) (b : Req.body) (st : Store) (u : User) :
  Model.findById uid st = Some u ->
  snd (Auth.updateUserProfile uid b st) = st
  \/ exists doc,
       snd (Auth.updateUserProfile uid b st) = Model.save doc st
       /\ _id doc = uid
       /\ (email doc = email u
           \/ forall v, In v st -> _id v <> uid -> email v <> email doc)
       /\ (role doc, status doc, approved doc) = (role u, status u, approved u)
       /\ (password doc, disapprovalReason doc, createdAt doc)
          = (password u, disapprovalReason u, createdAt u).
Proof.
  intros Hfind. pose proof (findById_some _ _ _ Hfind) as [_ Hid].
  rewrite (updateUserProfile_found uid b st u Hfind). cbv zeta.
  assert (Hdoc : forall lic,
    (match Js.provided (Req.email b) with
     | Some em =>
         match Model.findOne
                 (fun v => (email v =? em) && negb (_id v =? uid)%nat) st with
         | Some _ => st
         | None =>
             Model.save
               (set_email em (assign_if (Js.truthy (Req.sex b)) set_sex (Req.sex b)
                  match lic with
                  | Some v => set_licenseId v (first_assignments b u)
                  | None => first_assignments b u
                  end)) st
         end
     | None =>
         Model.save
           (assign_if (Js.truthy (Req.sex b)) set_sex (Req.sex b)
              match lic with
              | Some v => set_licenseId v (first_assignments b u)
              | None => first_assignments b u
              end) st
     end) = st
    \/ exists doc,
         (match Js.provided (Req.email b) with
          | Some em =>
              match Model.findOne
                      (fun v => (email v =? em) && negb (_id v =? uid)%nat) st with
              | Some _ => st
              | None =>
                  Model.save
                    (set_email em (assign_if (Js.truthy (Req.sex b)) set_sex (Req.sex b)
                       match lic with
                       | Some v => set_licenseId v (first_assignments b u)
                       | None => first_assignments b u
                       end)) st
              end
          | None =>
              Model.save
                (assign_if (Js.truthy (Req.sex b)) set_sex (Req.sex b)
                   match lic with
                   | Some v => set_licenseId v (first_assignments b u)
                   | None => first_assignments b u
                   end) st
          end) = Model.save doc st
         /\ _id doc = uid
         /\ (email doc = email u
             \/ forall v, In v st -> _id v <> uid -> email v <> email doc)
         /\ (role doc, status doc, approved doc) = (role u, status u, approved u)
         /\ (password doc, disapprovalReason doc, createdAt doc)
            = (password u, disapprovalReason u, createdAt u)).
  { intros lic.
    destruct (Js.provided (Req.email b)) as [em|].
    - destruct (Model.findOne _ st) eqn:Hother; [now left|]. right.
      destruct (profile_doc_protected b u lic (Some em)) as [H0 [H1 [H2 H3]]].
      eexists. split; [reflexivity|]. split; [congruence|].
      split; [|split; assumption]. right. intros v Hv Hvid E.
      cbv zeta in H1. rewrite H1 in E.
      pose proof (proj1 (findOne_none _ st) Hother v Hv) as Hf. cbn in Hf.
      apply String.eqb_eq in E. rewrite E in Hf.
      apply Nat.eqb_neq in Hvid. rewrite Hvid in Hf. discriminate.
    - right.
      destruct (profile_doc_protected b u lic None) as [H0 [H1 [H2 H3]]].
      eexists. split; [reflexivity|]. split; [congruence|].
      split; [|split; assumption]. now left. }
  destruct (Req.licenseId b) as [l|].
  - destruct ((role u =? "rider") && negb (l =? "")).
    + destruct (js_length (toUpperCase (trim l)) <? 4)%nat; [now left|].
      generalize (Hdoc (Some (Some (toUpperCase (trim l))))).
      destruct (Js.provided (Req.email b));
        [destruct (Model.findOne _ st)|]; exact (fun H => H).
    + generalize (Hdoc (Some (Some l))).
      destruct (Js.provided (Req.email b));
        [destruct (Model.findOne _ st)|]; exact (fun H => H).
  - generalize (Hdoc None).
    destruct (Js.provided (Req.email b));
      [destruct (Model.findOne _ st)|]; exact (fun H => H).
Qed.

(** X14.  Whatever the request, [updateUserProfile] leaves the role,
    the status, the legacy [approved] flag, the password, the disapproval
    reason and the creation time of the account as they were, and the
    account under its id: an account cannot approve itself or change its
    role through its profile.  The identifiers of the store stay the
    same. *)
Theorem updateUserProfile_protected_fields
    {services : Services} (uid : nat) (b : Req.body) (st : Store) (u : User) :
  Model.findById uid st = Some u ->
  map _id (snd (Auth.updateUserProfile uid b st)) = map _id st
  /\ exists u',
       Model.findById uid (snd (Auth.updateUserProfile uid b st)) = Some u'
       /\ (role u', status u', approved u') = (role u, status u, approved u)
       /\ (password u', disapprovalReason u', createdAt u')
          = (password u, disapprovalReason u, createdAt u).
Proof.
  intros Hfind.
  destruct (updateUserProfile_store uid b st u Hfind)
    as [Hsame|[doc [Hsave [Hid [_ [H1 H2]]]]]].
  - rewrite Hsame. split; [reflexivity|]. exists u. auto.
  - rewrite Hsave. split; [apply save_ids|]. exists doc.
    split; [exact (findById_save uid doc u st Hid Hfind)|]. auto.
Qed.

Lemma updateUserProfile_protected_fields_witness :
  map _id (snd (Auth.updateUserProfile 1
                  (Demo.admin_update (Some "new@x.com") (Some "admin") None (Some true))
                  Demo.store)) = map _id Demo.store
  /\ exists u',
       Model.findById 1
         (snd (Auth.updateUserProfile 1
                 (Demo.admin_update (Some "new@x.com") (Some "admin") None (Some true))
                 Demo.store)) = Some u'
       /\ (role u', status u', approved u')
          = (role Demo.alice, status Demo.alice, approved Demo.alice)
       /\ (password u', disapprovalReason u', createdAt u')
          = (password Demo.alice, disapprovalReason Demo.alice, createdAt Demo.alice).
Proof.
  exact (updateUserProfile_protected_fields 1
           (Demo.admin_update (Some "new@x.com") (Some "admin") None (Some true))
           Demo.store Demo.alice eq_refl).
Defined.

Lemma unique_email (st : Store) (u v : User) :
  NoDup (map email st) -> In u st -> In v st -> email u = email v -> u = v.
Proof.
  induction st as [|w st IH]; simpl; [contradiction|].
  intros Hnd Hu Hv E. inversion Hnd as [|? ? Hnot Hnd']; subst.
  destruct Hu as [<-|Hu], Hv as [<-|Hv]; auto.
  - exfalso. apply Hnot. rewrite E. now apply in_map.
  - exfalso. apply Hnot. rewrite <- E. now apply in_map.
Qed.

Lemma In_save (doc x : User) (st : Store) :
  In x (Model.save doc st) -> x = doc \/ In x st.
Proof.
  induction st as [|w st IH]; simpl; [tauto|].
  destruct (_id w =? _id doc)%nat; simpl; intuition.
Qed.

(** Saving a document over the account of its id keeps emails unique
    when no account of another id has its email. *)
Lemma save_unique_emails (doc u : User) (st : Store) :
  NoDup (map _id st) -> NoDup (map email st) ->
  In u st -> _id doc = _id u ->
  (forall v, In v st -> _id v <> _id u -> email v <> email doc) ->
  NoDup (map email (Model.save doc st)).
Proof.
  intros Hids Hems Hu Hid Hother.
  induction st as [|w st IH]; simpl; [constructor|].
  inversion Hids as [|? ? Hidw Hids']; subst.
  inversion Hems as [|? ? Hemw Hems']; subst.
  destruct (Nat.eqb_spec (_id w) (_id doc)) as [E|E].
  - rewrite save_absent by (rewrite <- E; exact Hidw).
    simpl. constructor; [|exact Hems'].
    intros Hin. apply in_map_iff in Hin. destruct Hin as [v [Hv Hvin]].
    apply (Hother v (or_intror Hvin)); [|exact Hv].
    intros Ev. apply Hidw. rewrite E, Hid, <- Ev. now apply in_map.
  - assert (Hu' : In u st).
    { destruct Hu as [<-|Hu]; [congruence|exact Hu]. }
    simpl. constructor.
    + intros Hin. apply in_map_iff in Hin. destruct Hin as [x [Hx Hxin]].
      apply In_save in Hxin. destruct Hxin as [->|Hxin].
      * apply (Hother w (or_introl eq_refl)); congruence.
      * apply Hemw. rewrite <- Hx. now apply in_map.
    + apply IH; auto. intros v Hv. apply Hother. now right.
Qed.

Lemma save_same_email (doc u : User) (st : Store) :
  unique_accounts st -> In u st -> _id doc = _id u -> email doc = email u ->
  unique_accounts (Model.save doc st).
Proof.
  intros [Hids Hems] Hu Hid He. split; [now rewrite save_ids|].
  apply (save_unique_emails doc u st); auto.
  intros v Hv Hvid E. apply Hvid. f_equal.
  apply (unique_email st v u Hems Hv Hu). congruence.
Qed.

Lemma NoDup_snoc {A} (l : list A) (x : A) :
  NoDup l -> ~ In x l -> NoDup (l ++ [x]).
Proof.
  intros Hl Hx. apply NoDup_app_remove_l with (l := []). simpl.
  apply NoDup_Add with (a := x) (l := l); [|auto].
  rewrite <- (app_nil_r l) at 1. apply Add_app.
Qed.

(** Deleting by id keeps whatever key was unique. *)
Lemma delete_keeps_unique {K} (key : User -> K) (id : nat) (st : Store) :
  NoDup (map key st) -> NoDup (map key (Model.findByIdAndDelete id st)).
Proof.
  unfold Model.findByIdAndDelete.
  induction st as [|w st IH]; intros Hst; [exact Hst|].
  apply NoDup_cons_iff in Hst. destruct Hst as [Hw Hrest]. cbn [filter].
  destruct (negb (_id w =? id)%nat); [|exact (IH Hrest)].
  cbn [map]. apply NoDup_cons; [|exact (IH Hrest)].
  intros Hin. apply Hw. apply in_map_iff in Hin. destruct Hin as [v [Hv Hvin]].
  apply in_map_iff. exists v. split; [exact Hv|].
  exact (proj1 (proj1 (filter_In _ _ _) Hvin)).
Qed.

Lemma insert_unique_accounts (doc : User) (st : Store) :
  unique_accounts st -> _id doc = Model.fresh_id st ->
  (forall u, In u st -> email u <> email doc) ->
  unique_accounts (st ++ [doc])%list.
Proof.
  intros [Hids Hems] Hid Hfree. split; rewrite map_app; simpl.
  - apply NoDup_snoc; [exact Hids|]. rewrite Hid. apply fresh_id_is_new.
  - apply NoDup_snoc; [exact Hems|]. intros Hin. apply in_map_iff in Hin.
    destruct Hin as [u [Hu Huin]]. exact (Hfree u Huin Hu).
Qed.

Lemma unknown_id_store
    {services : Services} (id : nat) (b : Req.body) (st : Store) :
  Model.findById id st = None ->
  snd (Admin.approveUser id st) = st
  /\ snd (Admin.disapproveUser id b st) = st
  /\ snd (Admin.deleteUser id st) = st
  /\ snd (Admin.updateUser id b st) = st.
Proof.
  intros H.
  unfold Admin.approveUser, Admin.disapproveUser, Admin.updateUser,
    Admin.deleteUser, try_catch, bind, findById.
  rewrite H. repeat split; reflexivity.
Qed.

Lemma auth_store_unique
    {services : Services} (now : nat) (random : string) (b : Req.body) (st : Store) :
  unique_accounts st ->
  (forall ph u, Req.phone b = Some ph -> In u st ->
     email u <> ph ++ "@temp.ecoride.com") ->
  unique_accounts (snd (Auth.auth now random b st)).
Proof.
  intros Hst Hplace.
  unfold Auth.auth, bind, require, findOne, fresh_id, insert, respond.
  destruct (Js.provided (Req.phone b)) as [ph|] eqn:Hph; cbn [ret throw fst snd];
    [|exact Hst].
  destruct (Js.provided (Req.role b)) as [r|]; cbn [ret throw fst snd]; [|exact Hst].
  destruct (Js.includes ["customer"; "rider"] r);
    cbn [negb throw_if ret throw fst snd]; [|exact Hst].
  destruct (Model.findOne _ st) as [user|].
  - destruct (negb (role user =? r)); cbn [throw_if ret throw fst snd]; [exact Hst|].
    destruct (status user =? "disapproved"); [exact Hst|].
    destruct (status user =? "pending"); exact Hst.
  - cbn. apply insert_unique_accounts; [exact Hst|reflexivity|].
    apply provided_inv in Hph. destruct Hph as [Hph _].
    intros u Hu. exact (Hplace ph u Hph Hu).
Qed.

(** X15.  One document per identifier and per email is an invariant of
    the store under [register], [updateUserProfile], the administrative
    [updateUser], [approveUser], [disapproveUser] and [deleteUser],
    whatever the request.  The legacy [auth], which does not look at
    emails, keeps it when no account has the email it makes up for a new
    phone. *)
Theorem unique_accounts_kept
    {services : Services} (now : nat) (random : string) (id : nat)
    (b : Req.body) (st : Store) :
  unique_accounts st ->
  unique_accounts (snd (Auth.register now b st))
  /\ unique_accounts (snd (Auth.updateUserProfile id b st))
  /\ unique_accounts (snd (Admin.updateUser id b st))
  /\ unique_accounts (snd (Admin.approveUser id st))
  /\ unique_accounts (snd (Admin.disapproveUser id b st))
  /\ unique_accounts (snd (Admin.deleteUser id st))
  /\ ((forall ph u, Req.phone b = Some ph -> In u st ->
         email u <> ph ++ "@temp.ecoride.com") ->
      unique_accounts (snd (Auth.auth now random b st))).
Proof.
  intros Hst. pose proof Hst as [Hids Hems].
  split; [|split; [|split; [|split; [|split; [|split]]]]].
  - destruct (fst (Auth.register now b st)) as [e|resp] eqn:E.
    + now rewrite (proj2 (register_throws_bad_request now b st e E)).
    + destruct (register_answered now b st resp E)
        as [em [pw [r [user [_ [_ [_ [_ [_ [_ [Hfree [Hsnd [Hfresh [Heu _]]]]]]]]]]]]]].
      rewrite Hsnd. destruct Hst as [Hi He]. split; rewrite map_app; simpl.
      * now apply NoDup_snoc.
      * apply NoDup_snoc; [exact He|]. intros Hin. apply in_map_iff in Hin.
        destruct Hin as [u [Hu Huin]]. apply (Hfree u Huin). congruence.
  - destruct (Model.findById id st) as [u|] eqn:Hfind.
    + pose proof (findById_some _ _ _ Hfind) as [Hu Hid].
      destruct (updateUserProfile_store id b st u Hfind)
        as [->|[doc [-> [Hdoc [Hemail _]]]]]; [exact Hst|].
      destruct Hemail as [Hsame|Hother].
      * apply (save_same_email doc u st); auto. congruence.
      * split; [now rewrite save_ids|].
        apply (save_unique_emails doc u st); auto; [congruence|].
        intros v Hv Hvid. apply Hother; auto. congruence.
    + now rewrite (updateUserProfile_unknown id b st Hfind).
  - destruct (Model.findById id st) as [u|] eqn:Hfind.
    + pose proof (findById_some _ _ _ Hfind) as [Hu Hid].
      destruct (updateUser_saved id b st u Hfind)
        as [[m ->]|[doc [-> [Hdoc [Hemail _]]]]]; [exact Hst|]. cbn [snd].
      destruct Hemail as [Hsame|[_ Hother]].
      * apply (save_same_email doc u st); auto. congruence.
      * split; [now rewrite save_ids|].
        apply (save_unique_emails doc u st); auto; [congruence|].
        intros v Hv Hvid. apply Hother; auto. congruence.
    + now rewrite (proj2 (proj2 (proj2 (unknown_id_store id b st Hfind)))).
  - destruct (Model.findById id st) as [u|] eqn:Hfind.
    + pose proof (findById_some _ _ _ Hfind) as [Hu Hid].
      rewrite (approveUser_found id st u Hfind). cbn [snd].
      apply (save_same_email _ u st); auto.
    + now rewrite (proj1 (unknown_id_store id b st Hfind)).
  - destruct (Model.findById id st) as [u|] eqn:Hfind.
    + pose proof (findById_some _ _ _ Hfind) as [Hu Hid].
      pose proof (disapproveUser_found id b st u Hfind) as Hrun. cbv zeta in Hrun.
      rewrite Hrun. cbn [snd]. apply (save_same_email _ u st); auto.
    + now rewrite (proj1 (proj2 (unknown_id_store id b st Hfind))).
  - destruct (Model.findById id st) as [u|] eqn:Hfind.
    + rewrite (deleteUser_found id st u Hfind). cbn [snd].
      split; apply delete_keeps_unique; assumption.
    + now rewrite (proj1 (proj2 (proj2 (unknown_id_store id b st Hfind)))).
  - intros Hplace. apply (auth_store_unique now random b st Hst Hplace).
Qed.

(** ** The listing, continued *)

Section ListingRun.
Context {services : Services}.

(** The listing as one expression: the accounts that are not admins and
    pass the [approved] and [search] filters, newest first, or a 500 when
    the pattern is not a regular expression. *)
Lemma getAllUsers_run (rq : Query.t) (st : Store) :
  let approved_ok u :=
    if field_is (Query.approved rq) "true" then approved u
    else if field_is (Query.approved rq) "false" then negb (approved u)
    else true in
  let listing (keep : User -> bool) :=
    let users := Admin.sort_newest_first (filter keep st) in
    (inr (mkResponse StatusCodes.OK
            (JObj [("count", JNum (List.length users));
                   ("users", JArr (map select_no_password users))])),
     st) in
  Admin.getAllUsers rq st =
    match Js.provided (Query.search rq) with
    | Some s =>
        match regex_i s with
        | Some test =>
            listing (fun u =>
              negb (role u =? "admin") && approved_ok u
              && (hit test (firstName u)
                  || (hit test (lastName u)
                      || (test (email u) || hit test (phone u)))))
        | None =>
            (inr (mkResponse StatusCodes.INTERNAL_SERVER_ERROR
                    (JObj [("message", JStr "Error fetching users");
                           ("error", JStr "Regular expression is invalid")])),
             st)
        end
    | None => listing (fun u => negb (role u =? "admin") && approved_ok u)
    end.
Proof.
  cbv zeta. destruct rq as [r a s].
  unfold Admin.getAllUsers, try_catch, bind, Admin.find, Admin.build_query.
  cbn [Query.role Query.approved Query.search].
  destruct (Js.provided s) as [pat|].
  - destruct (Js.provided r), (field_is a "true"), (field_is a "false");
      cbn [Admin.q_or Admin.assign_role Admin.assign_or Admin.assign_approved
           Admin.empty_query Admin.compile_or];
      destruct (regex_i pat) as [test|]; try reflexivity;
      cbn [respond ret];
      match goal with
      | |- ?L = ?R =>
          match L with
          | context [filter ?F st] =>
              match R with
              | context [filter ?G st] =>
                  rewrite (filter_ext F G); [reflexivity|]
              end
          end
      end;
      intros u; unfold Admin.selects, hit; cbn;
      destruct (role u =? "admin"), (approved u), (firstName u), (lastName u), (phone u);
      cbn; rewrite ?orb_false_r, ?andb_true_r; reflexivity.
  - destruct (Js.provided r), (field_is a "true"), (field_is a "false");
      cbn [Admin.q_or Admin.assign_role Admin.assign_or Admin.assign_approved
           Admin.empty_query]; cbn [respond ret];
      match goal with
      | |- ?L = ?R =>
          match L with
          | context [filter ?F st] =>
              match R with
              | context [filter ?G st] =>
                  rewrite (filter_ext F G); [reflexivity|]
              end
          end
      end;
      intros u; unfold Admin.selects; cbn;
      destruct (role u =? "admin"), (approved u); reflexivity.
Qed.
End ListingRun.

Lemma insert_desc_sorted (u : User) (l : list User) :
  newest_first l -> newest_first (Admin.insert_desc u l).
Proof.
  unfold newest_first. induction l as [|v l IH]; simpl; intros Hl.
  - constructor; constructor.
  - inversion Hl as [|? ? Hl' Hv]; subst.
    destruct (Nat.ltb_spec (createdAt v) (createdAt u)) as [Hlt|Hge].
    + constructor; [exact Hl|]. constructor; [lia|].
      rewrite Forall_forall in *. intros y Hy. specialize (Hv y Hy). lia.
    + constructor; [apply IH; exact Hl'|].
      rewrite Forall_forall in *. intros y Hy.
      apply insert_desc_In in Hy. destruct Hy as [->|Hy]; [exact Hge|auto].
Qed.

Lemma sort_newest_first_sorted (l : list User) :
  newest_first (Admin.sort_newest_first l).
Proof.
  induction l as [|v l IH]; simpl.
  - constructor.
  - now apply insert_desc_sorted.
Qed.

Lemma select_no_password_approved (u : User) :
  get "approved" (select_no_password u) = Some (JBool (approved u)).
Proof.
  unfold select_no_password, toJSON.
  destruct (firstName u), (middleName u), (lastName u), (phone u),
    (schoolId u), (licenseId u), (sex u); reflexivity.
Qed.

(** X16.  [getAllUsers] never changes the store and always answers,
    with 200 or 500.  The accounts of a 200 are in descending order of
    creation time, each without its password, and [count] is their
    number; a 500 carries no account. *)
Theorem getAllUsers_newest_first {services : Services} (rq : Query.t) (st : Store) :
  snd (Admin.getAllUsers rq st) = st
  /\ exists resp users,
       fst (Admin.getAllUsers rq st) = inr resp
       /\ returned_accounts (Admin.getAllUsers rq st) = map select_no_password users
       /\ newest_first users
       /\ ((code resp = StatusCodes.OK
            /\ get "count" (payload resp) = Some (JNum (List.length users))
            /\ get "users" (payload resp) = Some (JArr (map select_no_password users)))
           \/ (code resp = StatusCodes.INTERNAL_SERVER_ERROR
               /\ users = []
               /\ get "message" (payload resp) = Some (JStr "Error fetching users")
               /\ has_key "users" (payload resp) = false)).
Proof.
  rewrite (getAllUsers_run rq st). cbv zeta.
  assert (Hok : forall keep,
    let r :=
      (@inr HttpError Response
         (mkResponse StatusCodes.OK
            (JObj [("count", JNum (List.length
                                     (Admin.sort_newest_first (filter keep st))));
                   ("users", JArr (map select_no_password
                                     (Admin.sort_newest_first (filter keep st))))])),
       st) in
    snd r = st
    /\ exists resp users,
         fst r = inr resp
         /\ returned_accounts r = map select_no_password users
         /\ newest_first users
         /\ ((code resp = StatusCodes.OK
              /\ get "count" (payload resp) = Some (JNum (List.length users))
              /\ get "users" (payload resp)
                 = Some (JArr (map select_no_password users)))
             \/ (code resp = StatusCodes.INTERNAL_SERVER_ERROR
                 /\ users = []
                 /\ get "message" (payload resp) = Some (JStr "Error fetching users")
                 /\ has_key "users" (payload resp) = false))).
  { intros keep r. split; [reflexivity|].
    eexists. exists (Admin.sort_newest_first (filter keep st)).
    split; [reflexivity|]. split; [reflexivity|].
    split; [apply sort_newest_first_sorted|]. left. repeat split; reflexivity. }
  destruct (Js.provided (Query.search rq)) as [s|]; [|apply Hok].
  destruct (regex_i s) as [test|]; [apply Hok|].
  split; [reflexivity|]. eexists. exists [].
  split; [reflexivity|]. split; [reflexivity|]. split; [constructor|].
  right. repeat split; reflexivity.
Qed.

(** X17.  What [getAllUsers] lists when the request has no [role]
    filter: an account is in the response exactly when it is an account
    of the store, given without its password, that is not an admin, that
    has [approved] true when the [approved] filter is the string "true"
    and false when it is "false" (any other value is no filter), and, when
    a [search] is given, one of whose first name, last name, email and
    phone passes the test of the pattern.  A field that is undefined
    passes no test. *)
Theorem getAllUsers_lists_exactly
    {services : Services} (rq : Query.t) (st : Store) (account : json) :
  Js.provided (Query.role rq) = None ->
  In account (returned_accounts (Admin.getAllUsers rq st))
  <-> exists u,
        In u st /\ account = select_no_password u
        /\ role u <> "admin"
        /\ (Query.approved rq = Some "true" -> approved u = true)
        /\ (Query.approved rq = Some "false" -> approved u = false)
        /\ (forall s,
              Js.provided (Query.search rq) = Some s ->
              exists test,
                regex_i s = Some test
                /\ (hit test (firstName u) = true \/ hit test (lastName u) = true
                    \/ test (email u) = true \/ hit test (phone u) = true)).
Proof.
  intros _. rewrite (getAllUsers_run rq st). cbv zeta.
  assert (Happ : forall u,
    (if field_is (Query.approved rq) "true" then approved u
     else if field_is (Query.approved rq) "false" then negb (approved u)
     else true) = true
    <-> ((Query.approved rq = Some "true" -> approved u = true)
         /\ (Query.approved rq = Some "false" -> approved u = false))).
  { intros u.
    destruct (field_is (Query.approved rq) "true") eqn:Ht.
    - apply field_is_true in Ht. rewrite Ht. split.
      + intros H. split; [auto|discriminate].
      + intros [H _]. auto.
    - destruct (field_is (Query.approved rq) "false") eqn:Hf.
      + apply field_is_true in Hf. rewrite Hf. rewrite negb_true_iff. split.
        * intros H. split; [discriminate|auto].
        * intros [_ H]. auto.
      + split; [|reflexivity]. intros _. split; intros E;
          apply field_is_true in E; congruence. }
  assert (Hlist : forall keep : User -> bool,
    In account
      (returned_accounts
         (@inr HttpError Response
            (mkResponse StatusCodes.OK
               (JObj [("count", JNum (List.length
                                        (Admin.sort_newest_first (filter keep st))));
                      ("users", JArr (map select_no_password
                                        (Admin.sort_newest_first (filter keep st))))])),
          st))
    <-> exists u, In u st /\ account = select_no_password u /\ keep u = true).
  { intros keep. unfold returned_accounts. cbn. rewrite in_map_iff. split.
    - intros [u [<- Hu]]. apply (proj1 (sort_newest_first_In _ _)) in Hu.
      apply filter_In in Hu. exists u. tauto.
    - intros [u [Hu [-> Hk]]]. exists u. split; [reflexivity|].
      apply sort_newest_first_In. apply filter_In. tauto. }
  destruct (Js.provided (Query.search rq)) as [s|].
  - destruct (regex_i s) as [test|] eqn:Htest.
    + rewrite Hlist. split.
      * intros [u [Hu [-> Hk]]]. exists u.
        apply andb_prop in Hk. destruct Hk as [Hk Hs].
        apply andb_prop in Hk. destruct Hk as [Hr Ha].
        apply negb_true_iff, String.eqb_neq in Hr. apply Happ in Ha.
        repeat (split; [tauto|]). intros s' [= <-]. exists test.
        split; [exact Htest|].
        repeat (apply orb_prop in Hs; destruct Hs as [Hs|Hs]; [tauto|]). tauto.
      * intros [u [Hu [-> [Hr [Ht [Hf Hs]]]]]]. exists u.
        split; [exact Hu|]. split; [reflexivity|].
        destruct (Hs s eq_refl) as [test' [E Hhit]].
        rewrite Htest in E. injection E as <-.
        apply String.eqb_neq in Hr. rewrite Hr. cbn [negb andb].
        rewrite (proj2 (Happ u) (conj Ht Hf)). cbn [andb].
        destruct Hhit as [-> | [-> | [-> | ->]]]; rewrite ?orb_true_r; reflexivity.
    + unfold returned_accounts. cbn. split; [contradiction|].
      intros [u [_ [_ [_ [_ [_ Hs]]]]]].
      destruct (Hs s eq_refl) as [test [E _]]. congruence.
  - rewrite Hlist. split.
    + intros [u [Hu [-> Hk]]]. exists u.
      apply andb_prop in Hk. destruct Hk as [Hr Ha].
      apply negb_true_iff, String.eqb_neq in Hr. apply Happ in Ha.
      repeat (split; [tauto|]). intros s' E. discriminate E.
    + intros [u [Hu [-> [Hr [Ht [Hf _]]]]]]. exists u.
      split; [exact Hu|]. split; [reflexivity|].
      apply String.eqb_neq in Hr. rewrite Hr. cbn [negb andb].
      exact (proj2 (Happ u) (conj Ht Hf)).
Qed.

Lemma getAllUsers_lists_exactly_witness :
  In (select_no_password Demo.bob)
     (returned_accounts
        (Admin.getAllUsers (Query.mkQuery None (Some "true") (Some "JON")) Demo.store))
  <-> exists u,
        In u Demo.store /\ select_no_password Demo.bob = select_no_password u
        /\ role u <> "admin"
        /\ (Some "true" = Some "true" -> approved u = true)
        /\ (Some "true" = Some "false" -> approved u = false)
        /\ (forall s,
              Js.provided (Some "JON") = Some s ->
              exists test,
                regex_i s = Some test
                /\ (hit test (firstName u) = true \/ hit test (lastName u) = true
                    \/ test (email u) = true \/ hit test (phone u) = true)).
Proof.
  exact (getAllUsers_lists_exactly
           (Query.mkQuery None (Some "true") (Some "JON")) Demo.store
           (select_no_password Demo.bob) eq_refl).
Defined.

Lemma demo_store_unique : unique_accounts Demo.store.
Proof.
  split; repeat constructor; simpl; intuition discriminate.
Qed.

Lemma unique_accounts_kept_witness :
  unique_accounts
    (snd (Auth.register 40 (Demo.registration "n@x.com" "pw" "rider" None) Demo.store))
  /\ unique_accounts
       (snd (Admin.updateUser 1 (Demo.admin_update (Some "b@x.com") None None None)
               Demo.store))
  /\ unique_accounts
       (snd (Auth.auth 40 "r4nd0m" (Demo.phone_and_role "0999" "rider") Demo.store)).
Proof.
  split; [|split].
  - exact (proj1 (unique_accounts_kept 40 "r4nd0m" 1
                    (Demo.registration "n@x.com" "pw" "rider" None) Demo.store
                    demo_store_unique)).
  - exact (proj1 (proj2 (proj2 (unique_accounts_kept 40 "r4nd0m" 1
                    (Demo.admin_update (Some "b@x.com") None None None) Demo.store
                    demo_store_unique)))).
  - apply (proj2 (proj2 (proj2 (proj2 (proj2 (proj2
             (unique_accounts_kept 40 "r4nd0m" 1
                (Demo.phone_and_role "0999" "rider") Demo.store
                demo_store_unique))))))).
    intros ph u [= <-] [<-|[<-|[<-|[<-|[]]]]]; discriminate.
Defined.

(** ** Round trips through the profile *)

(** X18.  The license id that an account has, sent again through
    [updateUserProfile] with no email in the request, is accepted and
    stays as it is, provided that, when the account is a rider and the id
    is not empty, the formatting leaves the stored value as it is
    (trimming and upper-casing it gives it back) and it has at least 4
    characters. *)
Theorem licenseId_resubmitted_unchanged
    {services : Services} (uid : nat) (b : Req.body) (st : Store) (u : User)
    (f : string) :
  Model.findById uid st = Some u ->
  licenseId u = Some f ->
  (role u = "rider" -> f <> "" ->
   toUpperCase (trim f) = f /\ 4 <= js_length f) ->
  Req.licenseId b = Some f ->
  Js.provided (Req.email b) = None ->
  exists resp u',
    fst (Auth.updateUserProfile uid b st) = inr resp
    /\ code resp = StatusCodes.OK
    /\ Model.findById uid (snd (Auth.updateUserProfile uid b st)) = Some u'
    /\ licenseId u' = Some f.
Proof.
  intros Hfind Hstored Hfixed Hlic Hem.
  assert (Hgate : (role u =? "rider") && negb (f =? "") = true ->
                  toUpperCase (trim f) = f /\ 4 <= js_length f).
  { intros H. apply andb_prop in H. destruct H as [Hr Hf].
    apply String.eqb_eq in Hr. apply negb_true_iff, String.eqb_neq in Hf. auto. }
  assert (Hrun : exists resp,
            fst (Auth.updateUserProfile uid b st) = inr resp
            /\ code resp = StatusCodes.OK).
  { rewrite (updateUserProfile_found uid b st u Hfind). cbv zeta.
    rewrite Hlic, Hem.
    destruct ((role u =? "rider") && negb (f =? "")).
    - destruct (Hgate eq_refl) as [Hidem Hlen]. rewrite Hidem.
      destruct (Nat.ltb_spec (js_length f) 4); [lia|].
      eexists. split; reflexivity.
    - eexists. split; reflexivity. }
  destruct Hrun as [resp [Hresp Hcode]]. exists resp.
  destruct (updateUserProfile_saved uid b st u resp Hfind Hresp)
    as [u' [_ [Hu' [_ [_ [_ [_ [_ [_ Hlicense]]]]]]]]].
  exists u'. repeat (split; [assumption|]).
  rewrite Hlicense, Hlic.
  destruct ((role u =? "rider") && negb (f =? "")); [|reflexivity].
  now rewrite (proj1 (Hgate eq_refl)).
Qed.

Lemma licenseId_resubmitted_unchanged_witness :
  exists resp u',
    fst (Auth.updateUserProfile 1 (Demo.license (Some "AB12")) Demo.store) = inr resp
    /\ code resp = StatusCodes.OK
    /\ Model.findById 1
         (snd (Auth.updateUserProfile 1 (Demo.license (Some "AB12")) Demo.store))
       = Some u'
    /\ licenseId u' = Some "AB12".
Proof.
  apply (licenseId_resubmitted_unchanged 1 (Demo.license (Some "AB12")) Demo.store
           Demo.alice "AB12").
  - reflexivity.
  - reflexivity.
  - intros _ _. split; [reflexivity|vm_compute; lia].
  - reflexivity.
  - reflexivity.
Defined.

(** X19.  Reading after writing: when [updateUserProfile] answers, a
    [getUserProfile] of the same identity on the store it left answers 200
    with the same [user] object, the account as saved, without its
    password. *)
Theorem profile_read_after_update
    {services : Services} (uid : nat) (b : Req.body) (st : Store) (resp : Response) :
  fst (Auth.updateUserProfile uid b st) = inr resp ->
  exists u',
    Model.findById uid (snd (Auth.updateUserProfile uid b st)) = Some u'
    /\ get "user" (payload resp) = Some (select_no_password u')
    /\ Auth.getUserProfile uid (snd (Auth.updateUserProfile uid b st))
       = (inr (mkResponse StatusCodes.OK (JObj [("user", select_no_password u')])),
          snd (Auth.updateUserProfile uid b st))
    /\ has_key "password" (select_no_password u') = false.
Proof.
  intros Hresp.
  destruct (Model.findById uid st) as [u|] eqn:Hfind;
    [|rewrite (updateUserProfile_unknown uid b st Hfind) in Hresp; discriminate].
  destruct (updateUserProfile_saved uid b st u resp Hfind Hresp)
    as [u' [Hsave [Hu' _]]].
  exists u'. split; [exact Hu'|]. split.
  - pose proof (findById_some _ _ _ Hfind) as [_ Hid].
    revert Hresp Hsave Hu'.
    rewrite (updateUserProfile_found uid b st u Hfind). cbv zeta.
    destruct (Req.licenseId b) as [l|];
      [destruct ((role u =? "rider") && negb (l =? ""));
       [destruct (js_length (toUpperCase (trim l)) <? 4)%nat;
        [discriminate|]|]|];
      (destruct (Js.provided (Req.email b)) as [em|];
       [destruct (Model.findOne _ st); [discriminate|]|]);
      cbn [fst snd]; intros [= <-] _ Hu'; cbn [payload get assoc String.eqb];
      match goal with
      | H : Model.findById uid (Model.save ?doc st) = Some u' |- _ =>
          rewrite (findById_save uid doc u st) in H;
            [injection H as <-; reflexivity| |exact Hfind]
      end;
      match goal with
      | |- _id ?doc = uid =>
          rewrite <- Hid;
            first [ exact (proj1 (profile_doc_fields b u
                                    (Some (Some (toUpperCase (trim l)))) (Some em)))
                  | exact (proj1 (profile_doc_fields b u
                                    (Some (Some (toUpperCase (trim l)))) None))
                  | exact (proj1 (profile_doc_fields b u (Some (Some l)) (Some em)))
                  | exact (proj1 (profile_doc_fields b u (Some (Some l)) None))
                  | exact (proj1 (profile_doc_fields b u None (Some em)))
                  | exact (proj1 (profile_doc_fields b u None None)) ]
      end.
  - split.
    + unfold Auth.getUserProfile, bind, findById. rewrite Hu'. reflexivity.
    + apply select_no_password_has_no_password.
Qed.

Lemma profile_read_after_update_witness :
  exists u',
    Model.findById 1
      (snd (Auth.updateUserProfile 1
              (Demo.profile (Some "Alicia") None None None None None None) Demo.store))
      = Some u'
    /\ get "user"
         (payload (mkResponse StatusCodes.OK
                     (JObj [("message", JStr "Profile updated successfully");
                            ("user", select_no_password
                               (set_firstName (Some "Alicia") Demo.alice))])))
       = Some (select_no_password u')
    /\ Auth.getUserProfile 1
         (snd (Auth.updateUserProfile 1
                 (Demo.profile (Some "Alicia") None None None None None None)
                 Demo.store))
       = (inr (mkResponse StatusCodes.OK (JObj [("user", select_no_password u')])),
          snd (Auth.updateUserProfile 1
                 (Demo.profile (Some "Alicia") None None None None None None)
                 Demo.store))
    /\ has_key "password" (select_no_password u') = false.
Proof.
  apply (profile_read_after_update 1
           (Demo.profile (Some "Alicia") None None None None None None) Demo.store).
  reflexivity.
Defined.

(** ** Emails in use, and the two ways to log an admin in *)

(** X20.  An email that another account has is refused, and nothing is
    saved: [register] throws the [BadRequestError] "Email already in use"
    whatever the role of the request; [updateUserProfile] throws it once
    the license id, if any, has passed its check; the administrative
    [updateUser] answers 400 with that message when the email differs from
    the one the account has. *)
Theorem email_in_use_is_refused
    {services : Services} (now : nat) (id : nat) (b : Req.body) (st : Store)
    (em pw r : string) (u other : User) :
  Req.email b = Some em -> em <> "" ->
  In other st -> email other = em -> _id other <> id ->
  (Req.password b = Some pw -> pw <> "" ->
   Req.role b = Some r -> In r ["customer"; "rider"] ->
   Auth.register now b st = (inl (BadRequestError "Email already in use"), st))
  /\ (Model.findById id st = Some u ->
      Auth.updateUserProfile id b st
        = (inl (BadRequestError "Email already in use"), st)
      \/ Auth.updateUserProfile id b st
        = (inl (BadRequestError "License ID must be at least 4 characters"), st))
  /\ (Model.findById id st = Some u -> email u <> em ->
      Admin.updateUser id b st
        = (inr (mkResponse StatusCodes.BAD_REQUEST
                  (JObj [("message", JStr "Email already in use")])), st)).
Proof.
  intros Hem Hem' Hother Heo Hido.
  assert (Htaken : exists w,
            Model.findOne (fun v => (email v =? em) && negb (_id v =? id)%nat) st
            = Some w).
  { destruct (Model.findOne _ st) as [w|] eqn:E; [eauto|].
    pose proof (proj1 (findOne_none _ st) E other Hother) as Hf. cbn in Hf.
    rewrite Heo, String.eqb_refl in Hf. apply Nat.eqb_neq in Hido.
    rewrite Hido in Hf. discriminate. }
  destruct Htaken as [w Hw].
  split; [|split].
  - intros Hpw Hpw' Hr Hr'.
    assert (Hne : r <> "") by (intros ->; simpl in Hr'; intuition discriminate).
    unfold Auth.register, bind.
    rewrite (require_ok _ em _ st Hem Hem'), (require_ok _ pw _ st Hpw Hpw'),
      (require_ok _ r _ st Hr Hne).
    apply includes_In in Hr'. rewrite Hr'. cbn [negb throw_if ret].
    unfold findOne.
    destruct (Model.findOne (fun v => email v =? em) st) eqn:E; [reflexivity|].
    pose proof (proj1 (findOne_none _ st) E other Hother) as Hf. cbn in Hf.
    rewrite Heo, String.eqb_refl in Hf. discriminate.
  - intros Hfind. rewrite (updateUserProfile_found id b st u Hfind). cbv zeta.
    rewrite (provided_some _ em Hem Hem'), Hw.
    destruct (Req.licenseId b) as [l|]; [|now left].
    destruct ((role u =? "rider") && negb (l =? "")); [|now left].
    destruct (js_length (toUpperCase (trim l)) <? 4)%nat; [now right|now left].
  - intros Hfind Hdiff. rewrite (updateUser_found id b st u Hfind). cbv zeta.
    rewrite Hem, Hw.
    destruct (String.eqb_spec em (email u)) as [E|_]; [congruence|]. reflexivity.
Qed.

Lemma email_in_use_is_refused_witness :
  Auth.register 40 (Demo.credentials "b@x.com" "pw" "rider") Demo.store
    = (inl (BadRequestError "Email already in use"), Demo.store)
  /\ (Auth.updateUserProfile 1 (Demo.credentials "b@x.com" "pw" "rider") Demo.store
        = (inl (BadRequestError "Email already in use"), Demo.store)
      \/ Auth.updateUserProfile 1 (Demo.credentials "b@x.com" "pw" "rider") Demo.store
        = (inl (BadRequestError "License ID must be at least 4 characters"),
           Demo.store))
  /\ Admin.updateUser 1 (Demo.credentials "b@x.com" "pw" "rider") Demo.store
     = (inr (mkResponse StatusCodes.BAD_REQUEST
               (JObj [("message", JStr "Email already in use")])), Demo.store).
Proof.
  pose proof (email_in_use_is_refused 40 1 (Demo.credentials "b@x.com" "pw" "rider")
                Demo.store "b@x.com" "pw" "rider" Demo.alice Demo.bob
                eq_refl ltac:(discriminate) ltac:(simpl; tauto) eq_refl
                ltac:(discriminate)) as [H1 [H2 H3]].
  split; [|split].
  - apply H1; [reflexivity|discriminate|reflexivity|simpl; tauto].
  - apply H2. reflexivity.
  - apply H3; [reflexivity|discriminate].
Defined.

(** X21.  The admin login and [login] with the role admin agree.  For
    a request with an email and a password: one throws
    [UnauthenticatedError] "Invalid credentials" exactly when the other
    answers 401 "Invalid credentials", and one answers 200 for an account
    exactly when the other does, with the same account and the same two
    tokens. *)
Theorem admin_login_agrees_with_login
    {services : Services} (b : Req.body) (em pw : string) (st : Store) :
  Req.email b = Some em -> em <> "" ->
  Req.password b = Some pw -> pw <> "" ->
  Req.role b = Some "admin" ->
  (fst (Auth.login b st) = inl (UnauthenticatedError "Invalid credentials")
   <-> fst (AuthRoutes.admin_login b st)
       = inr (mkResponse StatusCodes.UNAUTHORIZED
                (JObj [("message", JStr "Invalid credentials")])))
  /\ (forall user,
        fst (Auth.login b st)
          = inr (mkResponse StatusCodes.OK
                   (JObj [("message", JStr "User logged in successfully");
                          ("user", toJSON user);
                          ("access_token", JStr (createAccessToken user));
                          ("refresh_token", JStr (createRefreshToken user))]))
        <-> fst (AuthRoutes.admin_login b st)
            = inr (mkResponse StatusCodes.OK
                     (JObj [("message", JStr "Admin logged in successfully");
                            ("user", toJSON user);
                            ("access_token", JStr (createAccessToken user));
                            ("refresh_token", JStr (createRefreshToken user))]))).
Proof.
  intros Hem Hem' Hpw Hpw' Hr.
  rewrite (login_after_guards b em pw "admin" st Hem Hem' Hpw Hpw' Hr
             ltac:(simpl; tauto)).
  assert (Hsame : forall (m1 m2 : string) (a a' : json) (x x' y y' : string),
    @inr HttpError Response
      (mkResponse StatusCodes.OK
         (JObj [("message", JStr m1); ("user", a);
                ("access_token", JStr x); ("refresh_token", JStr y)]))
    = inr (mkResponse StatusCodes.OK
             (JObj [("message", JStr m1); ("user", a');
                    ("access_token", JStr x'); ("refresh_token", JStr y')])) ->
    @inr HttpError Response
      (mkResponse StatusCodes.OK
         (JObj [("message", JStr m2); ("user", a);
                ("access_token", JStr x); ("refresh_token", JStr y)]))
    = inr (mkResponse StatusCodes.OK
             (JObj [("message", JStr m2); ("user", a');
                    ("access_token", JStr x'); ("refresh_token", JStr y')]))).
  { intros m1 m2 a a' x x' y y' H. injection H as -> -> ->. reflexivity. }
  unfold AuthRoutes.admin_login, try_catch, bind, findOne, Auth.compare.
  rewrite Hem, Hpw.
  destruct (Model.findOne _ st) as [user|]; cbn [respond ret fst snd].
  - destruct (comparePassword user (Some pw)) as [[|]|];
      cbn [negb andb String.eqb Ascii.eqb Bool.eqb respond ret throw fst snd].
    + split; [split; discriminate|].
      intros user'. unfold Auth.logged_in_body. split; apply Hsame.
    + split; [tauto|]. intros user'. split; discriminate.
    + split; [split; discriminate|]. intros user'. split; discriminate.
  - split; [tauto|]. intros user'. split; discriminate.
Qed.

Lemma admin_login_agrees_with_login_witness :
  (fst (Auth.login (Demo.credentials "root@x.com" "adm" "admin") Demo.store)
     = inl (UnauthenticatedError "Invalid credentials")
   <-> fst (AuthRoutes.admin_login (Demo.credentials "root@x.com" "adm" "admin")
              Demo.store)
       = inr (mkResponse StatusCodes.UNAUTHORIZED
                (JObj [("message", JStr "Invalid credentials")])))
  /\ (forall user,
        fst (Auth.login (Demo.credentials "root@x.com" "adm" "admin") Demo.store)
          = inr (mkResponse StatusCodes.OK
                   (JObj [("message", JStr "User logged in successfully");
                          ("user", toJSON user);
                          ("access_token", JStr (createAccessToken user));
                          ("refresh_token", JStr (createRefreshToken user))]))
        <-> fst (AuthRoutes.admin_login (Demo.credentials "root@x.com" "adm" "admin")
                   Demo.store)
            = inr (mkResponse StatusCodes.OK
                     (JObj [("message", JStr "Admin logged in successfully");
                            ("user", toJSON user);
                            ("access_token", JStr (createAccessToken user));
                            ("refresh_token", JStr (createRefreshToken user))]))).
Proof.
  apply (admin_login_agrees_with_login (Demo.credentials "root@x.com" "adm" "admin")
           "root@x.com" "adm" Demo.store).
  - reflexivity.
  - discriminate.
  - reflexivity.
  - discriminate.
  - reflexivity.
Defined.
